(** * Shopify fulfillment tool: allocation engine, manual toggle and rule engine

    A shallow embedding of [shopify_tool/analysis.py],
    [shopify_tool/rules.py], of the validation, alert and history steps of
    [shopify_tool/core.py] and of the tables that
    [shopify_tool/stock_export.py] and [shopify_tool/packing_lists.py]
    write.  DataFrames are lists of records (row sets),
    Python dictionaries are [gmap]s, missing values (None / NaN) are [None],
    and a raised Python exception is the [Raise] branch of [result]. *)

From Stdlib Require Import ZArith String Ascii List Bool Lia Permutation Sorted.
From stdpp Require Import base option list gmap strings sorting pretty.

Local Open Scope Z_scope.

(** ** Python and pandas primitives *)

Module Py.

(** Exceptions the modelled code can raise. *)
Inductive PyError : Type :=
| KeyError (key : string)
| AttributeError
| TypeError
| ValueError.

Inductive result (A : Type) : Type :=
| Ok (a : A)
| Raise (e : PyError).
Arguments Ok {A} a.
Arguments Raise {A} e.

Definition bind {A B} (m : result A) (k : A → result B) : result B :=
  match m with
  | Ok a => k a
  | Raise e => Raise e
  end.

Definition is_ok {A} (m : result A) : bool :=
  match m with Ok _ => true | Raise _ => false end.

(** [str.lower] and the cased-letter tests, on ASCII letters. *)
Definition is_upper (c : ascii) : bool :=
  let n := nat_of_ascii c in (65 <=? n)%nat && (n <=? 90)%nat.
Definition is_lower (c : ascii) : bool :=
  let n := nat_of_ascii c in (97 <=? n)%nat && (n <=? 122)%nat.
Definition lower_ascii (c : ascii) : ascii :=
  if is_upper c then ascii_of_nat (nat_of_ascii c + 32) else c.
Definition upper_ascii (c : ascii) : ascii :=
  if is_lower c then ascii_of_nat (nat_of_ascii c - 32) else c.

Fixpoint lower (s : string) : string :=
  match s with
  | EmptyString => EmptyString
  | String c s' => String (lower_ascii c) (lower s')
  end.

Fixpoint upper (s : string) : string :=
  match s with
  | EmptyString => EmptyString
  | String c s' => String (upper_ascii c) (upper s')
  end.

(** [str.title]: a letter that follows a cased letter is lowered, any
    other letter is raised. *)
Fixpoint title_go (prev_cased : bool) (s : string) : string :=
  match s with
  | EmptyString => EmptyString
  | String c s' =>
      let cased := is_upper c || is_lower c in
      String (if prev_cased then lower_ascii c else upper_ascii c)
             (title_go cased s')
  end.
Definition title (s : string) : string := title_go false s.

(** [needle in hay] on strings. *)
Fixpoint contains (needle hay : string) : bool :=
  String.prefix needle hay ||
  match hay with
  | EmptyString => false
  | String _ hay' => contains needle hay'
  end.

(** [s.split(sep)] for the two-character separator [", "]:
    [cur] holds the reversed characters of the piece being read. *)
Fixpoint split_comma_go (cur : string) (s : string) : list string :=
  match s with
  | EmptyString => [String.rev cur]
  | String c s' =>
      match s' with
      | String c' s'' =>
          if Ascii.eqb c ","%char && Ascii.eqb c' " "%char
          then String.rev cur :: split_comma_go EmptyString s''
          else split_comma_go (String c cur) s'
      | EmptyString => [String.rev (String c cur)]
      end
  end.
Definition split_comma (s : string) : list string :=
  split_comma_go EmptyString s.

(** [", ".join(l)] and friends. *)
Definition join (sep : string) (l : list string) : string :=
  String.concat sep l.

End Py.

Module Pd.

(** [Series.ffill]: a missing cell takes the last value seen above it. *)
Definition fill {A} (x prev : option A) : option A :=
  match x with
  | Some _ => x
  | None => prev
  end.

(** [Series.unique] / [drop_duplicates(keep="first")]: first occurrences,
    in order of appearance. *)
Fixpoint unique {A} `{EqDecision A} (l : list A) : list A :=
  match l with
  | [] => []
  | x :: l' => x :: filter (λ y, y ≠ x) (unique l')
  end.

(** [Series.nunique]: the number of distinct non-missing values. *)
Definition nunique {A} `{EqDecision A} (l : list (option A)) : nat :=
  length (unique (omap id l)).

(** Group keys of [groupby] on a text column: distinct, ascending. *)
Definition group_keys (l : list string) : list string :=
  merge_sort String.le (unique l).

(** Sum of an integer column. *)
Definition sum (l : list Z) : Z := foldr Z.add 0 l.

(** The value an int64 holds after an operation whose exact result is [z]:
    the integer of the int64 range that differs from [z] by a multiple of
    2^64. *)
Definition int64 (z : Z) : Z := (z + 2 ^ 63) mod 2 ^ 64 - 2 ^ 63.

End Pd.

(** ** analysis.py *)

Module Analysis.
Import Py Pd.

Definition Fulfillable : string := "Fulfillable".
Definition Not_Fulfillable : string := "Not Fulfillable".

(** *** _generalize_shipping_method *)

(** [lower] and [title] act on the ASCII letters: a shipping method is
    taken to have no other cased letter. *)
Definition _generalize_shipping_method (method : option string) : string :=
  match method with
  | None => "Unknown"
  | Some m =>
      let method := lower m in
      if bool_decide (method = "") then "Unknown"
      else if contains "dhl" method then "DHL"
      else if contains "dpd" method then "DPD"
      else if contains "international shipping" method then "PostOne"
      else title method
  end.

(** *** Input tables

    A cell of an integer column is modelled by the integer it holds, and
    the arithmetic on these cells is exact.  The code keeps such a column
    as int64, and as float64 once a merge has left a gap in it; its
    arithmetic is the exact one as long as the numbers stay between -2^53
    and 2^53.  The item totals of [recalculate_statistics] are wrapped
    with [int64], as the sums of the code are. *)

(** One line of the orders export (columns [Name], [Lineitem sku],
    [Lineitem quantity], [Shipping Method], [Shipping Country], [Tags],
    [Notes], [Total]). *)
Record OrderLine : Type := mkOrderLine {
  Name : option string;
  Lineitem_sku : option string;
  Lineitem_quantity : Z;
  Shipping_Method_in : option string;
  Shipping_Country : option string;
  Tags_in : option string;
  Notes_in : option string;
  Total : option Z
}.

(** One line of the stock export (columns [Артикул], [Име], [Наличност]). *)
Record StockLine : Type := mkStockLine {
  Artikul : option string;
  Ime : option string;
  Nalichnost : Z
}.

(** A row of [stock_clean_df]. *)
Record StockRecord : Type := mkStockRecord {
  stock_SKU : string;
  stock_Product_Name : option string;
  stock_Stock : Z
}.

(** A row of [orders_clean_df] joined with its order's [item_count]. *)
Record LineItem : Type := mkLineItem {
  li_Order_Number : string;
  li_SKU : string;
  li_Quantity : Z;
  li_Shipping_Method : option string;
  li_Shipping_Country : option string;
  li_Tags : option string;
  li_Notes : option string;
  li_Total_Price : option Z;
  li_item_count : nat
}.

(** A row of the analysis DataFrame [final_df]. *)
Record AnalysisRow : Type := mkRow {
  Order_Number : option string;
  Order_Type : option string;
  SKU : string;
  Product_Name : option string;
  Quantity : Z;
  Total_Price : option Z;
  Stock : option Z;
  Final_Stock : option Z;
  Stock_Alert : option string;
  Order_Fulfillment_Status : option string;
  Shipping_Provider : option string;
  Destination_Country : option string;
  Shipping_Method : option string;
  Tags : option string;
  Notes : option string;
  System_note : option string;
  Status_Note : option string
}.

Definition set_Final_Stock (v : option Z) (r : AnalysisRow) : AnalysisRow :=
  mkRow (Order_Number r) (Order_Type r) (SKU r) (Product_Name r) (Quantity r)
        (Total_Price r) (Stock r) v (Stock_Alert r)
        (Order_Fulfillment_Status r) (Shipping_Provider r)
        (Destination_Country r) (Shipping_Method r) (Tags r) (Notes r)
        (System_note r) (Status_Note r).

Definition set_Status (v : option string) (r : AnalysisRow) : AnalysisRow :=
  mkRow (Order_Number r) (Order_Type r) (SKU r) (Product_Name r) (Quantity r)
        (Total_Price r) (Stock r) (Final_Stock r) (Stock_Alert r)
        v (Shipping_Provider r)
        (Destination_Country r) (Shipping_Method r) (Tags r) (Notes r)
        (System_note r) (Status_Note r).

#[global] Instance OrderLine_eq_dec : EqDecision OrderLine.
Proof. solve_decision. Defined.
#[global] Instance StockRecord_eq_dec : EqDecision StockRecord.
Proof. solve_decision. Defined.
#[global] Instance LineItem_eq_dec : EqDecision LineItem.
Proof. solve_decision. Defined.
#[global] Instance AnalysisRow_eq_dec : EqDecision AnalysisRow.
Proof. solve_decision. Defined.

(** *** Data cleaning *)

(** The four [ffill] calls on [Name], [Shipping Method], [Shipping
    Country] and [Total], done row by row. *)
Fixpoint ffill_orders (name method country : option string)
         (total : option Z) (l : list OrderLine) : list OrderLine :=
  match l with
  | [] => []
  | o :: l' =>
      let name' := fill (Name o) name in
      let method' := fill (Shipping_Method_in o) method in
      let country' := fill (Shipping_Country o) country in
      let total' := fill (Total o) total in
      mkOrderLine name' (Lineitem_sku o) (Lineitem_quantity o) method'
                  country' (Tags_in o) (Notes_in o) total'
      :: ffill_orders name' method' country' total' l'
  end.

(** [orders_clean_df]: the kept columns, with [dropna(subset=["SKU"])]. *)
Definition orders_clean (orders_df : list OrderLine) : list OrderLine :=
  filter (λ o, is_Some (Lineitem_sku o))
         (ffill_orders None None None None orders_df).

(** [stock_clean_df]: [dropna(subset=["SKU"])] then
    [drop_duplicates(subset=["SKU"], keep="first")]. *)
Fixpoint drop_duplicate_SKU (seen : list string) (l : list StockRecord)
  : list StockRecord :=
  match l with
  | [] => []
  | r :: l' =>
      if decide (stock_SKU r ∈ seen) then drop_duplicate_SKU seen l'
      else r :: drop_duplicate_SKU (stock_SKU r :: seen) l'
  end.

Definition stock_clean (stock_df : list StockLine) : list StockRecord :=
  drop_duplicate_SKU []
    (omap (λ s, (λ k, mkStockRecord k (Ime s) (Nalichnost s)) <$> Artikul s)
          stock_df).

(** *** Fulfillment simulation *)

(** [order_item_counts]: [groupby("Order_Number").size()]; rows whose
    order number is missing belong to no group. *)
Definition order_item_counts (clean : list OrderLine) (o : string) : nat :=
  length (filter (λ l, Name l = Some o) clean).

(** [orders_with_counts]: the inner merge of the clean lines with the
    counts; it drops the lines that have no order number. *)
Definition orders_with_counts (clean : list OrderLine) : list LineItem :=
  omap (λ l,
          match Name l, Lineitem_sku l with
          | Some o, Some k =>
              Some (mkLineItem o k (Lineitem_quantity l)
                      (Shipping_Method_in l) (Shipping_Country l)
                      (Tags_in l) (Notes_in l) (Total l)
                      (order_item_counts clean o))
          | _, _ => None
          end) clean.

(** The sort key of [sort_values(by=["item_count", "Order_Number"],
    ascending=[False, True])]. *)
Definition priority_le (a b : string * nat) : Prop :=
  (b.2 < a.2)%nat ∨ (a.2 = b.2 ∧ String.le a.1 b.1).

#[global] Instance priority_le_dec : RelDecision priority_le.
Proof. intros a b. unfold priority_le. apply _. Defined.

Definition prioritized_orders (items : list LineItem) : list (string * nat) :=
  merge_sort priority_le
    (unique ((λ it, (li_Order_Number it, li_item_count it)) <$> items)).

(** The first inner loop: every line is compared with the live stock as
    it stands, a SKU that is not a key counting as 0. *)
Definition can_fulfill_order (live_stock : gmap string Z)
           (order_items : list LineItem) : bool :=
  forallb (λ item,
             negb (default 0 (live_stock !! li_SKU item) <? li_Quantity item)%Z)
          order_items.

(** The second inner loop: [live_stock[item["SKU"]] -= item["Quantity"]]
    reads the entry first and raises [KeyError] when there is none. *)
Fixpoint write_off (live_stock : gmap string Z) (order_items : list LineItem)
  : result (gmap string Z) :=
  match order_items with
  | [] => Ok live_stock
  | item :: rest =>
      match live_stock !! li_SKU item with
      | Some v =>
          write_off (<[li_SKU item := v - li_Quantity item]> live_stock) rest
      | None => Raise (KeyError (li_SKU item))
      end
  end.

Definition order_items_of (items : list LineItem) (order_number : string)
  : list LineItem :=
  filter (λ it, li_Order_Number it = order_number) items.

(** One iteration of the loop over the prioritized orders. *)
Definition simulate_order (items : list LineItem)
           (st : gmap string Z * gmap string string) (order_number : string)
  : result (gmap string Z * gmap string string) :=
  let '(live_stock, fulfillment_results) := st in
  let order_items := order_items_of items order_number in
  if can_fulfill_order live_stock order_items then
    bind (write_off live_stock order_items) (λ live_stock',
      Ok (live_stock', <[order_number := Fulfillable]> fulfillment_results))
  else
    Ok (live_stock, <[order_number := Not_Fulfillable]> fulfillment_results).

Fixpoint simulate (items : list LineItem)
         (st : gmap string Z * gmap string string) (orders : list string)
  : result (gmap string Z * gmap string string) :=
  match orders with
  | [] => Ok st
  | o :: rest => bind (simulate_order items st o) (λ st', simulate items st' rest)
  end.

Definition initial_live_stock (stock : list StockRecord) : gmap string Z :=
  list_to_map ((λ r, (stock_SKU r, stock_Stock r)) <$> stock).

(** *** Final report generation *)

Definition stock_lookup (stock : list StockRecord) (sku : string)
  : option StockRecord :=
  head (filter (λ r, stock_SKU r = sku) stock).

(** [Series.fillna(other)]: a missing cell takes the cell of [other] on the
    same row, which may be missing as well. *)
Definition fillna {A} (x other : option A) : option A :=
  match x with
  | Some _ => x
  | None => other
  end.

(** One row of [final_df].  [stock_cell] is the [Stock] cell after the left
    merge with the stock table and [final_cell] the [Final_Stock] cell after
    the left merge with [final_stock_levels]; [Final_Stock] is filled from
    [Stock] before [Stock] itself is filled with 0.  When a SKU of the
    orders is not in the stock table these two columns are float64 in the
    code, which holds the integers between -2^53 and 2^53 as they are. *)
Definition final_row (stock : list StockRecord) (live_stock : gmap string Z)
           (fulfillment_results : gmap string string) (history : list string)
           (it : LineItem) : AnalysisRow :=
  let rec := stock_lookup stock (li_SKU it) in
  let stock_cell := stock_Stock <$> rec in
  let final_cell := live_stock !! li_SKU it in
  let provider := _generalize_shipping_method (li_Shipping_Method it) in
  {| Order_Number := Some (li_Order_Number it);
     Order_Type := Some (if (1 <? li_item_count it)%nat then "Multi" else "Single");
     SKU := li_SKU it;
     Product_Name := rec ≫= stock_Product_Name;
     Quantity := li_Quantity it;
     Total_Price := li_Total_Price it;
     Stock := Some (default 0 stock_cell);
     Final_Stock := fillna final_cell stock_cell;
     Stock_Alert := Some "";
     Order_Fulfillment_Status := fulfillment_results !! li_Order_Number it;
     Shipping_Provider := Some provider;
     Destination_Country :=
       if bool_decide (provider = "DHL") then li_Shipping_Country it else Some "";
     Shipping_Method := li_Shipping_Method it;
     Tags := li_Tags it;
     Notes := li_Notes it;
     System_note :=
       Some (if bool_decide (li_Order_Number it ∈ history) then "Repeat" else "");
     Status_Note := Some "" |}.

(** *** recalculate_statistics *)

Record CourierData : Type := mkCourierData {
  courier_id : string;
  orders_assigned : nat;
  repeated_orders_found : nat
}.

Record Stats : Type := mkStats {
  total_orders_completed : nat;
  total_orders_not_completed : nat;
  total_items_to_write_off : Z;
  total_items_not_to_write_off : Z;
  couriers_stats : option (list CourierData)
}.

Definition has_status (st : string) (r : AnalysisRow) : Prop :=
  Order_Fulfillment_Status r = Some st.

#[global] Instance has_status_dec st r : Decision (has_status st r).
Proof. unfold has_status. apply _. Defined.

(** [int(df["Quantity"].sum())]: [Quantity] is an int64 column, and its sum
    wraps around. *)
Definition total_quantity (df : list AnalysisRow) : Z :=
  int64 (sum (Quantity <$> df)).

Definition recalculate_statistics (df : list AnalysisRow) : Stats :=
  let completed_orders_df := filter (has_status Fulfillable) df in
  let not_completed_orders_df := filter (has_status Not_Fulfillable) df in
  let provider_of r := default "Unknown" (Shipping_Provider r) in
  let courier_stats :=
    (λ provider,
       let group := filter (λ r, provider_of r = provider) completed_orders_df in
       mkCourierData provider
         (nunique (Order_Number <$> group))
         (nunique (Order_Number <$>
                     filter (λ r, System_note r = Some "Repeat") group)))
      <$> group_keys (provider_of <$> completed_orders_df) in
  {| total_orders_completed := nunique (Order_Number <$> completed_orders_df);
     total_orders_not_completed := nunique (Order_Number <$> not_completed_orders_df);
     total_items_to_write_off := total_quantity completed_orders_df;
     total_items_not_to_write_off := total_quantity not_completed_orders_df;
     couriers_stats :=
       match courier_stats with
       | [] => None
       | _ :: _ => Some courier_stats
       end |}.

(** *** run_analysis

    The two summary tables are derived from [final_df] only; they are
    added by [run_analysis_report] below, and this function returns
    [final_df] and [stats]. *)

Definition run_analysis (stock_df : list StockLine) (orders_df : list OrderLine)
           (history_df : list string) : result (list AnalysisRow * Stats) :=
  let orders_clean_df := orders_clean orders_df in
  let stock_clean_df := stock_clean stock_df in
  let items := orders_with_counts orders_clean_df in
  bind (simulate items (initial_live_stock stock_clean_df, ∅)
                 ((prioritized_orders items).*1))
       (λ '(live_stock, fulfillment_results),
          let final_df :=
            final_row stock_clean_df live_stock fulfillment_results history_df
              <$> items in
          Ok (final_df, recalculate_statistics final_df)).

(** *** toggle_order_fulfillment *)

Definition order_rows (df : list AnalysisRow) (order_number : string)
  : list AnalysisRow :=
  filter (λ r, Order_Number r = Some order_number) df.

(** [order_items.groupby("SKU")["Quantity"].sum()]. *)
Definition quantity_by_SKU (order_items : list AnalysisRow)
  : list (string * Z) :=
  (λ sku, (sku, sum (Quantity <$> filter (λ r, SKU r = sku) order_items)))
    <$> group_keys (SKU <$> order_items).

(** [df.loc[df["SKU"] == sku, "Final_Stock"] += delta]; a missing cell
    stays missing. *)
Definition add_Final_Stock (sku : string) (delta : Z) (df : list AnalysisRow)
  : list AnalysisRow :=
  (λ r, if decide (SKU r = sku)
        then set_Final_Stock ((λ v, v + delta) <$> Final_Stock r) r
        else r) <$> df.

(** [df.loc[df["Order_Number"] == order_number,
    "Order_Fulfillment_Status"] = new_status]. *)
Definition set_order_status (order_number new_status : string)
           (df : list AnalysisRow) : list AnalysisRow :=
  (λ r, if decide (Order_Number r = Some order_number)
        then set_Status (Some new_status) r
        else r) <$> df.

(** The pre-flight check: a SKU with no row is skipped; otherwise the
    [Final_Stock] of its first row is compared, and a comparison with a
    missing value is false. *)
Definition lacking_skus (df : list AnalysisRow) (items_needed : list (string * Z))
  : list string :=
  omap (λ '(sku, needed_qty),
          match head (filter (λ r, SKU r = sku) df) with
          | None => None
          | Some r =>
              match Final_Stock r with
              | Some current_stock =>
                  if (current_stock <? needed_qty)%Z then Some sku else None
              | None => None
              end
          end) items_needed.

(** The row added for a SKU that has no row yet: every column is None but
    [SKU], [Quantity], [Stock] and [Final_Stock]. *)
Definition placeholder_row (sku : string) : AnalysisRow :=
  {| Order_Number := None; Order_Type := None; SKU := sku;
     Product_Name := None; Quantity := 0; Total_Price := None;
     Stock := Some 0; Final_Stock := Some 0; Stock_Alert := None;
     Order_Fulfillment_Status := None; Shipping_Provider := None;
     Destination_Country := None; Shipping_Method := None; Tags := None;
     Notes := None; System_note := None; Status_Note := None |}.

Definition deduct_step (df : list AnalysisRow) (kv : string * Z)
  : list AnalysisRow :=
  let df' := if decide (kv.1 ∈ SKU <$> df) then df
             else df ++ [placeholder_row kv.1] in
  add_Final_Stock kv.1 (- kv.2) df'.

Definition insufficient_stock_message (lacking : list string) : string :=
  "Cannot force fulfill. Insufficient stock for SKUs: " +:+ join ", " lacking.

(** The branch taken when the order's status is ['Fulfillable']. *)
Definition unfulfill (rows : list AnalysisRow) (order_number : string)
  : list AnalysisRow :=
  let order_items := order_rows rows order_number in
  let stock_to_return := quantity_by_SKU order_items in
  set_order_status order_number Not_Fulfillable
    (foldl (λ d kv, add_Final_Stock kv.1 kv.2 d) rows stock_to_return).

(** The branch taken for any other status. *)
Definition force_fulfill (rows : list AnalysisRow) (order_number : string)
  : bool * option string * option (list AnalysisRow) :=
  let order_items := order_rows rows order_number in
  let items_needed := quantity_by_SKU order_items in
  let lacking := lacking_skus rows items_needed in
  if bool_decide (lacking = []) then
    (true, None,
     Some (set_order_status order_number Fulfillable
             (foldl deduct_step rows items_needed)))
  else (false, Some (insufficient_stock_message lacking), Some rows).

Definition toggle_order_fulfillment (df : option (list AnalysisRow))
           (order_number : string)
  : bool * option string * option (list AnalysisRow) :=
  match df with
  | None => (false, Some "Order number not found.", df)
  | Some rows =>
      match head (order_rows rows order_number) with
      | None => (false, Some "Order number not found.", df)
      | Some first =>
          let current_status := Order_Fulfillment_Status first in
          if decide (current_status = Some Fulfillable)
          then (true, None, Some (unfulfill rows order_number))
          else force_fulfill rows order_number
      end
  end.

(** *** The summary tables of run_analysis *)

(** A row of [summary_present_df] or [summary_missing_df] (columns [Name],
    [SKU], [Total Quantity]). *)
Record SummaryRow : Type := mkSummaryRow {
  summary_Name : string;
  summary_SKU : string;
  Total_Quantity : Z
}.

#[global] Instance SummaryRow_eq_dec : EqDecision SummaryRow.
Proof. solve_decision. Defined.

(** The order of the group keys of [groupby(["SKU", "Product_Name"])]:
    by SKU, then by product name. *)
Definition key_le (a b : string * string) : Prop :=
  String.le a.1 b.1 ∧ (a.1 = b.1 → String.le a.2 b.2).

#[global] Instance key_le_dec : RelDecision key_le.
Proof. intros a b. unfold key_le. apply _. Defined.

(** [df.groupby(["SKU", "Product_Name"], as_index=False)["Quantity"].sum()]
    with the columns renamed and reordered; a row whose product name is
    missing belongs to no group. *)
Definition summarize (df : list AnalysisRow) : list SummaryRow :=
  (λ key,
     mkSummaryRow key.2 key.1
       (sum (Quantity <$>
               filter (λ r, SKU r = key.1 ∧ Product_Name r = Some key.2) df)))
    <$> merge_sort key_le
          (unique (omap (λ r, (λ name, (SKU r, name)) <$> Product_Name r) df)).

Definition set_Product_Name (v : option string) (r : AnalysisRow) : AnalysisRow :=
  mkRow (Order_Number r) (Order_Type r) (SKU r) v (Quantity r)
        (Total_Price r) (Stock r) (Final_Stock r) (Stock_Alert r)
        (Order_Fulfillment_Status r) (Shipping_Provider r)
        (Destination_Country r) (Shipping_Method r) (Tags r) (Notes r)
        (System_note r) (Status_Note r).

Definition summary_present_df (final_df : list AnalysisRow) : list SummaryRow :=
  let present_df := filter (has_status Fulfillable) final_df in
  summarize present_df.

(** [Quantity > Stock] on one row; the comparison with a missing value is
    false. *)
Definition truly_missing (r : AnalysisRow) : Prop :=
  match Stock r with
  | Some stock => stock < Quantity r
  | None => False
  end.

#[global] Instance truly_missing_dec r : Decision (truly_missing r).
Proof. unfold truly_missing. destruct (Stock r); apply _. Defined.

Definition summary_missing_df (final_df : list AnalysisRow) : list SummaryRow :=
  let not_fulfilled_df := filter (has_status Not_Fulfillable) final_df in
  let truly_missing_df :=
    (λ r, set_Product_Name (Some (default "N/A" (Product_Name r))) r)
      <$> filter truly_missing not_fulfilled_df in
  match truly_missing_df with
  | [] => []
  | _ :: _ => summarize truly_missing_df
  end.

(** The four values that [run_analysis] returns. *)
Definition run_analysis_report (stock_df : list StockLine)
           (orders_df : list OrderLine) (history_df : list string)
  : result (list AnalysisRow * list SummaryRow * list SummaryRow * Stats) :=
  bind (run_analysis stock_df orders_df history_df) (λ '(final_df, stats),
    Ok (final_df, summary_present_df final_df, summary_missing_df final_df,
        stats)).

End Analysis.

(** ** rules.py *)

Module Rules.
Import Py Pd.

(** A cell of a DataFrame, or a JSON scalar of the rule configuration. *)
Inductive cell : Type :=
| NA
| Str (s : string)
| Int (n : Z)
| Bool (b : bool).

#[global] Instance cell_eq_dec : EqDecision cell.
Proof. solve_decision. Defined.

(** A DataFrame: its column labels and its rows; a label that a row does
    not bind reads as a missing value. *)
Record DataFrame : Type := mkDataFrame {
  columns : list string;
  rows : list (gmap string cell)
}.

#[global] Instance DataFrame_eq_dec : EqDecision DataFrame.
Proof. solve_decision. Defined.

Definition get_cell (r : gmap string cell) (col : string) : cell :=
  default NA (r !! col).

(** [df[col]] *)
Definition column (df : DataFrame) (col : string) : list cell :=
  (λ r, get_cell r col) <$> rows df.

(** [df[col] = v]: writes the whole column, creating it when absent. *)
Definition assign_column (col : string) (v : cell) (df : DataFrame) : DataFrame :=
  {| columns := if decide (col ∈ columns df) then columns df
                else columns df ++ [col];
     rows := (λ r, <[col := v]> r) <$> rows df |}.

(** [df.loc[mask, col] = f(df.loc[mask, col])], cell by cell; a column
    created by the assignment is missing on the other rows. *)
Definition update_where (mask : list bool) (col : string) (f : cell → cell)
           (df : DataFrame) : DataFrame :=
  {| columns := if decide (col ∈ columns df) then columns df
                else columns df ++ [col];
     rows := zip_with (λ (m : bool) r,
                         if m then <[col := f (get_cell r col)]> r
                         else if decide (col ∈ columns df) then r
                              else <[col := NA]> r)
                      mask (rows df) |}.

(** *** Operators *)

Inductive operator : Type :=
| _op_equals | _op_not_equals | _op_contains | _op_not_contains
| _op_greater_than | _op_less_than | _op_starts_with | _op_ends_with
| _op_is_empty | _op_is_not_empty.

Definition OPERATOR_MAP : gmap string operator :=
  list_to_map
    [("equals", _op_equals); ("does not equal", _op_not_equals);
     ("contains", _op_contains); ("does not contain", _op_not_contains);
     ("is greater than", _op_greater_than); ("is less than", _op_less_than);
     ("starts with", _op_starts_with); ("ends with", _op_ends_with);
     ("is empty", _op_is_empty); ("is not empty", _op_is_not_empty)].

(** Python's [==] between two scalars; a missing value equals nothing and
    a boolean is the integer 0 or 1. *)
Definition py_eq (a b : cell) : bool :=
  match a, b with
  | Str x, Str y => bool_decide (x = y)
  | Int x, Int y => bool_decide (x = y)
  | Bool x, Bool y => bool_decide (x = y)
  | Bool x, Int y | Int y, Bool x => bool_decide ((if x then 1 else 0) = y)
  | _, _ => false
  end.

Definition is_null (c : cell) : bool :=
  match c with NA => true | _ => false end.

(** [str(x)] *)
Definition py_str (c : cell) : string :=
  match c with
  | NA => "None"
  | Str s => s
  | Int n => pretty n
  | Bool b => if b then "True" else "False"
  end.

(** Truth value of a configuration string. *)
Definition truthy (s : option string) : bool :=
  match s with
  | Some (String _ _) => true
  | _ => false
  end.

Record Condition : Type := mkCondition {
  field : option string;
  cond_operator : option string;
  cond_value : cell
}.

Record Action : Type := mkAction {
  action_type : option string;
  action_value : cell
}.

Record Rule : Type := mkRule {
  rule_name : option string;
  rule_match : option string;
  conditions : list Condition;
  actions : list Action
}.

Section engine.

(** The pandas kernels behind the text and numeric operators
    ([Series.str.contains], [startswith], [endswith], [pd.to_numeric]
    with [float]): the series, the rule value, and the boolean series
    or the exception they produce. *)
Variable pandas_kernel : operator → list cell → cell → result (list bool).

Definition op_func (op : operator) (series_val : list cell) (rule_val : cell)
  : result (list bool) :=
  match op with
  | _op_equals => Ok ((λ c, py_eq c rule_val) <$> series_val)
  | _op_not_equals => Ok ((λ c, negb (py_eq c rule_val)) <$> series_val)
  | _op_is_empty =>
      Ok ((λ c, is_null c || py_eq c (Str "")) <$> series_val)
  | _op_is_not_empty =>
      Ok ((λ c, negb (is_null c) && negb (py_eq c (Str ""))) <$> series_val)
  | _ => pandas_kernel op series_val rule_val
  end.

(** The guard [all([field, operator, field in df.columns,
    operator in OPERATOR_MAP])]: the column label and operator of a
    condition that passes it. *)
Definition usable (df : DataFrame) (cond : Condition)
  : option (string * operator) :=
  match field cond, cond_operator cond with
  | Some f, Some o =>
      if truthy (Some f) && truthy (Some o) && bool_decide (f ∈ columns df)
      then (λ op, (f, op)) <$> OPERATOR_MAP !! o
      else None
  | _, _ => None
  end.

Fixpoint condition_results (df : DataFrame) (conds : list Condition)
  : result (list (list bool)) :=
  match conds with
  | [] => Ok []
  | cond :: rest =>
      match usable df cond with
      | None => condition_results df rest
      | Some (f, op) =>
          bind (op_func op (column df f) (cond_value cond)) (λ r,
          bind (condition_results df rest) (λ rs, Ok (r :: rs)))
      end
  end.

(** [pd.concat(results, axis=1).all(axis=1)] and [.any(axis=1)]. *)
Definition all_axis1 (n : nat) (results : list (list bool)) : list bool :=
  (λ i, forallb (λ col, default false (col !! i)) results) <$> seq 0 n.
Definition any_axis1 (n : nat) (results : list (list bool)) : list bool :=
  (λ i, existsb (λ col, default false (col !! i)) results) <$> seq 0 n.

Definition no_rows_match (df : DataFrame) : list bool :=
  replicate (length (rows df)) false.

Definition _get_matching_rows (df : DataFrame) (rule : Rule)
  : result (list bool) :=
  let match_type := upper (default "ALL" (rule_match rule)) in
  match conditions rule with
  | [] => Ok (no_rows_match df)
  | _ :: _ =>
      bind (condition_results df (conditions rule)) (λ results,
        match results with
        | [] => Ok (no_rows_match df)
        | _ :: _ =>
            if bool_decide (match_type = "ALL")
            then Ok (all_axis1 (length (rows df)) results)
            else Ok (any_axis1 (length (rows df)) results)
        end)
  end.

(** *** Actions *)

Definition type_of (action : Action) : string :=
  upper (default "" (action_type action)).

(** The local function [append_note] of the [ADD_TAG] branch. *)
Definition append_note (value : cell) (note : string) : cell :=
  if bool_decide (value ∈ Str <$> split_comma note) then Str note
  else if bool_decide (note = "") then value
       else Str (note +:+ ", " +:+ py_str value).

(** [.fillna("").astype(str)] on one cell. *)
Definition note_text (c : cell) : string :=
  match c with
  | NA => ""
  | _ => py_str c
  end.

(** [series + " SKU_EXCLUDED"] on one cell: a missing value stays
    missing, a number cannot be added to a string. *)
Definition add_marker (c : cell) : result cell :=
  match c with
  | Str s => Ok (Str (s +:+ " SKU_EXCLUDED"))
  | NA => Ok NA
  | _ => Raise TypeError
  end.

Definition marker_or_na (c : cell) : cell :=
  match add_marker c with Ok c' => c' | Raise _ => NA end.

Definition execute_action (df : DataFrame) (matches : list bool)
           (action : Action) : result DataFrame :=
  let value := action_value action in
  let ty := type_of action in
  if bool_decide (ty = "ADD_TAG") then
    Ok (update_where matches "Status_Note"
          (λ c, append_note value (note_text c)) df)
  else if bool_decide (ty = "SET_STATUS") then
    Ok (update_where matches "Order_Fulfillment_Status" (λ _, value) df)
  else if bool_decide (ty = "SET_PRIORITY") then
    Ok (update_where matches "Priority" (λ _, value) df)
  else if bool_decide (ty = "EXCLUDE_FROM_REPORT") then
    Ok (update_where matches "_is_excluded" (λ _, Bool true) df)
  else if bool_decide (ty = "EXCLUDE_SKU") then
    if bool_decide ("SKU" ∈ columns df) && bool_decide ("Quantity" ∈ columns df)
    then
      let sku_matches := (λ c, py_eq c value) <$> column df "SKU" in
      let final_matches := zip_with andb matches sku_matches in
      let df' := update_where final_matches "Quantity" (λ _, Int 0) df in
      let selected :=
        (zip final_matches (column df' "Status_Note")) ≫=
          (λ '(m, c), if m : bool then [c] else []) in
      if forallb (λ c, is_ok (add_marker c)) selected
      then Ok (update_where final_matches "Status_Note" marker_or_na df')
      else Raise TypeError
    else Ok df
  else Ok df.

Fixpoint _execute_actions (df : DataFrame) (matches : list bool)
         (acts : list Action) : result DataFrame :=
  match acts with
  | [] => Ok df
  | action :: rest =>
      bind (execute_action df matches action) (λ df',
        _execute_actions df' matches rest)
  end.

(** *** _prepare_df_for_actions *)

Definition needed_column (action : Action) : option string :=
  let ty := type_of action in
  if bool_decide (ty = "SET_PRIORITY") then Some "Priority"
  else if bool_decide (ty = "EXCLUDE_FROM_REPORT") then Some "_is_excluded"
  else if bool_decide (ty = "EXCLUDE_SKU") then Some "Status_Note"
  else if bool_decide (ty = "ADD_TAG") then Some "Status_Note"
  else None.

Definition needed_columns (rules : list Rule) : list string :=
  omap needed_column (rules ≫= actions).

Definition ensure_column (needed : list string) (col : string)
           (default_value : cell) (df : DataFrame) : DataFrame :=
  if bool_decide (col ∈ needed) && negb (bool_decide (col ∈ columns df))
  then assign_column col default_value df
  else df.

Definition _prepare_df_for_actions (rules : list Rule) (df : DataFrame)
  : DataFrame :=
  let needed := needed_columns rules in
  ensure_column needed "Status_Note" (Str "")
    (ensure_column needed "_is_excluded" (Bool false)
       (ensure_column needed "Priority" (Str "Normal") df)).

(** *** apply *)

(** The body of the loop over the rules. *)
Definition apply_rule (df : DataFrame) (rule : Rule) : result DataFrame :=
  bind (_get_matching_rows df rule) (λ matches,
    if existsb id matches
    then _execute_actions df matches (actions rule)
    else Ok df).

Fixpoint apply_rules (df : DataFrame) (rules : list Rule) : result DataFrame :=
  match rules with
  | [] => Ok df
  | rule :: rest => bind (apply_rule df rule) (λ df', apply_rules df' rest)
  end.

(** [RuleEngine(rules_config).apply(df)]; [None] is a configuration that
    is not a list. *)
Definition apply (rules_config : option (list Rule)) (df : DataFrame)
  : result DataFrame :=
  match rules_config with
  | None | Some [] => Ok df
  | Some rules => apply_rules (_prepare_df_for_actions rules df) rules
  end.

End engine.

End Rules.

(** ** core.py *)

Module Core.
Import Py Pd Analysis Rules.

(** The part of the configuration dictionary that the functions below
    read; [None] is a key that the dictionary does not have. *)
Record ColumnMappings : Type := mkColumnMappings {
  orders_required : option (list string);
  stock_required : option (list string)
}.

Record Config : Type := mkConfig {
  column_mappings : option ColumnMappings;
  low_stock_threshold : option Z
}.

(** *** _validate_dataframes *)

(** The two loops over the required columns, on the column labels of the
    two DataFrames. *)
Definition missing_column_errors (file : string) (required columns : list string)
  : list string :=
  foldl (λ errors col,
           if decide (col ∈ columns) then errors
           else errors ++ ["Missing required column in " +:+ file
                           +:+ " file: '" +:+ col +:+ "'"])
        [] required.

Definition _validate_dataframes (orders_columns stock_columns : list string)
           (config : Config) : list string :=
  let mappings :=
    default (mkColumnMappings None None) (column_mappings config) in
  let required_orders_cols := default [] (orders_required mappings) in
  let required_stock_cols := default [] (stock_required mappings) in
  missing_column_errors "Orders" required_orders_cols orders_columns
  ++ missing_column_errors "Stock" required_stock_cols stock_columns.

(** *** validate_csv_headers *)

(** What [pd.read_csv(file_path, nrows=0, delimiter=delimiter)] does: it
    returns the header row or raises. *)
Inductive read_csv_outcome : Type :=
| Headers (headers : list string)
| FileNotFoundError
| ParserError (e : string)
| OtherException (e : string).

Definition validate_csv_headers (read_csv : read_csv_outcome)
           (file_path : string) (required_columns : list string)
  : bool * list string :=
  match required_columns with
  | [] => (true, [])
  | _ :: _ =>
      match read_csv with
      | Headers headers =>
          let missing_columns :=
            filter (λ col, col ∉ headers) required_columns in
          match missing_columns with
          | [] => (true, [])
          | _ :: _ => (false, missing_columns)
          end
      | FileNotFoundError =>
          (false, ["File not found at path: " +:+ file_path])
      | ParserError e =>
          (false, ["Could not parse file. It might be corrupt or not a "
                   +:+ "valid CSV. Error: " +:+ e])
      | OtherException e =>
          (false, ["An unexpected error occurred: " +:+ e])
      end
  end.

(** *** run_full_analysis, step 2.5: the stock alerts *)

Definition set_Stock_Alert (v : option string) (r : AnalysisRow) : AnalysisRow :=
  mkRow (Order_Number r) (Order_Type r) (SKU r) (Product_Name r) (Quantity r)
        (Total_Price r) (Stock r) (Final_Stock r) v
        (Order_Fulfillment_Status r) (Shipping_Provider r)
        (Destination_Country r) (Shipping_Method r) (Tags r) (Notes r)
        (System_note r) (Status_Note r).

(** [final_df["Final_Stock"] < low_stock_threshold] on one row; the
    comparison with a missing value is false. *)
Definition below_threshold (low_stock_threshold : Z) (r : AnalysisRow) : bool :=
  match Final_Stock r with
  | Some v => (v <? low_stock_threshold)%Z
  | None => false
  end.

Definition low_stock_alerts (config : Config) (final_df : list AnalysisRow)
  : list AnalysisRow :=
  match low_stock_threshold config with
  | None => final_df
  | Some threshold =>
      (λ r, set_Stock_Alert
              (Some (if below_threshold threshold r then "Low Stock" else "")) r)
        <$> final_df
  end.

(** *** run_full_analysis, step 4: the fulfillment history *)

(** A row of the history file (columns [Order_Number], [Execution_Date]). *)
Record HistoryRow : Type := mkHistoryRow {
  history_Order_Number : option string;
  Execution_Date : option string
}.

#[global] Instance HistoryRow_eq_dec : EqDecision HistoryRow.
Proof. solve_decision. Defined.

(** [drop_duplicates(subset=["Order_Number"], keep="last")] *)
Fixpoint drop_duplicates_keep_last (l : list HistoryRow) : list HistoryRow :=
  match l with
  | [] => []
  | row :: l' =>
      if decide (history_Order_Number row ∈ history_Order_Number <$> l')
      then drop_duplicates_keep_last l'
      else row :: drop_duplicates_keep_last l'
  end.

(** The order numbers of the Fulfillable rows, each once. *)
Definition newly_fulfilled (final_df : list AnalysisRow) : list (option string) :=
  unique (Order_Number <$> filter (has_status Fulfillable) final_df).

(** The history written back after a run, [None] when nothing is written
    because no order was fulfilled; [today] is the date of the run. *)
Definition updated_history (history_df : list HistoryRow)
           (final_df : list AnalysisRow) (today : string)
  : option (list HistoryRow) :=
  match newly_fulfilled final_df with
  | [] => None
  | newly =>
      Some (drop_duplicates_keep_last
              (history_df ++ ((λ o, mkHistoryRow o (Some today)) <$> newly)))
  end.

(** *** get_unique_column_values *)

(** [Series.unique] on a column of scalars: first occurrences, two values
    being the same when Python's [==] says so. *)
Fixpoint unique_values (l : list cell) : list cell :=
  match l with
  | [] => []
  | x :: l' => x :: filter (λ y, py_eq y x = false) (unique_values l')
  end.

(** The cells of a frame are texts, integers, booleans or missing: an
    [Int] cell is a cell of a column that pandas keeps as integers, whose
    text is the integer.  A column that pandas keeps as floats (a numeric
    column with a gap, such as [Final_Stock] after a run with an unstocked
    SKU) has 10.0 as the text of 10 and is not covered. *)
Definition get_unique_column_values (df : DataFrame) (column_name : string)
  : list string :=
  if bool_decide (rows df = []) || bool_decide (columns df = [])
     || negb (bool_decide (column_name ∈ columns df))
  then []
  else
    let unique_values :=
      unique_values (filter (λ c, is_null c = false) (column df column_name)) in
    merge_sort String.le (py_str <$> unique_values).

End Core.

(** ** stock_export.py and packing_lists.py *)

(** The query that [create_stock_export] and [create_packing_list] build
    from the filters of a report, in the same lines of code. *)
Module ReportQuery.
Import Py Pd Analysis.

(** The value of a filter: a string, or any other value (a number, a list
    for the operators [in] and [not in]), of which only [str(value)]
    enters the query. *)
Inductive filter_value : Type :=
| Text (s : string)
| Formatted (str_of_value : string).

(** A filter of a report configuration; [None] is a key that the
    dictionary does not have, or the value [None]. *)
Record Filter : Type := mkFilter {
  filter_field : option string;
  filter_operator : option string;
  value : option filter_value
}.

Section query.

(** Python's [repr] of a string. *)
Variable repr : string → string.

(** The loop over the filters: a filter with a missing or empty field or
    operator, or without a value, is skipped. *)
Definition query_part (f : Filter) : option string :=
  match filter_field f, filter_operator f, value f with
  | Some field, Some operator, Some v =>
      if bool_decide (field ≠ "") && bool_decide (operator ≠ "") then
        let formatted_value :=
          match v with
          | Text s => repr s
          | Formatted s => s
          end in
        Some ("`" +:+ field +:+ "` " +:+ operator +:+ " " +:+ formatted_value)
      else None
  | _, _, _ => None
  end.

Definition full_query (filters : option (list Filter)) : string :=
  let query_parts :=
    "Order_Fulfillment_Status == 'Fulfillable'"
    :: omap query_part (default [] filters) in
  join " & " query_parts.

End query.

End ReportQuery.

Module StockExport.
Import Py Pd Analysis ReportQuery.

Section create_stock_export.

Variable repr : string → string.

(** [analysis_df.query(full_query)]: the rows that satisfy the query, or
    the exception that the evaluation raises. *)
Variable query : string → list AnalysisRow → result (list AnalysisRow).

(** The DataFrame (columns [Артикул], [Наличност]) that
    [create_stock_export] hands to the Excel writer; [None] when an
    exception, caught and logged by the function, keeps it from writing. *)
Definition create_stock_export (analysis_df : list AnalysisRow)
           (filters : option (list Filter)) : option (list (string * Z)) :=
  match query (full_query repr filters) analysis_df with
  | Raise _ => None
  | Ok filtered_items =>
      Some
        match filtered_items with
        | [] => []
        | _ :: _ =>
            let sku_summary :=
              filter (λ kv, 0 < kv.2) (quantity_by_SKU filtered_items) in
            match sku_summary with
            | [] => []
            | _ :: _ => sku_summary
            end
        end
  end.

End create_stock_export.

End StockExport.

Module PackingLists.
Import Py Pd Analysis ReportQuery.

Definition set_Destination_Country (v : option string) (r : AnalysisRow)
  : AnalysisRow :=
  mkRow (Order_Number r) (Order_Type r) (SKU r) (Product_Name r) (Quantity r)
        (Total_Price r) (Stock r) (Final_Stock r) (Stock_Alert r)
        (Order_Fulfillment_Status r) (Shipping_Provider r)
        v (Shipping_Method r) (Tags r) (Notes r)
        (System_note r) (Status_Note r).

(** [fillna("")] on [Destination_Country] and [Product_Name]; the [SKU] of
    a row is never missing. *)
Definition fill_blanks (r : AnalysisRow) : AnalysisRow :=
  set_Product_Name (Some (default "" (Product_Name r)))
    (set_Destination_Country (Some (default "" (Destination_Country r))) r).

(** [Shipping_Provider.map(provider_map).fillna(3)] *)
Definition sort_priority (r : AnalysisRow) : Z :=
  match Shipping_Provider r with
  | Some "DHL" => 0
  | Some "PostOne" => 1
  | Some "DPD" => 2
  | _ => 3
  end.

(** The order of a column of order numbers, the missing ones last. *)
Definition order_number_le (a b : option string) : Prop :=
  match a, b with
  | Some x, Some y => String.le x y
  | _, None => True
  | None, Some _ => False
  end.

#[global] Instance order_number_le_dec : RelDecision order_number_le.
Proof. intros [x|] [y|]; simpl; apply _. Defined.

(** The order of [sort_values(by=["sort_priority", "Order_Number",
    "SKU"])]. *)
Definition packing_le (a b : AnalysisRow) : Prop :=
  sort_priority a < sort_priority b
  ∨ (sort_priority a = sort_priority b
     ∧ ((Order_Number a ≠ Order_Number b
         ∧ order_number_le (Order_Number a) (Order_Number b))
        ∨ (Order_Number a = Order_Number b ∧ String.le (SKU a) (SKU b)))).

#[global] Instance packing_le_dec : RelDecision packing_le.
Proof. intros a b. unfold packing_le. apply _. Defined.

(** A sort on several columns is stable: rows with equal keys stay in
    the order they had. *)
Fixpoint insert_row (r : AnalysisRow) (l : list AnalysisRow)
  : list AnalysisRow :=
  match l with
  | [] => [r]
  | r' :: l' =>
      if decide (packing_le r r') then r :: r' :: l'
      else r' :: insert_row r l'
  end.

Definition sort_values (l : list AnalysisRow) : list AnalysisRow :=
  foldr insert_row [] l.

(** [Destination_Country.where(~Order_Number.duplicated(), "")]: the
    country stays on the first row of each order number. *)
Fixpoint blank_repeated_country (seen : list (option string))
         (l : list AnalysisRow) : list AnalysisRow :=
  match l with
  | [] => []
  | r :: l' =>
      (if decide (Order_Number r ∈ seen)
       then set_Destination_Country (Some "") r else r)
      :: blank_repeated_country (Order_Number r :: seen) l'
  end.

(** A row of [print_list], in the order of [columns_for_print]. *)
Record PrintRow : Type := mkPrintRow {
  print_Destination_Country : option string;
  print_Order_Number : option string;
  print_SKU : string;
  print_Product_Name : option string;
  print_Quantity : Z;
  print_Shipping_Provider : option string
}.

Definition columns_for_print (r : AnalysisRow) : PrintRow :=
  mkPrintRow (Destination_Country r) (Order_Number r) (SKU r)
             (Product_Name r) (Quantity r) (Shipping_Provider r).

Section create_packing_list.

Variable repr : string → string.
Variable query : string → list AnalysisRow → result (list AnalysisRow).

(** The rows left after the query and the exclusion of SKUs. *)
Definition filtered_orders (analysis_df : list AnalysisRow)
           (filters : option (list Filter)) (exclude_skus : option (list string))
  : result (list AnalysisRow) :=
  bind (query (full_query repr filters) analysis_df) (λ filtered_orders,
    match exclude_skus, filtered_orders with
    | Some (sku :: skus), _ :: _ =>
        Ok (filter (λ r, SKU r ∉ sku :: skus) filtered_orders)
    | _, _ => Ok filtered_orders
    end).

(** The table that [create_packing_list] hands to the Excel writer;
    [None] when it writes nothing: no row is left, or an exception, caught
    and logged by the function, was raised. *)
Definition create_packing_list (analysis_df : list AnalysisRow)
           (filters : option (list Filter)) (exclude_skus : option (list string))
  : option (list PrintRow) :=
  match filtered_orders analysis_df filters exclude_skus with
  | Raise _ => None
  | Ok [] => None
  | Ok filtered_orders =>
      let sorted_list := sort_values (fill_blanks <$> filtered_orders) in
      Some (columns_for_print <$> blank_repeated_country [] sorted_list)
  end.

End create_packing_list.

(** *** The borders that group the rows of an order *)

(** [Order_Number.ne(Order_Number.shift())]: a row differs from the row
    above it; the first row does, and so does every comparison with a
    missing order number. *)
Definition differs (above : option (option string)) (o : option string) : bool :=
  match above, o with
  | Some (Some a), Some b => bool_decide (a ≠ b)
  | _, _ => true
  end.

(** [.cumsum()] of these booleans. *)
Fixpoint order_boundaries_go (above : option (option string)) (count : Z)
         (l : list (option string)) : list Z :=
  match l with
  | [] => []
  | o :: l' =>
      let count' := count + (if differs above o then 1 else 0) in
      count' :: order_boundaries_go (Some o) count' l'
  end.

Definition order_boundaries (l : list (option string)) : list Z :=
  order_boundaries_go None 0 l.

(** The format of row [row_num]: "top", "middle", "bottom" or "full". *)
Definition row_type (order_numbers : list (option string)) (row_num : nat)
  : string :=
  let boundaries := order_boundaries order_numbers in
  let at_ i := default 0 (boundaries !! i) in
  let is_top :=
    bool_decide (row_num = 0%nat)
    || bool_decide (at_ row_num ≠ at_ (row_num - 1)%nat) in
  let is_bottom :=
    bool_decide (row_num = (length order_numbers - 1)%nat)
    || bool_decide (at_ row_num ≠ at_ (row_num + 1)%nat) in
  if is_top && is_bottom then "full"
  else if is_top then "top"
  else if is_bottom then "bottom"
  else "middle".

End PackingLists.

(** * Vocabulary of the properties

    Quantities and predicates the statements below are written with, and
    the row sets and rules of the examples. *)

Section analysis_vocabulary.
Import Py Pd Analysis.

(** The fields of a row that the toggle never writes. *)
Definition other_fields (r : AnalysisRow) :=
  (Order_Number r, Order_Type r, SKU r, Product_Name r, Quantity r,
   Total_Price r, Stock r, Stock_Alert r, Shipping_Provider r,
   Destination_Country r, Shipping_Method r, Tags r, Notes r,
   System_note r, Status_Note r).

(** A row set that differs from another one in [Final_Stock] and
    [Order_Fulfillment_Status] only. *)
Definition same_frame (df df' : list AnalysisRow) : Prop :=
  other_fields <$> df' = other_fields <$> df.


(** The status the toggle reads: that of the order's first row. *)
Definition current_status (rows : list AnalysisRow) (o : string)
  : option (option string) :=
  Order_Fulfillment_Status <$> head (order_rows rows o).

Definition sample_row (o sku : string) (q final : Z) (st : string)
  : AnalysisRow :=
  {| Order_Number := Some o; Order_Type := None; SKU := sku;
     Product_Name := None; Quantity := q; Total_Price := None;
     Stock := Some 10; Final_Stock := Some final; Stock_Alert := None;
     Order_Fulfillment_Status := Some st; Shipping_Provider := None;
     Destination_Country := None; Shipping_Method := None; Tags := None;
     Notes := None; System_note := None; Status_Note := None |}.

(** The fixture of the toggle tests. *)
Definition sample_analysis_df : list AnalysisRow :=
  [sample_row "1001" "SKU-A" 1 6 Fulfillable;
   sample_row "1001" "SKU-B" 2 8 Fulfillable;
   sample_row "1002" "SKU-A" 3 6 Not_Fulfillable].


(** What [add_Final_Stock] does to one row. *)
Definition bump (sku : string) (delta : Z) (r : AnalysisRow) : AnalysisRow :=
  if decide (SKU r = sku)
  then set_Final_Stock ((λ v, v + delta) <$> Final_Stock r) r
  else r.

(** The amount a list of (SKU, quantity) pairs moves for one SKU. *)
Fixpoint moved (g : Z → Z) (items : list (string * Z)) (sku : string) : Z :=
  match items with
  | [] => 0
  | kv :: rest =>
      (if decide (sku = kv.1) then g kv.2 else 0) + moved g rest sku
  end.

(** One row after un-fulfilling order [o]. *)
Definition unfulfilled_row (rows : list AnalysisRow) (o : string)
           (r : AnalysisRow) : AnalysisRow :=
  let items := quantity_by_SKU (order_rows rows o) in
  let r' := set_Final_Stock
              ((λ v, v + moved (λ q, q) items (SKU r)) <$> Final_Stock r) r in
  if decide (Order_Number r' = Some o)
  then set_Status (Some Not_Fulfillable) r' else r'.

(** What an order asks of one SKU: the quantities of its lines on it. *)
Definition demand (order_items : list LineItem) (sku : string) : Z :=
  sum (li_Quantity <$> filter (λ it, li_SKU it = sku) order_items).

Definition order_line (o sku : string) (q : Z) : OrderLine :=
  {| Name := Some o; Lineitem_sku := Some sku; Lineitem_quantity := q;
     Shipping_Method_in := Some "dhl"; Shipping_Country := Some "BG";
     Tags_in := None; Notes_in := None; Total := None |}.

Definition stock_line (sku : string) (q : Z) : StockLine :=
  {| Artikul := Some sku; Ime := None; Nalichnost := q |}.

(** The worked example of the specification: stock A:2, B:1; order M1
    needs A:1 and B:1, order S1 needs A:1. *)
Definition example_stock : list StockLine :=
  [stock_line "A" 2; stock_line "B" 1].

Definition example_orders : list OrderLine :=
  [order_line "S1" "A" 1; order_line "M1" "A" 1; order_line "M1" "B" 1].

Definition example_items : list LineItem :=
  orders_with_counts (orders_clean example_orders).

(** What the orders of [orders] that ended Fulfillable ask of one SKU. *)
Fixpoint written_off (items : list LineItem) (results : gmap string string)
         (orders : list string) (sku : string) : Z :=
  match orders with
  | [] => 0
  | o :: rest =>
      (if decide (results !! o = Some Fulfillable)
       then demand (order_items_of items o) sku else 0)
      + written_off items results rest sku
  end.

(** What all the orders of [orders] ask of one SKU. *)
Fixpoint total_demand (items : list LineItem) (orders : list string)
         (sku : string) : Z :=
  match orders with
  | [] => 0
  | o :: rest =>
      demand (order_items_of items o) sku + total_demand items rest sku
  end.







Definition zero_stats : Stats :=
  {| total_orders_completed := 0; total_orders_not_completed := 0;
     total_items_to_write_off := 0; total_items_not_to_write_off := 0;
     couriers_stats := None |}.

(** The quantity on the Fulfillable rows of one SKU. *)
Definition fulfilled_quantity (df : list AnalysisRow) (sku : string) : Z :=
  sum (Quantity <$>
         filter (λ r, SKU r = sku ∧ has_status Fulfillable r) df).

(** The batch of the exhaustive test: stock A:2 and C:0; order O1 needs
    3 of A, O2 needs 1 of B (not in the stock table), O3 needs 1 of A. *)
Definition exhaustive_stock : list StockLine :=
  [stock_line "A" 2; stock_line "C" 0].

Definition exhaustive_orders : list OrderLine :=
  [order_line "O1" "A" 3; order_line "O2" "B" 1; order_line "O3" "A" 1].

(** What order [o] asks of one SKU in a row set: the quantities of its
    rows on that SKU. *)
Definition order_quantity (rows : list AnalysisRow) (o sku : string) : Z :=
  sum (Quantity <$> filter (λ r, SKU r = sku) (order_rows rows o)).



(** The courier a Fulfillable row is counted under. *)
Definition provider_of (r : AnalysisRow) : string :=
  default "Unknown" (Shipping_Provider r).

(** The order numbers on a list of rows. *)
Definition orders_of (l : list AnalysisRow) : gset string :=
  list_to_set (omap id (Order_Number <$> l)).

(** A Fulfillable row of one order and shipping provider. *)
Definition provider_row (o provider : string) : AnalysisRow :=
  {| Order_Number := Some o; Order_Type := None; SKU := "SKU-A";
     Product_Name := None; Quantity := 1; Total_Price := None;
     Stock := Some 10; Final_Stock := Some 6; Stock_Alert := None;
     Order_Fulfillment_Status := Some Fulfillable;
     Shipping_Provider := Some provider;
     Destination_Country := None; Shipping_Method := None; Tags := None;
     Notes := None; System_note := None; Status_Note := None |}.

(** A row of a product that has a name. *)
Definition named_row (o sku name : string) (q : Z) (st : string)
  : AnalysisRow :=
  {| Order_Number := Some o; Order_Type := None; SKU := sku;
     Product_Name := Some name; Quantity := q; Total_Price := None;
     Stock := Some 10; Final_Stock := Some 5; Stock_Alert := None;
     Order_Fulfillment_Status := Some st; Shipping_Provider := None;
     Destination_Country := None; Shipping_Method := None; Tags := None;
     Notes := None; System_note := None; Status_Note := None |}.



(** The quantities of a row set are not negative and add up to less than
    2^63: no sum of them wraps around in int64. *)
Definition quantities_fit (rows : list AnalysisRow) : Prop :=
  Forall (λ r, 0 ≤ Quantity r) rows ∧ sum (Quantity <$> rows) < 2 ^ 63.

(** The numbers of a batch lie where the code holds them exactly, in its
    int64 columns and in the float64 columns that a merge with a gap
    leaves: every stock is between 0 and 2^53, and the quantities are not
    negative and add up to 2^53 at most. *)
Definition exact_numbers (stock_df : list StockLine)
           (orders_df : list OrderLine) : Prop :=
  Forall (λ s, 0 ≤ Nalichnost s ≤ 2 ^ 53) stock_df
  ∧ Forall (λ o, 0 ≤ Lineitem_quantity o) orders_df
  ∧ sum (Lineitem_quantity <$> orders_df) ≤ 2 ^ 53.

End analysis_vocabulary.

Section rules_vocabulary.
Import Py Pd Rules.

(** A condition the engine cannot evaluate: its operator is not a key of
    [OPERATOR_MAP], or its field is not a column of the row set. *)
Definition malformed (df : DataFrame) (cond : Condition) : Prop :=
  (∃ o, cond_operator cond = Some o ∧ OPERATOR_MAP !! o = None)
  ∨ (∃ f, field cond = Some f ∧ f ∉ columns df).

Definition with_conditions (conds : list Condition) (rule : Rule) : Rule :=
  {| rule_name := rule_name rule; rule_match := rule_match rule;
     conditions := conds; actions := actions rule |}.

(** The conditions of a rule that pass the guard. *)
Definition usable_conditions (df : DataFrame) (rule : Rule) : list Condition :=
  filter (λ c, is_Some (usable df c)) (conditions rule).

(** The examples below use only the operators that [op_func] evaluates
    itself, so any kernel will do. *)
Definition unused_kernel : operator → list cell → cell → result (list bool) :=
  λ _ _ _, Raise AttributeError.

Definition orders_frame : DataFrame :=
  {| columns := ["Order_Number"; "Shipping_Provider"; "Status_Note"];
     rows := [ {[ "Order_Number" := Str "#1001";
                  "Shipping_Provider" := Str "DHL";
                  "Status_Note" := Str "" ]};
               {[ "Order_Number" := Str "#1002";
                  "Shipping_Provider" := Str "DPD";
                  "Status_Note" := Str "Repeat" ]} ] |}.

Definition is_dhl : Condition :=
  {| field := Some "Shipping_Provider"; cond_operator := Some "equals";
     cond_value := Str "DHL" |}.

Definition unknown_field : Condition :=
  {| field := Some "NonExistentField"; cond_operator := Some "equals";
     cond_value := Str "a" |}.

Definition unknown_operator : Condition :=
  {| field := Some "Order_Number"; cond_operator := Some "resembles";
     cond_value := Str "#1001" |}.

Definition never_true : Condition :=
  {| field := Some "Order_Number"; cond_operator := Some "equals";
     cond_value := Str "no such order" |}.

Definition tag_rule (conds : list Condition) (tag : string) : Rule :=
  {| rule_name := None; rule_match := Some "ALL"; conditions := conds;
     actions := [ {| action_type := Some "ADD_TAG";
                     action_value := Str tag |} ] |}.

Definition one_order_frame : DataFrame :=
  {| columns := ["Order_Number"; "Status_Note"];
     rows := [ {[ "Order_Number" := Str "#1001"; "Status_Note" := Str "" ]} ] |}.

Definition is_order_1001 : Condition :=
  {| field := Some "Order_Number"; cond_operator := Some "equals";
     cond_value := Str "#1001" |}.

(** [RuleEngine([rule]).apply] run [n] times. *)
Fixpoint apply_times (n : nat) (rule : Rule) (df : DataFrame)
  : result DataFrame :=
  match n with
  | O => Ok df
  | S n' => bind (apply unused_kernel (Some [rule]) df) (apply_times n' rule)
  end.

Definition notes (d : result DataFrame) : option (list cell) :=
  match d with
  | Ok d => Some (column d "Status_Note")
  | Raise _ => None
  end.

(** A tag in which the separator [", "] does not occur. *)
Definition free_of_separator (v : string) : Prop := contains ", " v = false.

(** A frame that has none of the columns the actions write. *)
Definition bare_frame : DataFrame :=
  {| columns := ["Order_Number"; "Shipping_Provider"];
     rows := [ {[ "Order_Number" := Str "#1001";
                  "Shipping_Provider" := Str "DHL" ]};
               {[ "Order_Number" := Str "#1002";
                  "Shipping_Provider" := Str "DPD" ]} ] |}.

(** A frame that has the rows of another one in number, at least its
    columns, and the same cells in these columns on the rows that [mask]
    does not select. *)
Definition extends (mask : list bool) (df df' : DataFrame) : Prop :=
  length (rows df') = length (rows df)
  ∧ columns df ⊆ columns df'
  ∧ ∀ i r r', mask !! i = Some false →
              rows df !! i = Some r → rows df' !! i = Some r' →
              ∀ col, col ∈ columns df → get_cell r' col = get_cell r col.

(** A rule without actions, with a given match type and conditions. *)
Definition with_match (m : option string) (conds : list Condition) : Rule :=
  {| rule_name := None; rule_match := m; conditions := conds; actions := [] |}.
(** The match type of a rule is [ALL]: it is read without regard to case,
    and a rule without one is an [ALL] rule.  Every other rule is an [ANY]
    rule. *)
Definition is_all (rule : Rule) : Prop :=
  upper (default "ALL" (rule_match rule)) = "ALL".

(** Row [i] satisfies a condition: the condition passes the guard and its
    operator gives True on that row. *)
Definition holds_at (kernel : operator → list cell → cell → result (list bool))
           (df : DataFrame) (cond : Condition) (i : nat) : Prop :=
  ∃ f op res,
    usable df cond = Some (f, op)
    ∧ op_func kernel op (column df f) (cond_value cond) = Ok res
    ∧ res !! i = Some true.

(** The columns that the pre-scan of [apply] creates: those of Priority,
    _is_excluded and Status_Note that an action of the rules needs and the
    row set lacks. *)
Definition created_columns (rules : list Rule) (df : DataFrame) : list string :=
  filter (λ col, col ∈ needed_columns rules ∧ col ∉ columns df)
         ["Priority"; "_is_excluded"; "Status_Note"].

(** A condition that [RuleEngine(rules).apply(df)] cannot evaluate: its
    operator is not a key of [OPERATOR_MAP], or its field is neither a
    column of [df] nor a column that the pre-scan creates. *)
Definition dropped_by_engine (rules : list Rule) (df : DataFrame)
           (cond : Condition) : Prop :=
  (∃ o, cond_operator cond = Some o ∧ OPERATOR_MAP !! o = None)
  ∨ (∃ f, field cond = Some f
          ∧ (f ∉ columns df) ∧ (f ∉ created_columns rules df)).

Definition note_is_empty : Condition :=
  {| field := Some "Status_Note"; cond_operator := Some "is empty";
     cond_value := NA |}.

Definition has_order_number : Condition :=
  {| field := Some "Order_Number"; cond_operator := Some "is not empty";
     cond_value := NA |}.

End rules_vocabulary.

Section more_vocabulary.
Import Py Pd Analysis Rules.

(** The required columns a configuration names, none when the key is
    absent. *)
Definition required_orders_cols (config : Core.Config) : list string :=
  default [] (Core.column_mappings config ≫= Core.orders_required).

Definition required_stock_cols (config : Core.Config) : list string :=
  default [] (Core.column_mappings config ≫= Core.stock_required).

(** The configuration of the tests: four required columns of the orders
    export, two of the stock export, and a low stock threshold of 2. *)
Definition test_config : Core.Config :=
  {| Core.column_mappings :=
       Some {| Core.orders_required :=
                 Some ["Name"; "Lineitem sku"; "Lineitem quantity";
                       "Shipping Method"];
               Core.stock_required := Some ["Артикул"; "Наличност"] |};
     Core.low_stock_threshold := Some 2 |}.

(** The quantity a stock export lists for a SKU, 0 when it has no line
    for it. *)
Definition exported (export : list (string * Z)) (sku : string) : Z :=
  default 0 ((list_to_map export : gmap string Z) !! sku).

(** A [repr] for the examples: the string between single quotes. *)
Definition quoted (s : string) : string := "'" +:+ s +:+ "'".

(** A [DataFrame.query] for the examples: it evaluates the query that
    selects the Fulfillable rows and raises on any other one. *)
Definition fulfillable_query (q : string) (df : list AnalysisRow)
  : result (list AnalysisRow) :=
  if bool_decide (q = "Order_Fulfillment_Status == 'Fulfillable'")
  then Ok (filter (has_status Fulfillable) df)
  else Raise ValueError.

(** Row [i] of a column of order numbers starts a group: it is the first
    row, or its order number is not that of the row above, a missing
    order number being equal to none. *)
Definition starts_group (l : list (option string)) (i : nat) : Prop :=
  i = 0%nat
  ∨ ∃ above o, l !! (i - 1)%nat = Some above ∧ l !! i = Some o
               ∧ (above = None ∨ o = None ∨ above ≠ o).

(** Row [i] ends a group: it is the last row, or the next row starts
    one. *)
Definition ends_group (l : list (option string)) (i : nat) : Prop :=
  i = (length l - 1)%nat ∨ starts_group l (i + 1).

(** Two rows of one order with a country, and a row of another order. *)
Definition country_rows : list AnalysisRow :=
  [set_Product_Name (Some "Apple")
     (PackingLists.set_Destination_Country (Some "DE") (provider_row "1001" "DHL"));
   set_Product_Name (Some "Bread")
     (PackingLists.set_Destination_Country (Some "DE") (provider_row "1001" "DHL"));
   PackingLists.set_Destination_Country (Some "FR") (provider_row "1002" "DHL")].

(** The place of a courier in the picking order: DHL, PostOne, DPD, then
    all the others. *)
Definition courier_rank (provider : option string) : Z :=
  match provider with
  | Some "DHL" => 0
  | Some "PostOne" => 1
  | Some "DPD" => 2
  | _ => 3
  end.

(** The picking order of two rows of a packing list: by courier, then by
    order number, a missing one last, then by SKU. *)
Definition picked_before (p q : PackingLists.PrintRow) : Prop :=
  courier_rank (PackingLists.print_Shipping_Provider p)
  < courier_rank (PackingLists.print_Shipping_Provider q)
  ∨ (courier_rank (PackingLists.print_Shipping_Provider p)
     = courier_rank (PackingLists.print_Shipping_Provider q)
     ∧ match PackingLists.print_Order_Number p,
             PackingLists.print_Order_Number q with
       | Some x, Some y =>
           (x ≠ y ∧ String.le x y)
           ∨ (x = y ∧ String.le (PackingLists.print_SKU p)
                                (PackingLists.print_SKU q))
       | None, None =>
           String.le (PackingLists.print_SKU p) (PackingLists.print_SKU q)
       | Some _, None => True
       | None, Some _ => False
       end).

(** The columns of a row that a packing list prints as they are, a
    missing product name as the empty string. *)
Definition printed_columns (r : AnalysisRow) :=
  (Order_Number r, SKU r, default "" (Product_Name r), Quantity r,
   Shipping_Provider r).

End more_vocabulary.

(** * Properties *)

(** ** pandas primitives *)

Section pandas_facts.
Import Pd.
Context {A : Type} `{EqDecision A}.

Lemma elem_of_unique (l : list A) (x : A) : x ∈ unique l ↔ x ∈ l.
Proof.
  induction l as [|y l IH]; simpl; [done|].
  rewrite !elem_of_cons, list_elem_of_filter, IH.
  destruct (decide (x = y)) as [Heq|Hne]; [by split; [left|left]|].
  split; [intros [?|[_ ?]]; [done|by right] | intros [?|?]; [done|by right]].
Qed.

Lemma NoDup_unique (l : list A) : NoDup (unique l).
Proof.
  induction l as [|y l IH]; simpl; [constructor|].
  apply NoDup_cons. split.
  - rewrite list_elem_of_filter. by intros [Hne _].
  - by apply NoDup_filter.
Qed.

Lemma unique_nil_inv (l : list A) : unique l = [] → l = [].
Proof. by destruct l. Qed.
End pandas_facts.

Lemma elem_of_group_keys (l : list string) (k : string) :
  k ∈ Pd.group_keys l ↔ k ∈ l.
Proof.
  unfold Pd.group_keys. rewrite merge_sort_Permutation. apply elem_of_unique.
Qed.

Lemma NoDup_group_keys (l : list string) : NoDup (Pd.group_keys l).
Proof.
  unfold Pd.group_keys. rewrite merge_sort_Permutation. apply NoDup_unique.
Qed.

(** ** The manual toggle *)

Section toggle_facts.
Import Py Pd Analysis.

Lemma same_frame_refl df : same_frame df df.
Proof. done. Qed.

Lemma same_frame_trans df1 df2 df3 :
  same_frame df1 df2 → same_frame df2 df3 → same_frame df1 df3.
Proof. unfold same_frame. congruence. Qed.

Lemma same_frame_length df df' : same_frame df df' → length df' = length df.
Proof.
  intros H. apply (f_equal length) in H. by rewrite !length_fmap in H.
Qed.

Lemma same_frame_SKU df df' : same_frame df df' → SKU <$> df' = SKU <$> df.
Proof.
  intros H.
  apply (f_equal (fmap (M := list) (λ t, t.1.1.1.1.1.1.1.1.1.1.1.1.2))) in H.
  by rewrite <- !list_fmap_compose in H.
Qed.

Lemma add_Final_Stock_frame sku delta df :
  same_frame df (add_Final_Stock sku delta df).
Proof.
  unfold same_frame, add_Final_Stock. rewrite <- list_fmap_compose.
  apply list_fmap_ext. intros ? r _. simpl. by case_decide.
Qed.

Lemma set_order_status_frame o st df :
  same_frame df (set_order_status o st df).
Proof.
  unfold same_frame, set_order_status. rewrite <- list_fmap_compose.
  apply list_fmap_ext. intros ? r _. simpl. by case_decide.
Qed.

Lemma foldl_add_frame (g : Z → Z) items df :
  same_frame df (foldl (λ d kv, add_Final_Stock kv.1 (g kv.2) d) df items).
Proof.
  revert df. induction items as [|kv items IH]; intros df; simpl; [done|].
  eapply same_frame_trans; [apply add_Final_Stock_frame | apply IH].
Qed.

(** Every SKU that [groupby] yields for an order has a row in the row set,
    so the force-fulfill loop never adds a row. *)
Lemma quantity_by_SKU_tracked rows o kv :
  kv ∈ quantity_by_SKU (order_rows rows o) → kv.1 ∈ SKU <$> rows.
Proof.
  unfold quantity_by_SKU. rewrite list_elem_of_fmap.
  intros (k & -> & Hk). simpl. apply (proj1 (elem_of_group_keys _ _)) in Hk.
  apply list_elem_of_fmap in Hk as (r & -> & Hr).
  apply list_elem_of_fmap. exists r. split; [done|].
  unfold order_rows in Hr. by apply list_elem_of_filter in Hr as [_ ?].
Qed.

Lemma foldl_deduct_step_tracked items df :
  Forall (λ kv, kv.1 ∈ SKU <$> df) items →
  foldl deduct_step df items
  = foldl (λ d kv, add_Final_Stock kv.1 (- kv.2) d) df items.
Proof.
  revert df. induction items as [|kv items IH]; intros df Hall; simpl; [done|].
  inversion_clear Hall as [|?? Hkv Hrest].
  unfold deduct_step at 2. rewrite decide_True by done.
  apply IH. eapply Forall_impl; [exact Hrest|]. intros kv' Hin. simpl in *.
  by rewrite (same_frame_SKU _ _ (add_Final_Stock_frame _ _ _)).
Qed.

Lemma force_fulfill_deduct rows o :
  foldl deduct_step rows (quantity_by_SKU (order_rows rows o))
  = foldl (λ d kv, add_Final_Stock kv.1 (- kv.2) d) rows
          (quantity_by_SKU (order_rows rows o)).
Proof.
  apply foldl_deduct_step_tracked, Forall_forall.
  intros kv. apply quantity_by_SKU_tracked.
Qed.
End toggle_facts.

Section toggle_results.
Import Py Pd Analysis.



Lemma toggle_unfold_some rows o first :
  head (order_rows rows o) = Some first →
  toggle_order_fulfillment (Some rows) o
  = if decide (Order_Fulfillment_Status first = Some Fulfillable)
    then (true, None, Some (unfulfill rows o))
    else force_fulfill rows o.
Proof. intros H. unfold toggle_order_fulfillment. by rewrite H. Qed.

End toggle_results.






(** Claim C10.  A successful toggle returns a row set with the same number
    of rows, and each row keeps every field other than [Final_Stock] and
    [Order_Fulfillment_Status]. *)
Theorem toggle_writes_only_stock_and_status
        (rows rows' : list Analysis.AnalysisRow) (o : string)
        (err : option string) :
  Analysis.toggle_order_fulfillment (Some rows) o = (true, err, Some rows') →
  length rows' = length rows
  ∧ other_fields <$> rows' = other_fields <$> rows.
Proof.
  intros Htoggle. cut (same_frame rows rows').
  { intros Hf. split; [by apply same_frame_length | exact Hf]. }
  unfold Analysis.toggle_order_fulfillment in Htoggle.
  destruct (head (Analysis.order_rows rows o)) as [first|]; [|done].
  case_decide.
  - injection Htoggle as _ <-. unfold Analysis.unfulfill.
    eapply same_frame_trans; [|apply set_order_status_frame].
    apply (foldl_add_frame (λ q, q)).
  - unfold Analysis.force_fulfill in Htoggle.
    case_bool_decide; [|done]. injection Htoggle as _ <-.
    eapply same_frame_trans; [|apply set_order_status_frame].
    rewrite force_fulfill_deduct. apply (foldl_add_frame Z.opp).
Qed.

Lemma toggle_writes_only_stock_and_status_witness :
  ∃ rows', Analysis.toggle_order_fulfillment (Some sample_analysis_df) "1002"
           = (true, None, Some rows')
           ∧ length rows' = length sample_analysis_df
           ∧ other_fields <$> rows' = other_fields <$> sample_analysis_df.
Proof.
  eexists. split; [reflexivity|].
  apply (toggle_writes_only_stock_and_status sample_analysis_df _ "1002" None).
  reflexivity.
Defined.

(** ** The toggle round trip *)

Section round_trip.
Import Py Pd Analysis.

Lemma set_Final_Stock_id r : set_Final_Stock (Final_Stock r) r = r.
Proof. by destruct r. Qed.

Lemma set_Final_Stock_twice v w r :
  set_Final_Stock v (set_Final_Stock w r) = set_Final_Stock v r.
Proof. done. Qed.

Lemma shift_shift (a b : Z) (x : option Z) :
  (λ v, v + b) <$> ((λ v, v + a) <$> x) = (λ v, v + (a + b)) <$> x.
Proof. destruct x; simpl; [f_equal; lia | done]. Qed.

Lemma foldl_bump g items r :
  foldl (λ r kv, bump kv.1 (g kv.2) r) r items
  = set_Final_Stock ((λ v, v + moved g items (SKU r)) <$> Final_Stock r) r.
Proof.
  revert r. induction items as [|kv items IH]; intros r; simpl.
  - rewrite <- (set_Final_Stock_id r) at 1. f_equal.
    destruct (Final_Stock r); simpl; [f_equal; lia | done].
  - rewrite IH. unfold bump. destruct (decide (SKU r = kv.1)) as [Heq|Hne].
    + simpl. rewrite shift_shift. by rewrite set_Final_Stock_twice.
    + by rewrite Z.add_0_l.
Qed.

Lemma foldl_add_Final_Stock g items df :
  foldl (λ d kv, add_Final_Stock kv.1 (g kv.2) d) df items
  = (λ r, set_Final_Stock
            ((λ v, v + moved g items (SKU r)) <$> Final_Stock r) r) <$> df.
Proof.
  transitivity ((λ r, foldl (λ r kv, bump kv.1 (g kv.2) r) r items) <$> df).
  - revert df. induction items as [|kv items IH]; intros df; simpl.
    + by rewrite list_fmap_id.
    + rewrite IH. unfold add_Final_Stock. rewrite <- list_fmap_compose.
      by apply list_fmap_ext.
  - apply list_fmap_ext. intros _ r _. apply foldl_bump.
Qed.

Lemma moved_opp items sku : moved Z.opp items sku = - moved (λ q, q) items sku.
Proof.
  induction items as [|kv items IH]; simpl; [done|].
  rewrite IH. case_decide; lia.
Qed.



Lemma unfulfill_rows rows o :
  unfulfill rows o = unfulfilled_row rows o <$> rows.
Proof.
  unfold unfulfill, set_order_status.
  rewrite (foldl_add_Final_Stock (λ q, q)), <- list_fmap_compose.
  by apply list_fmap_ext.
Qed.




End round_trip.



(** ** The fulfillment simulation *)

Section simulation_facts.
Import Py Pd Analysis.

Lemma demand_nil sku : demand [] sku = 0.
Proof. done. Qed.

Lemma demand_cons it its sku :
  demand (it :: its) sku
  = (if decide (li_SKU it = sku) then li_Quantity it else 0) + demand its sku.
Proof.
  unfold demand. rewrite filter_cons. case_decide; [by rewrite fmap_cons|lia].
Qed.

Lemma demand_nonneg its sku :
  Forall (λ it, 0 ≤ li_Quantity it) its → 0 ≤ demand its sku.
Proof.
  induction 1 as [|it its Hit _ IH]; [done|].
  rewrite demand_cons. case_decide; lia.
Qed.


Lemma can_fulfill_order_true live_stock order_items :
  can_fulfill_order live_stock order_items = true
  ↔ ∀ it, it ∈ order_items →
          li_Quantity it ≤ default 0 (live_stock !! li_SKU it).
Proof.
  unfold can_fulfill_order. rewrite forallb_forall. split.
  - intros H it Hin. apply list_elem_of_In, H in Hin.
    apply negb_true_iff, Z.ltb_ge in Hin. lia.
  - intros H it Hin. apply list_elem_of_In, H in Hin.
    apply negb_true_iff, Z.ltb_ge. lia.
Qed.

Lemma can_fulfill_order_false live_stock order_items it :
  it ∈ order_items →
  default 0 (live_stock !! li_SKU it) < li_Quantity it →
  can_fulfill_order live_stock order_items = false.
Proof.
  intros Hin Hlt. apply not_true_is_false. intros Htrue.
  apply can_fulfill_order_true with (it := it) in Htrue; [lia|done].
Qed.

Lemma write_off_Ok live_stock order_items live_stock' :
  write_off live_stock order_items = Ok live_stock' →
  (∀ it, it ∈ order_items → is_Some (live_stock !! li_SKU it))
  ∧ ∀ sku, live_stock' !! sku
           = (λ v, v - demand order_items sku) <$> live_stock !! sku.
Proof.
  revert live_stock. induction order_items as [|it its IH]; intros ls Hw.
  - injection Hw as <-. split; [by intros ? ?%elem_of_nil|].
    intros sku. rewrite demand_nil. destruct (ls !! sku); simpl; [f_equal; lia|done].
  - simpl in Hw. destruct (ls !! li_SKU it) as [v|] eqn:Hv; [|done].
    apply IH in Hw as [Hkeys Hlook]. split.
    + intros it' [->|Hin]%elem_of_cons; [by rewrite Hv|].
      apply Hkeys in Hin. rewrite lookup_insert in Hin.
      case_decide as E; [by rewrite <- E, Hv | done].
    + intros sku. rewrite Hlook, demand_cons, lookup_insert.
      case_decide as Heq.
      * subst. rewrite Hv. simpl. f_equal. lia.
      * destruct (ls !! sku); simpl; [f_equal; lia|done].
Qed.

Lemma write_off_is_Ok live_stock order_items :
  (∀ it, it ∈ order_items → is_Some (live_stock !! li_SKU it)) →
  ∃ live_stock', write_off live_stock order_items = Ok live_stock'.
Proof.
  revert live_stock. induction order_items as [|it its IH]; intros ls Hkeys.
  - by eexists.
  - simpl. destruct (Hkeys it) as [v Hv]; [left|]. rewrite Hv.
    apply IH. intros it' Hin. rewrite lookup_insert. case_decide; [done|].
    apply Hkeys. by right.
Qed.

(** Subtracting nothing writes the value that was there. *)
Lemma write_off_zero live_stock order_items :
  (∀ it, it ∈ order_items → is_Some (live_stock !! li_SKU it)) →
  Forall (λ it, li_Quantity it = 0) order_items →
  write_off live_stock order_items = Ok live_stock.
Proof.
  intros Hkeys Hzero.
  destruct (write_off_is_Ok _ _ Hkeys) as [ls' Hw]. rewrite Hw. f_equal.
  apply write_off_Ok in Hw as [_ Hlook]. apply map_eq. intros sku.
  rewrite Hlook. assert (demand order_items sku = 0) as ->.
  { clear -Hzero. induction Hzero as [|it its Hq _ IH]; [done|].
    rewrite demand_cons, IH, Hq. by case_decide. }
  destruct (live_stock !! sku); simpl; [f_equal; lia|done].
Qed.
End simulation_facts.

Section simulate_facts.
Import Py Pd Analysis.
Variable items : list LineItem.

Lemma simulate_order_cases ls fr o ls' fr' :
  simulate_order items (ls, fr) o = Ok (ls', fr') →
  (can_fulfill_order ls (order_items_of items o) = true
   ∧ write_off ls (order_items_of items o) = Ok ls'
   ∧ fr' = <[o := Fulfillable]> fr)
  ∨ (can_fulfill_order ls (order_items_of items o) = false
     ∧ ls' = ls ∧ fr' = <[o := Not_Fulfillable]> fr).
Proof.
  unfold simulate_order.
  destruct (can_fulfill_order ls (order_items_of items o)).
  - destruct (write_off ls (order_items_of items o)) as [ls1|e]; [|done].
    simpl. intros [= <- <-]. by left.
  - intros [= <- <-]. by right.
Qed.

Lemma simulate_cons st o orders :
  simulate items st (o :: orders)
  = bind (simulate_order items st o) (λ st', simulate items st' orders).
Proof. done. Qed.


(** Every order the loop visits gets one of the two statuses, and the
    other entries of [fulfillment_results] are left alone. *)
Lemma simulate_results orders ls fr ls' fr' :
  simulate items (ls, fr) orders = Ok (ls', fr') →
  ∀ o, (o ∈ orders →
        fr' !! o = Some Fulfillable ∨ fr' !! o = Some Not_Fulfillable)
       ∧ (o ∉ orders → fr' !! o = fr !! o).
Proof.
  revert ls fr. induction orders as [|o1 orders IH]; intros ls fr Hsim o.
  - injection Hsim as <- <-. split; [by intros ?%elem_of_nil|done].
  - rewrite simulate_cons in Hsim.
    destruct (simulate_order items (ls, fr) o1) as [[ls1 fr1]|e] eqn:Hstep;
      [|discriminate Hsim].
    simpl in Hsim. destruct (IH _ _ Hsim o) as [Hin Hout].
    assert (fr1 !! o1 = Some Fulfillable ∨ fr1 !! o1 = Some Not_Fulfillable)
      as Ho1.
    { apply simulate_order_cases in Hstep as [(_ & _ & ->)|(_ & _ & ->)];
        rewrite lookup_insert_eq; auto. }
    assert (∀ o', o' ≠ o1 → fr1 !! o' = fr !! o') as Hother.
    { intros o' Hne.
      apply simulate_order_cases in Hstep as [(_ & _ & ->)|(_ & _ & ->)];
        by rewrite lookup_insert_ne. }
    split.
    + intros Hel. destruct (decide (o ∈ orders)) as [|Hnin]; [auto|].
      apply elem_of_cons in Hel as [->|]; [|done]. by rewrite Hout.
    + intros Hnin. apply not_elem_of_cons in Hnin as [Hne Hnin].
      rewrite Hout by done. by apply Hother.
Qed.

Lemma elem_of_prioritized_orders o :
  o ∈ (prioritized_orders items).*1 ↔ ∃ it, it ∈ items ∧ li_Order_Number it = o.
Proof.
  unfold prioritized_orders. rewrite merge_sort_Permutation.
  rewrite list_elem_of_fmap. split.
  - intros ([o' n] & -> & Hin). apply (proj1 (elem_of_unique _ _)) in Hin.
    apply list_elem_of_fmap in Hin as (it & [= -> ->] & Hin). eauto.
  - intros (it & Hin & <-). exists (li_Order_Number it, li_item_count it).
    split; [done|]. apply elem_of_unique, list_elem_of_fmap. eauto.
Qed.
End simulate_facts.

Section run_facts.
Import Py Pd Analysis.

(** [run_analysis] unfolded: the cleaned tables, the state the loop ends
    in and the rows built from it. *)
Lemma run_analysis_Ok stock_df orders_df history_df final_df stats :
  run_analysis stock_df orders_df history_df = Ok (final_df, stats) →
  let stock := stock_clean stock_df in
  let items := orders_with_counts (orders_clean orders_df) in
  ∃ live_stock fulfillment_results,
    simulate items (initial_live_stock stock, ∅) (prioritized_orders items).*1
    = Ok (live_stock, fulfillment_results)
    ∧ final_df = final_row stock live_stock fulfillment_results history_df
                   <$> items
    ∧ stats = recalculate_statistics final_df.
Proof.
  intros Hrun stock items. unfold run_analysis in Hrun.
  fold stock items in Hrun.
  destruct (simulate items _ _) as [[ls fr]|e]; [|discriminate Hrun].
  simpl in Hrun. injection Hrun as <- <-. by exists ls, fr.
Qed.

Lemma run_analysis_of_simulate stock_df orders_df history_df ls fr :
  let stock := stock_clean stock_df in
  let items := orders_with_counts (orders_clean orders_df) in
  simulate items (initial_live_stock stock, ∅) (prioritized_orders items).*1
  = Ok (ls, fr) →
  run_analysis stock_df orders_df history_df
  = Ok (final_row stock ls fr history_df <$> items,
        recalculate_statistics (final_row stock ls fr history_df <$> items)).
Proof. intros stock items Hsim. unfold run_analysis. fold stock items. by rewrite Hsim. Qed.

Lemma order_rows_final_row stock ls fr history items o r :
  r ∈ order_rows (final_row stock ls fr history <$> items) o →
  Order_Fulfillment_Status r = fr !! o
  ∧ ∃ it, it ∈ items ∧ li_Order_Number it = o
          ∧ r = final_row stock ls fr history it.
Proof.
  unfold order_rows. intros [Hon Hr]%list_elem_of_filter.
  apply list_elem_of_fmap in Hr as (it & -> & Hit). simpl in *.
  injection Hon as <-. eauto.
Qed.
End run_facts.

(** Claim C2.  Each order is decided as a whole.  One iteration of the
    loop either marks the order Fulfillable and lowers the live stock of
    every SKU by what the order's lines ask of it, or marks it Not
    Fulfillable and leaves the live stock as it was; and in the rows that
    [run_analysis] returns, the lines of an order are all Fulfillable or
    all Not Fulfillable. *)
Theorem allocation_is_all_or_nothing :
  (∀ items live_stock results o live_stock' results',
     Analysis.simulate_order items (live_stock, results) o
     = Py.Ok (live_stock', results') →
     (results' !! o = Some Analysis.Fulfillable
      ∧ ∀ sku, live_stock' !! sku
               = (λ v, v - demand (Analysis.order_items_of items o) sku)
                   <$> live_stock !! sku)
     ∨ (results' !! o = Some Analysis.Not_Fulfillable
        ∧ live_stock' = live_stock))
  ∧ (∀ stock_df orders_df history_df final_df stats o,
       Analysis.run_analysis stock_df orders_df history_df
       = Py.Ok (final_df, stats) →
       Forall (Analysis.has_status Analysis.Fulfillable)
              (Analysis.order_rows final_df o)
       ∨ Forall (Analysis.has_status Analysis.Not_Fulfillable)
                (Analysis.order_rows final_df o)).
Proof.
  split.
  - intros items ls fr o ls' fr' Hstep.
    apply simulate_order_cases in Hstep as [(_ & Hw & ->)|(_ & -> & ->)].
    + left. split; [apply lookup_insert_eq|]. by apply write_off_Ok in Hw as [_ ?].
    + right. split; [apply lookup_insert_eq|done].
  - intros stock_df orders_df history_df final_df stats o Hrun.
    apply run_analysis_Ok in Hrun as (ls & fr & Hsim & -> & _).
    set (items := Analysis.orders_with_counts _) in *.
    destruct (decide (o ∈ (Analysis.prioritized_orders items).*1)) as [Hin|Hnin].
    + destruct (proj1 (simulate_results _ _ _ _ _ _ Hsim o) Hin) as [Hf|Hf];
        [left|right]; apply Forall_forall; intros r Hr;
        unfold Analysis.has_status;
        apply order_rows_final_row in Hr as [-> _]; exact Hf.
    + left. apply Forall_forall. intros r Hr.
      apply order_rows_final_row in Hr as (_ & it & Hit & Ho & _).
      destruct Hnin. apply elem_of_prioritized_orders. eauto.
Qed.

Lemma allocation_is_all_or_nothing_witness :
  (∃ live_stock' results',
     Analysis.simulate_order example_items
       (Analysis.initial_live_stock (Analysis.stock_clean example_stock), ∅) "M1"
     = Py.Ok (live_stock', results')
     ∧ (results' !! "M1" = Some Analysis.Fulfillable
        ∧ live_stock' !! "A" = Some 1 ∧ live_stock' !! "B" = Some 0))
  ∧ ∃ final_df stats,
      Analysis.run_analysis example_stock example_orders [] = Py.Ok (final_df, stats)
      ∧ (Forall (Analysis.has_status Analysis.Fulfillable)
                (Analysis.order_rows final_df "S1")
         ∨ Forall (Analysis.has_status Analysis.Not_Fulfillable)
                  (Analysis.order_rows final_df "S1")).
Proof.
  split.
  - eexists _, _. split; [reflexivity|].
    destruct (proj1 allocation_is_all_or_nothing example_items
                (Analysis.initial_live_stock (Analysis.stock_clean example_stock))
                ∅ "M1" _ _ eq_refl) as [[Hst Hls]|[Hst _]].
    + split; [exact Hst|]. split; rewrite Hls; reflexivity.
    + vm_compute in Hst. discriminate Hst.
  - eexists _, _. split; [reflexivity|].
    exact (proj2 allocation_is_all_or_nothing example_stock example_orders []
             _ _ "S1" eq_refl).
Defined.

(** ** Priority ordering *)

Section priority_facts.
Import Py Pd Analysis.

#[global] Instance priority_le_trans : Transitive priority_le.
Proof.
  intros a b c [Hab|[Hab Hab']] [Hbc|[Hbc Hbc']]; unfold priority_le.
  - left. lia.
  - left. lia.
  - left. lia.
  - right. split; [lia|]. by etrans.
Qed.

#[global] Instance priority_le_total : base.Total priority_le.
Proof.
  intros a b. unfold priority_le.
  destruct (lt_eq_lt_dec a.2 b.2) as [[Hlt|Heq]|Hgt]; [auto|..|auto].
  destruct (total String.le a.1 b.1); [left|right]; right; split; done.
Qed.

#[global] Instance priority_le_antisymm : AntiSymm (=) priority_le.
Proof.
  intros [o1 n1] [o2 n2] [H1|[H1 H1']] [H2|[H2 H2']]; simpl in *; try lia.
  f_equal; [|done]. by apply (anti_symm String.le).
Qed.


Lemma prioritized_orders_perm items :
  prioritized_orders items
  ≡ₚ unique ((λ it, (li_Order_Number it, li_item_count it)) <$> items).
Proof. apply merge_sort_Permutation. Qed.


Lemma filter_none {A} (P : A → Prop) `{∀ x, Decision (P x)} (l : list A) :
  Forall (λ x, ¬ P x) l → filter P l = [].
Proof.
  induction 1 as [|x l Hx _ IH]; [done|].
  by rewrite filter_cons, decide_False, IH.
Qed.

End priority_facts.

Section simulate_stock.
Import Py Pd Analysis.
Variable items : list LineItem.

Hypothesis quantities_nonneg : Forall (λ it, 0 ≤ li_Quantity it) items.

Lemma order_items_nonneg o :
  Forall (λ it, 0 ≤ li_Quantity it) (order_items_of items o).
Proof.
  unfold order_items_of. rewrite Forall_forall in quantities_nonneg |- *.
  intros it [_ Hit]%list_elem_of_filter. by apply quantities_nonneg.
Qed.

Lemma written_off_nonneg results orders sku :
  0 ≤ written_off items results orders sku.
Proof.
  induction orders as [|o rest IH]; simpl; [done|].
  pose proof (demand_nonneg _ sku (order_items_nonneg o)). case_decide; lia.
Qed.


End simulate_stock.

Section simulate_balance.
Import Py Pd Analysis.
Variable items : list LineItem.

Lemma written_off_agree results results' orders sku :
  (∀ o, o ∈ orders → results !! o = results' !! o) →
  written_off items results orders sku = written_off items results' orders sku.
Proof.
  induction orders as [|o rest IH]; intros Hagree; simpl; [done|].
  rewrite (Hagree o) by left. rewrite IH; [done|].
  intros o' Ho'. apply Hagree. by right.
Qed.

(** The live stock the loop ends with: the stock it started with less
    what the orders it marked Fulfillable ask for. *)
Lemma simulate_live_stock orders ls fr ls' fr' :
  NoDup orders →
  simulate items (ls, fr) orders = Ok (ls', fr') →
  ∀ sku, ls' !! sku
         = (λ v, v - written_off items fr' orders sku) <$> ls !! sku.
Proof.
  intros Hnd. revert ls fr.
  induction Hnd as [|o rest Hnin Hnd IH]; intros ls fr Hsim sku.
  - injection Hsim as <- <-. simpl.
    destruct (ls !! sku); simpl; [f_equal; lia|done].
  - rewrite simulate_cons in Hsim.
    destruct (simulate_order items (ls, fr) o) as [[ls1 fr1]|e] eqn:Hstep;
      [|discriminate Hsim].
    simpl in Hsim. rewrite (IH _ _ Hsim sku). simpl.
    pose proof (proj2 (simulate_results _ _ _ _ _ _ Hsim o) Hnin) as Ho.
    apply simulate_order_cases in Hstep as [(_ & Hw & ->)|(_ & -> & ->)];
      rewrite Ho, lookup_insert_eq.
    + rewrite decide_True by done. apply write_off_Ok in Hw as [_ ->].
      destruct (ls !! sku); simpl; [f_equal; lia|done].
    + rewrite decide_False by done.
      destruct (ls !! sku); simpl; [f_equal; lia|done].
Qed.

(** The loop never adds or removes a key of [live_stock]. *)
Lemma simulate_keys orders ls fr ls' fr' sku :
  simulate items (ls, fr) orders = Ok (ls', fr') →
  ls' !! sku = None ↔ ls !! sku = None.
Proof.
  revert ls fr. induction orders as [|o rest IH]; intros ls fr Hsim.
  - by injection Hsim as <- <-.
  - rewrite simulate_cons in Hsim.
    destruct (simulate_order items (ls, fr) o) as [[ls1 fr1]|e] eqn:Hstep;
      [|discriminate Hsim].
    simpl in Hsim. rewrite (IH _ _ Hsim).
    apply simulate_order_cases in Hstep as [(_ & Hw & _)|(_ & -> & _)];
      [|done].
    apply write_off_Ok in Hw as [_ ->]. by destruct (ls !! sku).
Qed.

(** The run does not raise when every line on a SKU that is no key of
    [live_stock] asks for a positive quantity. *)
Lemma simulate_is_Ok orders ls fr :
  (∀ it, it ∈ items → ls !! li_SKU it = None → 0 < li_Quantity it) →
  ∃ st', simulate items (ls, fr) orders = Ok st'.
Proof.
  revert ls fr. induction orders as [|o rest IH]; intros ls fr Hpos.
  - by eexists.
  - rewrite simulate_cons. unfold simulate_order.
    destruct (can_fulfill_order ls (order_items_of items o)) eqn:Hcan.
    + destruct (write_off_is_Ok ls (order_items_of items o)) as [ls1 Hw].
      { intros it Hit. destruct (ls !! li_SKU it) eqn:Hl; [done|].
        pose proof (proj1 (can_fulfill_order_true _ _) Hcan it Hit) as Hq.
        rewrite Hl in Hq. simpl in Hq.
        apply list_elem_of_filter in Hit as [_ Hit].
        specialize (Hpos it Hit Hl). lia. }
      rewrite Hw. simpl. apply IH. intros it Hit Hnone. apply Hpos; [done|].
      apply write_off_Ok in Hw as [_ Hl]. rewrite Hl in Hnone.
      by destruct (ls !! li_SKU it).
    + simpl. by apply IH.
Qed.
End simulate_balance.

Section multi_item_first.
Import Py Pd Analysis.
Variable items : list LineItem.
Hypothesis quantities_nonneg : Forall (λ it, 0 ≤ li_Quantity it) items.


(** Live stock never grows. *)
Lemma simulate_stock_le orders ls fr ls' fr' sku :
  simulate items (ls, fr) orders = Ok (ls', fr') →
  default 0 (ls' !! sku) ≤ default 0 (ls !! sku).
Proof.
  revert ls fr. induction orders as [|o rest IH]; intros ls fr Hsim.
  - by injection Hsim as <- <-.
  - rewrite simulate_cons in Hsim.
    destruct (simulate_order items (ls, fr) o) as [[ls1 fr1]|e] eqn:Hstep;
      [|discriminate Hsim].
    simpl in Hsim. etrans; [by eapply IH|].
    apply simulate_order_cases in Hstep as [(_ & Hw & _)|(_ & -> & _)];
      [|done].
    apply write_off_Ok in Hw as [_ ->].
    pose proof (demand_nonneg _ sku (order_items_nonneg items quantities_nonneg o)).
    destruct (ls !! sku); simpl; lia.
Qed.

(** An order with a line that asks for more than the live stock holds
    is marked Not Fulfillable. *)
Lemma short_order_not_fulfilled orders ls fr ls' fr' o it :
  NoDup orders →
  simulate items (ls, fr) orders = Ok (ls', fr') →
  o ∈ orders → it ∈ order_items_of items o →
  default 0 (ls !! li_SKU it) < li_Quantity it →
  fr' !! o = Some Not_Fulfillable.
Proof.
  intros Hnd. revert ls fr.
  induction Hnd as [|o1 rest Hnin Hnd IH]; intros ls fr Hsim Ho Hit Hshort.
  { by apply elem_of_nil in Ho. }
  rewrite simulate_cons in Hsim.
  destruct (simulate_order items (ls, fr) o1) as [[ls1 fr1]|e] eqn:Hstep;
    [|discriminate Hsim].
  simpl in Hsim. apply elem_of_cons in Ho as [->|Ho].
  - rewrite (proj2 (simulate_results _ _ _ _ _ _ Hsim o1) Hnin).
    pose proof (can_fulfill_order_false _ _ _ Hit Hshort) as Hno.
    apply simulate_order_cases in Hstep as [(Hyes & _)|(_ & _ & ->)];
      [congruence|]. apply lookup_insert_eq.
  - eapply IH; [exact Hsim|exact Ho|exact Hit|].
    assert (simulate items (ls, fr) [o1] = Ok (ls1, fr1)) as Hone.
    { rewrite simulate_cons, Hstep. done. }
    pose proof (simulate_stock_le _ _ _ _ _ (li_SKU it) Hone). lia.
Qed.
End multi_item_first.

Section regrouping.
Import Py Pd Analysis.

Lemma filter_ext_in {A} (P Q : A → Prop) `{∀ x, Decision (P x)}
      `{∀ x, Decision (Q x)} (l : list A) :
  (∀ x, x ∈ l → P x ↔ Q x) → filter P l = filter Q l.
Proof.
  induction l as [|x l IH]; intros Hiff; [done|].
  rewrite !filter_cons.
  assert (filter P l = filter Q l) as ->.
  { apply IH. intros y Hy. apply Hiff. by right. }
  destruct (decide (P x)) as [HP|HP], (decide (Q x)) as [HQ|HQ]; try done;
    exfalso; specialize (Hiff x (list_elem_of_here _ _)); tauto.
Qed.

(** Summing the demand order by order is summing it over the lines of
    those orders. *)
Lemma total_demand_regroup items orders sku :
  NoDup orders →
  total_demand items orders sku
  = demand (filter (λ it, li_Order_Number it ∈ orders) items) sku.
Proof.
  induction 1 as [|o rest Hnin Hnd IH]; simpl.
  - rewrite filter_none; [done|]. apply Forall_forall. intros it _ Hin.
    by apply elem_of_nil in Hin.
  - rewrite IH. clear IH. unfold order_items_of.
    induction items as [|it items IH]; [done|].
    rewrite !filter_cons.
    destruct (decide (li_Order_Number it = o)) as [Heq|Hne].
    + rewrite (decide_False (P := li_Order_Number it ∈ rest)) by (by rewrite Heq).
      rewrite (decide_True (P := li_Order_Number it ∈ o :: rest))
        by (rewrite Heq; left).
      rewrite !demand_cons. lia.
    + destruct (decide (li_Order_Number it ∈ rest)) as [Hin|Hout].
      * rewrite (decide_True (P := li_Order_Number it ∈ o :: rest))
          by (by right).
        rewrite !demand_cons. lia.
      * rewrite (decide_False (P := li_Order_Number it ∈ o :: rest)); [done|].
        by intros [?|?]%elem_of_cons.
Qed.

(** Every line of [orders_with_counts] carries its order's line count. *)
Lemma orders_with_counts_item_count clean it :
  it ∈ orders_with_counts clean →
  li_item_count it = order_item_counts clean (li_Order_Number it).
Proof.
  unfold orders_with_counts. rewrite list_elem_of_omap.
  intros (l & _ & Hl).
  destruct (Name l), (Lineitem_sku l); try done. by injection Hl as <-.
Qed.

Lemma elem_of_prioritized_pairs items p :
  p ∈ prioritized_orders items
  ↔ ∃ it, it ∈ items ∧ p = (li_Order_Number it, li_item_count it).
Proof.
  rewrite prioritized_orders_perm, elem_of_unique, list_elem_of_fmap.
  split; intros (it & H1 & H2); exists it; done.
Qed.

Lemma prioritized_orders_NoDup clean :
  NoDup (prioritized_orders (orders_with_counts clean)).*1.
Proof.
  apply NoDup_fmap_fst.
  - intros o n1 n2 (it1 & Hit1 & [= -> ->])%elem_of_prioritized_pairs
                   (it2 & Hit2 & [= Ho ->])%elem_of_prioritized_pairs.
    rewrite (orders_with_counts_item_count clean it1),
      (orders_with_counts_item_count clean it2) by done. by rewrite Ho.
  - rewrite prioritized_orders_perm. apply NoDup_unique.
Qed.
End regrouping.

Section multi_item_demand.
Import Py Pd Analysis.




End multi_item_demand.

Section multi_first_run.
Import Py Pd Analysis.

End multi_first_run.

Section priority_sequence.
Import Py Pd Analysis.

Lemma orders_clean_has_sku orders_df l :
  l ∈ orders_clean orders_df → is_Some (Lineitem_sku l).
Proof.
  unfold orders_clean. intros Hl. by apply list_elem_of_filter in Hl as [? _].
Qed.

(** The lines of one order among the line items, counted on the clean
    lines. *)
Lemma length_order_items_of (clean sub : list OrderLine) (o : string) :
  Forall (λ l, is_Some (Lineitem_sku l)) sub →
  length (filter (λ it, li_Order_Number it = o)
            (omap (λ l,
                     match Name l, Lineitem_sku l with
                     | Some o, Some k =>
                         Some (mkLineItem o k (Lineitem_quantity l)
                                 (Shipping_Method_in l) (Shipping_Country l)
                                 (Tags_in l) (Notes_in l) (Total l)
                                 (order_item_counts clean o))
                     | _, _ => None
                     end) sub))
  = length (filter (λ l, Name l = Some o) sub).
Proof.
  match goal with |- context [omap ?g _] => set (f := g) end.
  induction sub as [|l sub IH]; intros Hall; [done|].
  inversion_clear Hall as [|?? [k Hk] Hrest]. specialize (IH Hrest).
  change (omap f (l :: sub))
    with (match f l with Some y => y :: omap f sub | None => omap f sub end).
  rewrite (filter_cons _ l). unfold f at 1. rewrite Hk.
  destruct (Name l) as [o'|] eqn:Hname.
  - rewrite filter_cons. simpl.
    destruct (decide (o' = o)) as [->|Hne].
    + rewrite decide_True by done. simpl. by rewrite IH.
    + rewrite decide_False by congruence. done.
  - rewrite decide_False by done. done.
Qed.

Lemma length_order_rows_final_row stock ls fr history items o :
  length (order_rows (final_row stock ls fr history <$> items) o)
  = length (filter (λ it, li_Order_Number it = o) items).
Proof.
  unfold order_rows. induction items as [|it items IH]; [done|].
  rewrite fmap_cons, !filter_cons. simpl.
  destruct (decide (li_Order_Number it = o)) as [->|Hne].
  - rewrite decide_True by done. simpl. by rewrite IH.
  - rewrite decide_False by congruence. done.
Qed.





Lemma StronglySorted_lookup_lt {A} (R : relation A) (l : list A) i j x y :
  StronglySorted R l → (i < j)%nat → l !! i = Some x → l !! j = Some y →
  R x y.
Proof.
  intros Hs. revert i j. induction Hs as [|z l Hl IH Hall]; intros i j Hij Hx Hy.
  - done.
  - destruct j as [|j]; [lia|]. simpl in Hy. destruct i as [|i].
    + injection Hx as <-. rewrite Forall_forall in Hall.
      by eapply Hall, list_elem_of_lookup_2.
    + simpl in Hx. eapply (IH i j); [lia|done..].
Qed.





End priority_sequence.


(** ** Edge cases of the allocation *)

Section edge_cases.
Import Py Pd Analysis.

Lemma run_analysis_no_orders stock_df history_df :
  run_analysis stock_df [] history_df = Ok ([], zero_stats).
Proof. reflexivity. Qed.

(** Statistics of a row set without a Fulfillable row. *)
Lemma statistics_none_completed df :
  Forall (has_status Not_Fulfillable) df →
  total_orders_completed (recalculate_statistics df) = 0%nat
  ∧ total_items_to_write_off (recalculate_statistics df) = 0
  ∧ couriers_stats (recalculate_statistics df) = None.
Proof.
  intros Hall.
  assert (filter (has_status Fulfillable) df = []) as Hnone.
  { apply filter_none. eapply Forall_impl; [exact Hall|].
    unfold has_status. intros r -> [=]. }
  unfold recalculate_statistics. simpl. rewrite Hnone. done.
Qed.

Section invariants.
Variable items : list LineItem.
Hypothesis quantities_nonneg : Forall (λ it, 0 ≤ li_Quantity it) items.
Hypothesis one_line_per_sku :
  ∀ o, NoDup (li_SKU <$> order_items_of items o).

(** With one line per SKU, what an order asks of a SKU is nothing or
    the quantity of one of its lines. *)
Lemma demand_one_line its sku :
  NoDup (li_SKU <$> its) →
  demand its sku = 0
  ∨ ∃ it, it ∈ its ∧ li_SKU it = sku ∧ demand its sku = li_Quantity it.
Proof.
  induction its as [|it its IH]; intros Hnd; [by left|].
  rewrite fmap_cons in Hnd. apply NoDup_cons in Hnd as [Hnin Hnd].
  rewrite demand_cons. destruct (decide (li_SKU it = sku)) as [Heq|Hne].
  - right. exists it. split; [left|]. split; [done|].
    destruct (IH Hnd) as [->|(it' & Hit' & Hsku & _)]; [lia|].
    destruct Hnin. rewrite Heq, <- Hsku. by apply list_elem_of_fmap_2.
  - destruct (IH Hnd) as [->|(it' & Hit' & Hsku & ->)]; [by left|].
    right. exists it'. split; [by right|]. split; [done|lia].
Qed.

Lemma simulate_order_stock_nonneg ls fr o ls' fr' :
  simulate_order items (ls, fr) o = Ok (ls', fr') →
  (∀ sku v, ls !! sku = Some v → 0 ≤ v) →
  ∀ sku v, ls' !! sku = Some v → 0 ≤ v.
Proof.
  intros Hstep Hinv sku v'.
  apply simulate_order_cases in Hstep as [(Hcan & Hw & _)|(_ & -> & _)];
    [|apply Hinv].
  apply write_off_Ok in Hw as [_ ->].
  destruct (ls !! sku) as [v|] eqn:Hv; [|done]. simpl. intros [= <-].
  specialize (Hinv _ _ Hv).
  destruct (demand_one_line _ sku (one_line_per_sku o))
    as [->|(it & Hit & Hsku & ->)]; [lia|].
  pose proof (proj1 (can_fulfill_order_true _ _) Hcan it Hit) as Hq.
  rewrite Hsku, Hv in Hq. simpl in Hq. lia.
Qed.

(** An order whose lines all ask for 0 passes its check as long as no
    live stock is negative. *)
Lemma zero_order_fulfilled orders ls fr ls' fr' o :
  NoDup orders →
  simulate items (ls, fr) orders = Ok (ls', fr') →
  (∀ sku v, ls !! sku = Some v → 0 ≤ v) →
  o ∈ orders →
  Forall (λ it, li_Quantity it = 0) (order_items_of items o) →
  fr' !! o = Some Fulfillable.
Proof.
  intros Hnd. revert ls fr.
  induction Hnd as [|o1 rest Hnin Hnd IH]; intros ls fr Hsim Hinv Ho Hzero.
  { by apply elem_of_nil in Ho. }
  rewrite simulate_cons in Hsim.
  destruct (simulate_order items (ls, fr) o1) as [[ls1 fr1]|e] eqn:Hstep;
    [|discriminate Hsim].
  simpl in Hsim. apply elem_of_cons in Ho as [->|Ho].
  - rewrite (proj2 (simulate_results _ _ _ _ _ _ Hsim o1) Hnin).
    assert (can_fulfill_order ls (order_items_of items o1) = true) as Hcan.
    { apply can_fulfill_order_true. intros it Hit.
      rewrite Forall_forall in Hzero. rewrite (Hzero it Hit).
      destruct (ls !! li_SKU it) as [v|] eqn:Hv; simpl; [|done].
      by eapply Hinv. }
    apply simulate_order_cases in Hstep as [(_ & _ & ->)|(Hno & _)];
      [apply lookup_insert_eq|congruence].
  - eapply IH; [exact Hsim| |exact Ho|exact Hzero].
    by eapply simulate_order_stock_nonneg.
Qed.
End invariants.

Lemma initial_live_stock_lookup stock sku v :
  initial_live_stock stock !! sku = Some v →
  ∃ r, r ∈ stock ∧ stock_SKU r = sku ∧ stock_Stock r = v.
Proof.
  unfold initial_live_stock. intros H.
  apply elem_of_list_to_map_2 in H.
  apply list_elem_of_fmap in H as (r & [= -> ->] & Hr). eauto.
Qed.
End edge_cases.

Section edge_case_runs.
Import Py Pd Analysis.

Lemma elem_of_drop_duplicate_SKU seen l r :
  r ∈ drop_duplicate_SKU seen l → r ∈ l.
Proof.
  revert seen. induction l as [|x l IH]; intros seen; simpl; [done|].
  case_decide.
  - intros ?%IH. by right.
  - intros [->|?%IH]%elem_of_cons; [left|by right].
Qed.

Lemma stock_clean_nonneg stock_df :
  Forall (λ s, 0 ≤ Nalichnost s) stock_df →
  ∀ sku v, initial_live_stock (stock_clean stock_df) !! sku = Some v → 0 ≤ v.
Proof.
  intros Hall sku v (r & Hr & _ & <-)%initial_live_stock_lookup.
  unfold stock_clean in Hr. apply elem_of_drop_duplicate_SKU in Hr.
  apply list_elem_of_omap in Hr as (s & Hs & Hsome).
  rewrite Forall_forall in Hall. specialize (Hall s Hs).
  destruct (Artikul s); [|done]. by injection Hsome as <-.
Qed.

(** With no stock at all and positive quantities, every order fails its
    check. *)
Lemma run_analysis_no_stock orders_df history_df :
  let items := orders_with_counts (orders_clean orders_df) in
  Forall (λ it, 0 < li_Quantity it) items →
  ∃ final_df stats,
    run_analysis [] orders_df history_df = Ok (final_df, stats)
    ∧ length final_df = length items
    ∧ Forall (has_status Not_Fulfillable) final_df
    ∧ total_orders_completed stats = 0%nat
    ∧ total_items_to_write_off stats = 0
    ∧ couriers_stats stats = None.
Proof.
  intros items Hpos.
  assert (Forall (λ it, 0 ≤ li_Quantity it) items) as Hnonneg.
  { eapply Forall_impl; [exact Hpos|]. simpl. lia. }
  rewrite Forall_forall in Hpos.
  destruct (simulate_is_Ok items (prioritized_orders items).*1 ∅ ∅)
    as [[ls fr] Hsim].
  { intros it Hit _. by apply Hpos. }
  pose proof (run_analysis_of_simulate [] orders_df history_df ls fr Hsim)
    as Hrun.
  eexists _, _. split; [exact Hrun|].
  assert (Forall (has_status Not_Fulfillable)
            (final_row (stock_clean []) ls fr history_df <$> items)) as Hall.
  { apply Forall_fmap, Forall_forall. intros it Hit.
    unfold has_status. simpl.
    eapply (short_order_not_fulfilled items Hnonneg);
      [apply prioritized_orders_NoDup|exact Hsim|..].
    - apply elem_of_prioritized_orders. eauto.
    - apply list_elem_of_filter. split; [reflexivity|exact Hit].
    - rewrite lookup_empty. simpl. by apply Hpos. }
  split; [by rewrite length_fmap|]. split; [exact Hall|].
  by apply statistics_none_completed.
Qed.
End edge_case_runs.

(** Two edge cases that follow from the design.  With an empty stock
    table the rows are the order lines, so the row set and the statistics
    are not empty; and an order whose only line asks for 0 is Not
    Fulfillable once an earlier order with two lines on the same SKU has
    driven the live stock below 0. *)
Lemma edge_case_counterexamples :
  (∃ final_df stats,
     Analysis.run_analysis [] [order_line "O1" "B" 1] []
     = Py.Ok (final_df, stats)
     ∧ length final_df = 1%nat
     ∧ Analysis.total_orders_not_completed stats = 1%nat
     ∧ Analysis.total_items_not_to_write_off stats = 1)
  ∧ (∃ final_df stats,
       Analysis.run_analysis [stock_line "A" 1]
         [order_line "M" "A" 1; order_line "M" "A" 1; order_line "Z" "A" 0] []
       = Py.Ok (final_df, stats)
       ∧ (λ r, (Analysis.Order_Number r, Analysis.Quantity r,
                Analysis.Order_Fulfillment_Status r)) <$> final_df
         = [(Some "M", 1, Some "Fulfillable"); (Some "M", 1, Some "Fulfillable");
            (Some "Z", 0, Some "Not Fulfillable")]).
Proof.
  split; eexists _, _; (split; [reflexivity|]); vm_compute; done.
Qed.

(** Claim C6 at an order whose only line asks for 0 of a SKU that is not
    in the stock table.  The check passes, the missing SKU counting as 0,
    and the write-off then reads [live_stock[sku]], which raises
    [KeyError]: the run returns nothing, with an empty stock table and
    also when the batch holds an order that the stock covers. *)
Theorem zero_quantity_of_unstocked_sku_raises :
  Analysis.run_analysis [] [order_line "O1" "B" 0] []
  = Py.Raise (Py.KeyError "B")
  ∧ Analysis.run_analysis [stock_line "A" 5]
      [order_line "O1" "A" 1; order_line "O2" "B" 0] []
    = Py.Raise (Py.KeyError "B")
  ∧ (let order_items :=
       Analysis.orders_with_counts
         (Analysis.orders_clean [order_line "O1" "B" 0]) in
     Analysis.can_fulfill_order ∅ order_items = true
     ∧ Analysis.write_off ∅ order_items = Py.Raise (Py.KeyError "B")).
Proof. repeat split; reflexivity. Qed.

(** The edge cases in which the run returns.  With no order lines the
    result is an empty row set and all-zero statistics.  The run returns
    whenever every line on a SKU that is not in the stock table asks for a
    positive quantity.  With an empty stock table and positive quantities
    it returns one row per order line, every row Not Fulfillable and
    nothing completed.  When stock and quantities are non-negative and no
    order has two lines on one SKU, every order whose lines all ask for 0
    is Fulfillable in a run that returns. *)
Theorem allocation_edge_cases :
  (∀ stock_df history_df,
     Analysis.run_analysis stock_df [] history_df = Py.Ok ([], zero_stats))
  ∧ (∀ stock_df orders_df history_df,
       let stock := Analysis.initial_live_stock (Analysis.stock_clean stock_df) in
       let items := Analysis.orders_with_counts (Analysis.orders_clean orders_df) in
       (∀ it, it ∈ items → stock !! Analysis.li_SKU it = None →
              0 < Analysis.li_Quantity it) →
       ∃ final_df stats,
         Analysis.run_analysis stock_df orders_df history_df
         = Py.Ok (final_df, stats))
  ∧ (∀ orders_df history_df,
       let items := Analysis.orders_with_counts (Analysis.orders_clean orders_df) in
       Forall (λ it, 0 < Analysis.li_Quantity it) items →
       ∃ final_df stats,
         Analysis.run_analysis [] orders_df history_df = Py.Ok (final_df, stats)
         ∧ length final_df = length items
         ∧ Forall (Analysis.has_status Analysis.Not_Fulfillable) final_df
         ∧ Analysis.total_orders_completed stats = 0%nat
         ∧ Analysis.total_items_to_write_off stats = 0
         ∧ Analysis.couriers_stats stats = None)
  ∧ (∀ stock_df orders_df history_df final_df stats,
       let items := Analysis.orders_with_counts (Analysis.orders_clean orders_df) in
       Forall (λ s, 0 ≤ Analysis.Nalichnost s) stock_df →
       Forall (λ it, 0 ≤ Analysis.li_Quantity it) items →
       (∀ o, NoDup (Analysis.li_SKU <$> Analysis.order_items_of items o)) →
       Analysis.run_analysis stock_df orders_df history_df
       = Py.Ok (final_df, stats) →
       ∀ o, Forall (λ it, Analysis.li_Quantity it = 0)
                   (Analysis.order_items_of items o) →
            Forall (Analysis.has_status Analysis.Fulfillable)
                   (Analysis.order_rows final_df o)).
Proof.
  split; [apply run_analysis_no_orders|]. split; [|split].
  - intros stock_df orders_df history_df stock items Hpos.
    destruct (simulate_is_Ok items (Analysis.prioritized_orders items).*1
                stock ∅ Hpos) as [[ls fr] Hsim].
    eexists _, _. by apply run_analysis_of_simulate.
  - apply run_analysis_no_stock.
  - intros stock_df orders_df history_df final_df stats items
           Hstock Hnonneg Hone Hrun o Hzero.
    apply run_analysis_Ok in Hrun as (ls & fr & Hsim & -> & _).
    fold items in Hsim |- *.
    apply Forall_forall. intros r Hr.
    apply order_rows_final_row in Hr as (Hst & it & Hit & Ho & _).
    unfold Analysis.has_status. rewrite Hst.
    eapply (zero_order_fulfilled items Hone);
      [apply prioritized_orders_NoDup|exact Hsim| | |exact Hzero].
    + by apply stock_clean_nonneg.
    + apply elem_of_prioritized_orders. eauto.
Qed.

Lemma allocation_edge_cases_witness :
  (∃ final_df stats,
     Analysis.run_analysis [] [order_line "O1" "B" 1; order_line "O2" "C" 2] []
     = Py.Ok (final_df, stats)
     ∧ length final_df = 2%nat
     ∧ Forall (Analysis.has_status Analysis.Not_Fulfillable) final_df)
  ∧ (∃ final_df stats,
       Analysis.run_analysis [stock_line "A" 1]
         [order_line "Z" "A" 0; order_line "O1" "A" 1] []
       = Py.Ok (final_df, stats)
       ∧ Forall (Analysis.has_status Analysis.Fulfillable)
                (Analysis.order_rows final_df "Z")).
Proof.
  destruct allocation_edge_cases as (_ & Hreturns & Hnostock & Hzero). split.
  - destruct (Hnostock [order_line "O1" "B" 1; order_line "O2" "C" 2] [])
      as (final_df & stats & Hrun & Hlen & Hall & _).
    { apply (bool_decide_unpack _). vm_compute. exact I. }
    exists final_df, stats. split; [exact Hrun|]. split; [exact Hlen|exact Hall].
  - destruct (Hreturns [stock_line "A" 1]
                [order_line "Z" "A" 0; order_line "O1" "A" 1] [])
      as (final_df & stats & Hrun).
    { intros it Hit Hnone.
      assert (Forall (λ it, Analysis.li_SKU it = "A")
                (Analysis.orders_with_counts
                   (Analysis.orders_clean
                      [order_line "Z" "A" 0; order_line "O1" "A" 1])))
        as Hall by (apply (bool_decide_unpack _); vm_compute; exact I).
      rewrite Forall_forall in Hall. rewrite (Hall it Hit) in Hnone.
      vm_compute in Hnone. discriminate Hnone. }
    exists final_df, stats. split; [exact Hrun|].
    apply (Hzero [stock_line "A" 1]
             [order_line "Z" "A" 0; order_line "O1" "A" 1] [] final_df stats).
    + apply (bool_decide_unpack _). vm_compute. exact I.
    + apply (bool_decide_unpack _). vm_compute. exact I.
    + intros o. 
      destruct (decide (o = "Z")) as [->|Hz];
        [apply (bool_decide_unpack _); vm_compute; exact I|].
      destruct (decide (o = "O1")) as [->|Ho];
        [apply (bool_decide_unpack _); vm_compute; exact I|].
      unfold Analysis.order_items_of. rewrite filter_none; [constructor|].
      apply Forall_forall. intros it Hit Hname.
      assert (Forall (λ it, Analysis.li_Order_Number it = "Z"
                            ∨ Analysis.li_Order_Number it = "O1")
                (Analysis.orders_with_counts
                   (Analysis.orders_clean
                      [order_line "Z" "A" 0; order_line "O1" "A" 1])))
        as Hall by (apply (bool_decide_unpack _); vm_compute; exact I).
      rewrite Forall_forall in Hall. destruct (Hall it Hit); congruence.
    + exact Hrun.
    + apply (bool_decide_unpack _). vm_compute. exact I.
Defined.

(** ** Final stock *)

Section final_stock.
Import Py Pd Analysis.

Lemma initial_live_stock_stock_lookup stock sku :
  initial_live_stock stock !! sku = stock_Stock <$> stock_lookup stock sku.
Proof.
  unfold initial_live_stock, stock_lookup.
  induction stock as [|r stock IH]; [done|].
  rewrite fmap_cons, filter_cons. simpl. rewrite lookup_insert.
  destruct (decide (stock_SKU r = sku)); [done|]. exact IH.
Qed.

Lemma written_off_filter items fr orders sku :
  written_off items fr orders sku
  = total_demand items (filter (λ o, fr !! o = Some Fulfillable) orders) sku.
Proof.
  induction orders as [|o rest IH]; [done|].
  simpl. rewrite filter_cons. case_decide; simpl; rewrite IH; lia.
Qed.

(** What the loop wrote off of a SKU is the quantity on the lines of
    that SKU whose order ended Fulfillable. *)
Lemma written_off_lines items fr orders sku :
  NoDup orders →
  (∀ it, it ∈ items → li_Order_Number it ∈ orders) →
  written_off items fr orders sku
  = demand (filter (λ it, fr !! li_Order_Number it = Some Fulfillable) items)
           sku.
Proof.
  intros Hnd Hcover. rewrite written_off_filter.
  rewrite total_demand_regroup by (by apply NoDup_filter).
  f_equal. apply filter_ext_in. intros it Hit.
  rewrite list_elem_of_filter. specialize (Hcover it Hit). tauto.
Qed.

Lemma fulfilled_quantity_final_rows stock ls fr history items sku :
  fulfilled_quantity (final_row stock ls fr history <$> items) sku
  = demand (filter (λ it, fr !! li_Order_Number it = Some Fulfillable) items)
           sku.
Proof.
  unfold fulfilled_quantity, demand, has_status.
  induction items as [|it items IH]; [done|].
  rewrite fmap_cons, !filter_cons. simpl.
  destruct (decide (fr !! li_Order_Number it = Some Fulfillable)) as [Hf|Hf].
  - rewrite filter_cons.
    destruct (decide (li_SKU it = sku)) as [Hs|Hs].
    + rewrite decide_True by done. rewrite !fmap_cons. simpl. by rewrite IH.
    + rewrite decide_False by tauto. exact IH.
  - rewrite decide_False by tauto. exact IH.
Qed.

(** The [Stock] and [Final_Stock] of every row of a run: for a SKU of
    the stock table, the stock and the stock less the quantity of the
    Fulfillable lines of that SKU; for any other SKU, 0 and a missing
    value. *)
Lemma final_stock_of_rows stock_df orders_df history_df final_df stats r :
  run_analysis stock_df orders_df history_df = Ok (final_df, stats) →
  r ∈ final_df →
  match initial_live_stock (stock_clean stock_df) !! SKU r with
  | Some v =>
      Stock r = Some v
      ∧ Final_Stock r = Some (v - fulfilled_quantity final_df (SKU r))
  | None => Stock r = Some 0 ∧ Final_Stock r = None
  end.
Proof.
  intros Hrun Hr.
  apply run_analysis_Ok in Hrun as (ls & fr & Hsim & -> & _).
  set (items := orders_with_counts (orders_clean orders_df)) in *.
  set (stock := stock_clean stock_df) in *.
  apply list_elem_of_fmap in Hr as (it & -> & Hit).
  rewrite fulfilled_quantity_final_rows. simpl.
  rewrite (simulate_live_stock items _ _ _ _ _
             (prioritized_orders_NoDup _) Hsim).
  rewrite written_off_lines;
    [|apply prioritized_orders_NoDup
     |intros it' Hit'; apply elem_of_prioritized_orders; eauto].
  rewrite initial_live_stock_stock_lookup.
  by destruct (stock_lookup stock (li_SKU it)) as [rec|].
Qed.
End final_stock.

(** Claim C1 at a SKU that is not in the stock table: the row of order O2
    shows an initial stock of 0 and a missing final stock, not 0; the rows
    of SKU A show 2 and 2 - 1. *)
Theorem final_stock_of_unstocked_sku_is_missing :
  ∃ final_df stats,
    Analysis.run_analysis exhaustive_stock exhaustive_orders []
    = Py.Ok (final_df, stats)
    ∧ (λ r, (Analysis.SKU r, Analysis.Order_Fulfillment_Status r,
             Analysis.Stock r, Analysis.Final_Stock r)) <$> final_df
      = [("A", Some "Not Fulfillable", Some 2, Some 1);
         ("B", Some "Not Fulfillable", Some 0, None);
         ("A", Some "Fulfillable", Some 2, Some 1)].
Proof. eexists _, _. split; [reflexivity|]. vm_compute. reflexivity. Qed.

(** ** The rule engine *)

Section rule_conditions.
Import Py Pd Rules.
Variable pandas_kernel : operator → list cell → cell → result (list bool).

Lemma malformed_not_usable df cond : malformed df cond → usable df cond = None.
Proof.
  unfold usable. intros [(o & -> & Hop)|(f & -> & Hf)].
  - destruct (field cond) as [f|]; [|done].
    rewrite Hop. by destruct (_ && _).
  - destruct (cond_operator cond) as [o|]; [|done].
    rewrite (bool_decide_eq_false_2 _ Hf). by rewrite andb_false_r.
Qed.

Lemma condition_results_usable df conds :
  condition_results pandas_kernel df conds
  = condition_results pandas_kernel df
      (filter (λ c, is_Some (usable df c)) conds).
Proof.
  induction conds as [|cond conds IH]; [done|].
  rewrite filter_cons. simpl.
  destruct (usable df cond) as [[f op]|] eqn:Hu.
  - rewrite decide_True by done. simpl. rewrite Hu. by rewrite IH.
  - rewrite decide_False by (by intros [? ?]). exact IH.
Qed.

Lemma condition_results_none_usable df conds :
  filter (λ c, is_Some (usable df c)) conds = [] →
  condition_results pandas_kernel df conds = Ok [].
Proof. intros H. by rewrite condition_results_usable, H. Qed.

Lemma get_matching_rows_usable df rule :
  _get_matching_rows pandas_kernel df rule
  = _get_matching_rows pandas_kernel df
      (with_conditions (usable_conditions df rule) rule).
Proof.
  unfold _get_matching_rows, usable_conditions. simpl.
  rewrite (condition_results_usable df (conditions rule)).
  rewrite (condition_results_usable df (filter _ (conditions rule))).
  rewrite list_filter_filter.
  rewrite (list_filter_iff _ (λ c, is_Some (usable df c))) by tauto.
  destruct (conditions rule) as [|c conds]; [done|].
  by destruct (filter _ (c :: conds)).
Qed.

Lemma get_matching_rows_none_usable df rule :
  usable_conditions df rule = [] →
  _get_matching_rows pandas_kernel df rule = Ok (no_rows_match df).
Proof. intros H. by rewrite get_matching_rows_usable, H. Qed.

Lemma no_rows_match_any df : existsb id (no_rows_match df) = false.
Proof.
  unfold no_rows_match. by induction (length (rows df)).
Qed.
End rule_conditions.

(** Claim C8 as stated fails: under [ALL], a rule with a usable condition
    and two malformed ones matches the rows the usable condition matches,
    whereas the same rule with a condition that never matches in their
    place matches no row. *)
Lemma skipped_condition_is_not_never_matching :
  Rules._get_matching_rows unused_kernel orders_frame
    (tag_rule [is_dhl; unknown_field; unknown_operator] "T")
  = Py.Ok [true; false]
  ∧ Rules._get_matching_rows unused_kernel orders_frame
      (tag_rule [is_dhl; never_true; never_true] "T")
    = Py.Ok [false; false]
  ∧ malformed orders_frame unknown_field
  ∧ malformed orders_frame unknown_operator.
Proof.
  split; [reflexivity|]. split; [reflexivity|]. split.
  - right. exists "NonExistentField". split; [done|].
    apply (bool_decide_unpack _). vm_compute. exact I.
  - left. exists "resembles". split; [done|]. reflexivity.
Qed.

Section rule_application.
Import Py Pd Rules.
Variable pandas_kernel : operator → list cell → cell → result (list bool).

Lemma apply_rule_none_usable df rule :
  usable_conditions df rule = [] →
  apply_rule pandas_kernel df rule = Ok df.
Proof.
  intros H. unfold apply_rule.
  rewrite (get_matching_rows_none_usable _ _ _ H). simpl.
  by rewrite no_rows_match_any.
Qed.

(** Creating a column leaves the columns that exist as they are. *)
Lemma ensure_column_existing needed col v df col' :
  col' ∈ columns df →
  col' ∈ columns (ensure_column needed col v df)
  ∧ column (ensure_column needed col v df) col' = column df col'.
Proof.
  intros Hcol. unfold ensure_column.
  destruct (bool_decide (col ∈ needed)); simpl; [|done].
  case_bool_decide as Hin; simpl; [done|].
  unfold assign_column. rewrite decide_False by done. simpl. split.
  - apply elem_of_app. by left.
  - unfold column. simpl. rewrite <- list_fmap_compose.
    apply list_fmap_ext. intros _ r _. simpl. unfold get_cell.
    rewrite lookup_insert_ne; [done|]. by intros ->.
Qed.

Lemma ensure_column_length needed col v df :
  length (rows (ensure_column needed col v df)) = length (rows df).
Proof.
  unfold ensure_column. destruct (_ && _); [|done].
  simpl. by rewrite length_fmap.
Qed.

Lemma prepare_existing rules df col :
  col ∈ columns df →
  column (_prepare_df_for_actions rules df) col = column df col.
Proof.
  intros Hcol. unfold _prepare_df_for_actions.
  set (needed := needed_columns rules).
  destruct (ensure_column_existing needed "Priority" (Str "Normal") df col Hcol)
    as [H1 E1].
  destruct (ensure_column_existing needed "_is_excluded" (Bool false) _ col H1)
    as [H2 E2].
  destruct (ensure_column_existing needed "Status_Note" (Str "") _ col H2)
    as [_ E3].
  by rewrite E3, E2, E1.
Qed.

Lemma prepare_length rules df :
  length (rows (_prepare_df_for_actions rules df)) = length (rows df).
Proof.
  unfold _prepare_df_for_actions. by rewrite !ensure_column_length.
Qed.

(** The guard reads the column labels only. *)
Lemma usable_same_columns df df' cond :
  columns df' = columns df → usable df' cond = usable df cond.
Proof. intros H. unfold usable. by rewrite H. Qed.
End rule_application.

Section dropped_conditions.
Import Py Pd Rules.
Variable pandas_kernel : operator → list cell → cell → result (list bool).

(** The results that [_get_matching_rows] collects: one for each usable
    condition, in their order. *)
Lemma condition_results_Forall2 df conds results :
  condition_results pandas_kernel df conds = Ok results →
  Forall2 (λ cond res,
             ∃ f op, usable df cond = Some (f, op)
                     ∧ op_func pandas_kernel op (column df f) (cond_value cond)
                       = Ok res)
          (filter (λ c, is_Some (usable df c)) conds) results.
Proof.
  revert results. induction conds as [|cond conds IH]; intros results Hres.
  - injection Hres as <-. constructor.
  - rewrite filter_cons. simpl in Hres.
    destruct (usable df cond) as [[f op]|] eqn:Hu.
    + rewrite decide_True by done.
      destruct (op_func pandas_kernel op (column df f) (cond_value cond))
        as [r|e] eqn:Hop; [|done].
      simpl in Hres.
      destruct (condition_results pandas_kernel df conds) as [rs|e]; [|done].
      injection Hres as <-. constructor; [|by apply IH].
      exists f, op. by rewrite Hu.
    + rewrite decide_False by (by intros [? ?]). by apply IH.
Qed.

Lemma all_axis1_lookup n results i :
  all_axis1 n results !! i = Some true
  ↔ (i < n)%nat ∧ Forall (λ res : list bool, res !! i = Some true) results.
Proof.
  unfold all_axis1. rewrite list_lookup_fmap.
  destruct (decide (i < n)%nat) as [Hlt|Hge].
  - rewrite lookup_seq_lt by done. simpl. split.
    + intros [= Hall]. split; [done|].
      apply Forall_forall. intros res Hres.
      rewrite forallb_forall in Hall.
      specialize (Hall res (proj1 (list_elem_of_In _ _) Hres)).
      by destruct (res !! i) as [[]|].
    + intros [_ Hall]. f_equal. apply forallb_forall. intros res Hres.
      rewrite Forall_forall in Hall.
      by rewrite (Hall res (proj2 (list_elem_of_In _ _) Hres)).
  - rewrite lookup_seq_ge by lia. simpl. split; [done|]. intros [? _]. lia.
Qed.

Lemma any_axis1_lookup n results i :
  any_axis1 n results !! i = Some true
  ↔ (i < n)%nat ∧ Exists (λ res : list bool, res !! i = Some true) results.
Proof.
  unfold any_axis1. rewrite list_lookup_fmap.
  destruct (decide (i < n)%nat) as [Hlt|Hge].
  - rewrite lookup_seq_lt by done. simpl. split.
    + intros [= Hany]. split; [done|].
      apply existsb_exists in Hany as (res & Hres & Hi).
      apply Exists_exists. exists res.
      split; [by apply list_elem_of_In|]. by destruct (res !! i) as [[]|].
    + intros [_ Hany]. f_equal. apply existsb_exists.
      apply Exists_exists in Hany as (res & Hres & Hi). exists res.
      split; [by apply list_elem_of_In|]. by rewrite Hi.
  - rewrite lookup_seq_ge by lia. simpl. split; [done|]. intros [? _]. lia.
Qed.

Lemma Forall2_Forall_iff {A B} (R : A → B → Prop) (P : A → Prop)
      (Q : B → Prop) l k :
  Forall2 R l k → (∀ x y, x ∈ l → R x y → (P x ↔ Q y)) →
  (Forall P l ↔ Forall Q k).
Proof.
  induction 1 as [|x y l k HR _ IH]; intros Hiff; [by split; constructor|].
  rewrite !Forall_cons, (Hiff x y) by (done || left).
  rewrite IH; [done|]. intros x' y' Hx'. apply Hiff. by right.
Qed.

Lemma Forall2_Exists_iff {A B} (R : A → B → Prop) (P : A → Prop)
      (Q : B → Prop) l k :
  Forall2 R l k → (∀ x y, x ∈ l → R x y → (P x ↔ Q y)) →
  (Exists P l ↔ Exists Q k).
Proof.
  induction 1 as [|x y l k HR _ IH]; intros Hiff.
  { split; intros H; inversion H. }
  rewrite !Exists_cons, (Hiff x y) by (done || left).
  rewrite IH; [done|]. intros x' y' Hx'. apply Hiff. by right.
Qed.

Lemma no_rows_match_lookup df i : no_rows_match df !! i ≠ Some true.
Proof.
  unfold no_rows_match. intros H. apply lookup_replicate in H as [? _]. done.
Qed.

Lemma holds_at_usable df cond i :
  holds_at pandas_kernel df cond i → is_Some (usable df cond).
Proof. intros (f & op & res & -> & _). done. Qed.

(** Which rows a rule matches, read off its usable conditions. *)
Lemma get_matching_rows_lookup df rule matches i :
  _get_matching_rows pandas_kernel df rule = Ok matches →
  length matches = length (rows df)
  ∧ (is_all rule →
     (matches !! i = Some true
      ↔ (i < length (rows df))%nat ∧ usable_conditions df rule ≠ []
        ∧ ∀ cond, cond ∈ usable_conditions df rule →
                  holds_at pandas_kernel df cond i))
  ∧ (¬ is_all rule →
     (matches !! i = Some true
      ↔ (i < length (rows df))%nat
        ∧ ∃ cond, cond ∈ usable_conditions df rule
                  ∧ holds_at pandas_kernel df cond i)).
Proof.
  unfold _get_matching_rows, is_all, usable_conditions.
  destruct (conditions rule) as [|c conds] eqn:Hconds.
  { intros [= <-]. split; [apply length_replicate|].
    split; intros _; (split; [by intros ?%no_rows_match_lookup|]).
    - by intros (_ & ? & _).
    - intros (_ & cond & Hin & _). by apply elem_of_nil in Hin. }
  destruct (condition_results pandas_kernel df (c :: conds))
    as [results|e] eqn:Hres; [|done].
  pose proof (condition_results_Forall2 _ _ _ Hres) as Hpair.
  set (usable_conds := filter (λ c, is_Some (usable df c)) (c :: conds)) in *.
  simpl. destruct results as [|res results].
  { apply Forall2_nil_inv_r in Hpair. rewrite Hpair.
    intros [= <-]. split; [apply length_replicate|].
    split; intros _; (split; [by intros ?%no_rows_match_lookup|]).
    - by intros (_ & ? & _).
    - intros (_ & cond & Hin & _). by apply elem_of_nil in Hin. }
  assert (usable_conds ≠ []) as Hne.
  { intros Hnil. rewrite Hnil in Hpair. by apply Forall2_nil_inv_l in Hpair. }
  assert (∀ cond r, cond ∈ usable_conds →
            (∃ f op, usable df cond = Some (f, op)
                     ∧ op_func pandas_kernel op (column df f) (cond_value cond)
                       = Ok r) →
            (holds_at pandas_kernel df cond i ↔ r !! i = Some true)) as Hone.
  { intros cond r _ (f & op & Hu & Hop). split.
    - intros (f' & op' & r' & Hu' & Hop' & Hi).
      rewrite Hu in Hu'. injection Hu' as <- <-.
      rewrite Hop in Hop'. by injection Hop' as <-.
    - intros Hi. by exists f, op, r. }
  assert (Forall ((λ cond, holds_at pandas_kernel df cond i)) usable_conds
          ↔ Forall (λ r : list bool, r !! i = Some true) (res :: results))
    as HForall.
  { apply (Forall2_Forall_iff _ _ _ _ _ Hpair). intros cond r Hc HR.
    by apply Hone. }
  assert (Exists ((λ cond, holds_at pandas_kernel df cond i)) usable_conds
          ↔ Exists (λ r : list bool, r !! i = Some true) (res :: results))
    as HExists.
  { apply (Forall2_Exists_iff _ _ _ _ _ Hpair). intros cond r Hc HR.
    by apply Hone. }
  rewrite Forall_forall in HForall. rewrite Exists_exists in HExists.
  case_bool_decide as Hall; intros [= <-].
  - split; [unfold all_axis1; by rewrite length_fmap, length_seq|].
    split; [intros _|done]. rewrite all_axis1_lookup, <- HForall. tauto.
  - split; [unfold any_axis1; by rewrite length_fmap, length_seq|].
    split; [done|intros _]. rewrite any_axis1_lookup, <- HExists. tauto.
Qed.

End dropped_conditions.
Section engine_conditions.
Import Py Pd Rules.
Variable pandas_kernel : operator → list cell → cell → result (list bool).

Lemma ensure_column_columns needed col v df :
  columns (ensure_column needed col v df)
  = columns df ++ (if decide (col ∈ needed ∧ col ∉ columns df) then [col]
                   else []).
Proof.
  unfold ensure_column.
  destruct (decide (col ∈ needed)) as [Hn|Hn].
  - rewrite (bool_decide_eq_true_2 _ Hn).
    destruct (decide (col ∈ columns df)) as [Hc|Hc].
    + rewrite (bool_decide_eq_true_2 _ Hc). simpl.
      rewrite decide_False by tauto. by rewrite app_nil_r.
    + rewrite (bool_decide_eq_false_2 _ Hc). simpl.
      rewrite decide_False by done. by rewrite decide_True.
  - rewrite (bool_decide_eq_false_2 _ Hn). simpl.
    rewrite decide_False by tauto. by rewrite app_nil_r.
Qed.

(** The columns after the pre-scan: those of the row set, then the
    created ones. *)
Lemma prepare_columns_created rules df :
  columns (_prepare_df_for_actions rules df)
  = columns df ++ created_columns rules df.
Proof.
  unfold _prepare_df_for_actions, created_columns.
  set (needed := needed_columns rules).
  rewrite !ensure_column_columns, <- !app_assoc. f_equal.
  rewrite !filter_cons, filter_nil.
  destruct (decide ("Priority" ∈ needed ∧ "Priority" ∉ columns df))
    as [H1|H1];
    destruct (decide ("_is_excluded" ∈ needed ∧ "_is_excluded" ∉ columns df))
      as [H2|H2];
    destruct (decide ("Status_Note" ∈ needed ∧ "Status_Note" ∉ columns df))
      as [H3|H3]; simpl;
    repeat (first
      [ rewrite decide_True
          by (rewrite ?elem_of_app, ?elem_of_cons, ?elem_of_nil;
              split; [tauto|]; intros [?|?]; [tauto|];
              repeat match goal with
                     | H : _ ∨ _ |- _ => destruct H
                     | H : False |- _ => destruct H
                     | H : _ = _ |- _ => discriminate H
                     end)
      | rewrite decide_False
          by (rewrite ?elem_of_app, ?elem_of_cons, ?elem_of_nil; tauto) ]);
    simpl; rewrite ?app_nil_r; reflexivity.
Qed.

Lemma dropped_by_engine_not_usable rules df cond :
  dropped_by_engine rules df cond →
  usable (_prepare_df_for_actions rules df) cond = None.
Proof.
  intros [Hop|(f & Hf & Hdf & Hcreated)]; apply malformed_not_usable.
  - by left.
  - right. exists f. split; [done|].
    rewrite prepare_columns_created, elem_of_app. tauto.
Qed.

Lemma apply_rules_all_dropped rules df some_rules :
  Forall (λ rule, Forall (dropped_by_engine rules df) (conditions rule))
         some_rules →
  apply_rules pandas_kernel (_prepare_df_for_actions rules df) some_rules
  = Ok (_prepare_df_for_actions rules df).
Proof.
  induction 1 as [|rule some_rules Hrule _ IH]; [done|].
  simpl. rewrite apply_rule_none_usable; [exact IH|].
  unfold usable_conditions. apply filter_none.
  eapply Forall_impl; [exact Hrule|]. intros cond Hdropped.
  rewrite (dropped_by_engine_not_usable _ _ _ Hdropped). by intros [? ?].
Qed.

End engine_conditions.

(** The engine, unlike [_get_matching_rows] alone, evaluates a condition
    on a column that the row set lacks when the pre-scan creates that
    column: on a row set without Status_Note, the rule "Status_Note is
    empty: ADD_TAG T" tags every row. *)
Lemma condition_on_created_column_is_evaluated :
  ("Status_Note" ∉ Rules.columns bare_frame)
  ∧ malformed bare_frame note_is_empty
  ∧ notes (Rules.apply unused_kernel (Some [tag_rule [note_is_empty] "T"])
             bare_frame)
    = Some [Rules.Str "T"; Rules.Str "T"].
Proof.
  assert ("Status_Note" ∉ Rules.columns bare_frame) as Hnot
    by (apply (bool_decide_unpack _); vm_compute; exact I).
  split; [exact Hnot|]. split; [|reflexivity].
  right. by exists "Status_Note".
Qed.

(** Claim C8, amended.  A condition whose operator is not in
    [OPERATOR_MAP] or whose field is not a column of the row set on which
    the rule is matched is dropped from the rule, and neither the rule nor
    the engine fails on it: the rule matches exactly as it would without
    it.  A row matches an [ANY] rule exactly when one of the usable
    conditions holds on it, so there the dropped condition counts as never
    matching; it matches an [ALL] rule exactly when the rule has a usable
    condition and all of them hold, so there the dropped condition does
    not veto.  A rule with no usable condition matches no row and applying
    it returns the row set as it is.  The engine matches its rules on the
    row set that the pre-scan has prepared: the given rows and columns,
    and after them the columns of Priority, _is_excluded and Status_Note
    that its actions need and the given row set lacks.  A condition is
    dropped by the engine when its operator is unknown or its field is
    neither a given nor a created column, and when this holds of every
    condition of every rule the engine returns the prepared row set. *)
Theorem malformed_conditions_are_dropped
        (pandas_kernel : Rules.operator → list Rules.cell → Rules.cell
                         → Py.result (list bool))
        (df : Rules.DataFrame) (rule : Rules.Rule) :
  (∀ cond, cond ∈ Rules.conditions rule → malformed df cond →
           cond ∉ usable_conditions df rule)
  ∧ Rules._get_matching_rows pandas_kernel df rule
    = Rules._get_matching_rows pandas_kernel df
        (with_conditions (usable_conditions df rule) rule)
  ∧ (∀ matches,
       Rules._get_matching_rows pandas_kernel df rule = Py.Ok matches →
       length matches = length (Rules.rows df)
       ∧ ∀ i,
           (is_all rule →
            (matches !! i = Some true
             ↔ (i < length (Rules.rows df))%nat
               ∧ usable_conditions df rule ≠ []
               ∧ ∀ cond, cond ∈ usable_conditions df rule →
                         holds_at pandas_kernel df cond i))
           ∧ (¬ is_all rule →
              (matches !! i = Some true
               ↔ (i < length (Rules.rows df))%nat
                 ∧ ∃ cond, cond ∈ usable_conditions df rule
                           ∧ holds_at pandas_kernel df cond i)))
  ∧ (usable_conditions df rule = [] →
     Rules._get_matching_rows pandas_kernel df rule
     = Py.Ok (Rules.no_rows_match df)
     ∧ Rules.apply_rule pandas_kernel df rule = Py.Ok df)
  ∧ (∀ rules, rules ≠ [] →
       let df' := Rules._prepare_df_for_actions rules df in
       Rules.columns df' = Rules.columns df ++ created_columns rules df
       ∧ length (Rules.rows df') = length (Rules.rows df)
       ∧ (∀ col, col ∈ Rules.columns df →
                 Rules.column df' col = Rules.column df col)
       ∧ (∀ cond, dropped_by_engine rules df cond →
                  Rules.usable df' cond = None)
       ∧ (Forall (λ rule, Forall (dropped_by_engine rules df)
                                 (Rules.conditions rule)) rules →
          Rules.apply pandas_kernel (Some rules) df = Py.Ok df')).
Proof.
  split; [|split; [|split; [|split]]].
  - intros cond _ Hbad [Hu _]%list_elem_of_filter.
    rewrite (malformed_not_usable _ _ Hbad) in Hu. by destruct Hu.
  - apply get_matching_rows_usable.
  - intros matches Hm. split.
    + by apply (get_matching_rows_lookup pandas_kernel df rule matches 0%nat).
    + intros i. by apply (get_matching_rows_lookup pandas_kernel df rule matches i).
  - intros Hnone. split.
    + by apply get_matching_rows_none_usable.
    + by apply apply_rule_none_usable.
  - intros rules Hrules df'. split; [apply prepare_columns_created|].
    split; [apply prepare_length|].
    split; [intros col Hcol; by apply prepare_existing|].
    split; [apply dropped_by_engine_not_usable|].
    intros Hall. destruct rules as [|r rules]; [done|].
    unfold Rules.apply. by apply apply_rules_all_dropped.
Qed.

Lemma malformed_conditions_witness :
  (∃ matches,
     Rules._get_matching_rows unused_kernel orders_frame
       (with_match (Some "any") [unknown_field; is_dhl]) = Py.Ok matches
     ∧ matches !! 0%nat = Some true
     ∧ ∃ cond, cond ∈ usable_conditions orders_frame
                        (with_match (Some "any") [unknown_field; is_dhl])
               ∧ holds_at unused_kernel orders_frame cond 0)
  ∧ Rules.apply unused_kernel
      (Some [tag_rule [unknown_field; unknown_operator] "SHOULD-NOT-BE-ADDED"])
      bare_frame
    = Py.Ok (Rules._prepare_df_for_actions
               [tag_rule [unknown_field; unknown_operator] "SHOULD-NOT-BE-ADDED"]
               bare_frame).
Proof.
  split.
  - exists [true; false]. split; [reflexivity|]. split; [reflexivity|].
    destruct (malformed_conditions_are_dropped unused_kernel orders_frame
                (with_match (Some "any") [unknown_field; is_dhl]))
      as (_ & _ & Hmatch & _).
    destruct (Hmatch [true; false] eq_refl) as [_ Hrows].
    destruct (Hrows 0%nat) as [_ Hany].
    assert (¬ is_all (with_match (Some "any") [unknown_field; is_dhl]))
      as Hnot by (intros H; vm_compute in H; discriminate H).
    exact (proj2 (proj1 (Hany Hnot) eq_refl)).
  - destruct (malformed_conditions_are_dropped unused_kernel bare_frame
                (tag_rule [unknown_field; unknown_operator] "SHOULD-NOT-BE-ADDED"))
      as (_ & _ & _ & _ & Hengine).
    apply Hengine; [discriminate|].
    apply Forall_cons_2; [|apply Forall_nil_2].
    apply Forall_cons_2; [|apply Forall_cons_2; [|apply Forall_nil_2]].
    + right. exists "NonExistentField". split; [done|].
      split; apply (bool_decide_unpack _); vm_compute; exact I.
    + left. exists "resembles". split; [done|]. reflexivity.
Defined.

(** ** ADD_TAG *)

Section tag_without_separator.
Import Py Pd Rules.

Lemma rev_app_append a b c :
  String.rev_app a b +:+ c = String.rev_app a (b +:+ c).
Proof. revert b. induction a as [|x a IH]; intros b; simpl; [done|apply IH]. Qed.

Lemma append_empty_r s : s +:+ "" = s.
Proof.
  induction s as [|c s IH]; [done|].
  change (String c (s +:+ "") = String c s). by rewrite IH.
Qed.

Lemma rev_cons_append c cur v :
  String.rev (String c cur) +:+ v = String.rev cur +:+ String c v.
Proof. unfold String.rev. simpl. by rewrite !rev_app_append. Qed.

Lemma free_of_separator_cons c v :
  free_of_separator (String c v) →
  free_of_separator v
  ∧ match v with
    | String c' _ => Ascii.eqb c "," && Ascii.eqb c' " " = false
    | EmptyString => True
    end.
Proof.
  unfold free_of_separator. simpl.
  intros [Hpre Hrest]%orb_false_elim. split; [exact Hrest|].
  destruct v as [|c' v']; [done|].
  destruct (Ascii.eqb_spec c ",") as [->|]; [|done].
  destruct (Ascii.eqb_spec c' " ") as [->|]; [|done].
  by destruct v'.
Qed.

Lemma split_comma_go_two cur c c' s :
  split_comma_go cur (String c (String c' s))
  = if Ascii.eqb c "," && Ascii.eqb c' " "
    then String.rev cur :: split_comma_go "" s
    else split_comma_go (String c cur) (String c' s).
Proof. done. Qed.

Lemma split_comma_go_one cur c :
  split_comma_go cur (String c "") = [String.rev (String c cur)].
Proof. done. Qed.

(** A string without the separator is one piece. *)
Lemma split_comma_go_free v cur :
  free_of_separator v → split_comma_go cur v = [String.rev cur +:+ v].
Proof.
  revert cur. induction v as [|c v IH]; intros cur Hfree.
  - simpl. by rewrite append_empty_r.
  - apply free_of_separator_cons in Hfree as [Hfree Hc].
    destruct v as [|c' v'].
    + rewrite split_comma_go_one.
      by rewrite <- (append_empty_r (String.rev (String c cur))),
                 rev_cons_append.
    + rewrite split_comma_go_two, Hc, (IH _ Hfree).
      by rewrite rev_cons_append.
Qed.

(** After the separator and a tag without one, the tag is a piece of the
    split. *)
Lemma split_comma_go_tagged v n note cur :
  free_of_separator v → (String.length note ≤ n)%nat →
  v ∈ split_comma_go cur (note +:+ ", " +:+ v).
Proof.
  intros Hfree. revert note cur.
  assert (∀ cur, v ∈ split_comma_go cur (", " +:+ v)) as Hbase.
  { intros cur. change (", " +:+ v) with (String "," (String " " v)).
    rewrite split_comma_go_two. simpl.
    rewrite (split_comma_go_free v "" Hfree). right. left. }
  induction n as [|n IH]; intros note cur Hlen.
  - destruct note; [apply Hbase|simpl in Hlen; lia].
  - destruct note as [|c note]; [apply Hbase|].
    destruct note as [|c' note].
    + change (String c "" +:+ ", " +:+ v)
        with (String c (String "," (String " " v))).
      rewrite split_comma_go_two.
      replace (Ascii.eqb c "," && Ascii.eqb "," " ") with false
        by (by rewrite andb_false_r).
      apply (IH "" (String c cur)). simpl. lia.
    + change (String c (String c' note) +:+ ", " +:+ v)
        with (String c (String c' (note +:+ ", " +:+ v))).
      rewrite split_comma_go_two. destruct (_ && _).
      * right. apply IH. simpl in Hlen. lia.
      * apply (IH (String c' note) (String c cur)). simpl in *. lia.
Qed.

(** Appending a tag that has no separator in it twice is appending it
    once. *)
Lemma append_note_idempotent v note :
  free_of_separator v →
  append_note (Str v) (note_text (append_note (Str v) note))
  = append_note (Str v) note.
Proof.
  intros Hfree. unfold append_note at 2 3.
  case_bool_decide as Hin.
  - simpl. unfold append_note. by rewrite bool_decide_eq_true_2.
  - case_bool_decide as Hempty.
    + simpl. unfold append_note. rewrite bool_decide_eq_true_2; [done|].
      unfold split_comma. rewrite (split_comma_go_free v "" Hfree).
      rewrite fmap_cons. left.
    + simpl. unfold append_note. rewrite bool_decide_eq_true_2; [done|].
      apply list_elem_of_fmap_2. unfold split_comma.
      by apply (split_comma_go_tagged v (String.length note)).
Qed.

Lemma update_where_idempotent mask col (f : cell → cell) df :
  (∀ c, f (f c) = f c) →
  update_where mask col f (update_where mask col f df)
  = update_where mask col f df.
Proof.
  intros Hf. unfold update_where. simpl.
  assert (col ∈ (if decide (col ∈ columns df) then columns df
                 else columns df ++ [col])) as Hcol.
  { case_decide; [done|]. apply elem_of_app. right. left. }
  rewrite (decide_True (P := col ∈ _)) by exact Hcol.
  f_equal. generalize (rows df) as rs.
  induction mask as [|m mask IH]; intros rs; [done|].
  destruct rs as [|r rs]; [done|].
  simpl. rewrite IH. f_equal.
  destruct m; [|by rewrite decide_True by exact Hcol].
  unfold get_cell. rewrite lookup_insert_eq. simpl.
  by rewrite Hf, insert_insert_eq.
Qed.

(** Executing [ADD_TAG] with such a tag on the same rows a second time
    changes nothing. *)
Lemma add_tag_action_idempotent df matches v :
  free_of_separator v →
  let action := {| action_type := Some "ADD_TAG"; action_value := Str v |} in
  bind (execute_action df matches action)
       (λ df', execute_action df' matches action)
  = execute_action df matches action.
Proof.
  intros Hfree action.
  assert (∀ d, execute_action d matches action
               = Ok (update_where matches "Status_Note"
                       (λ c, append_note (Str v) (note_text c)) d)) as Hexec
    by done.
  rewrite !Hexec. simpl. rewrite Hexec. f_equal.
  apply update_where_idempotent. intros c. by apply append_note_idempotent.
Qed.
End tag_without_separator.

(** Claim C9 at a tag that contains the separator: applying the rule
    [ADD_TAG "A, B"] a second time appends the tag again. *)
Theorem add_tag_with_separator_is_appended_twice :
  notes (apply_times 1 (tag_rule [is_order_1001] "A, B") one_order_frame)
  = Some [Rules.Str "A, B"]
  ∧ notes (apply_times 2 (tag_rule [is_order_1001] "A, B") one_order_frame)
    = Some [Rules.Str "A, B, A, B"]
  ∧ Rules.append_note (Rules.Str "A, B") "" = Rules.Str "A, B"
  ∧ Rules.append_note (Rules.Str "A, B") "A, B" = Rules.Str "A, B, A, B".
Proof. repeat split; vm_compute; reflexivity. Qed.

(** * Further properties

    Properties of the code beyond the claims above. *)

(** ** The toggle, row by row *)

Section toggle_columns.
Import Py Pd Analysis.

Lemma moved_fmap_keys (g : Z → Z) (q : string → Z) (keys : list string) sku :
  NoDup keys →
  moved g ((λ k, (k, q k)) <$> keys) sku
  = if decide (sku ∈ keys) then g (q sku) else 0.
Proof.
  induction keys as [|k keys IH]; intros Hnd.
  - simpl. destruct (decide (sku ∈ [])) as [Hin|_]; [|done].
    by apply elem_of_nil in Hin.
  - apply NoDup_cons in Hnd as [Hk Hnd]. rewrite fmap_cons. simpl.
    rewrite (IH Hnd).
    destruct (decide (sku ∈ k :: keys)) as [Hin2|Hnin2];
      destruct (decide (sku ∈ keys)) as [Hin3|Hnin3];
      destruct (decide (sku = k)) as [Heq|Hne];
      rewrite ?elem_of_cons in *; subst; try lia; tauto.
Qed.

Lemma moved_quantity_by_SKU rows o sku :
  moved (λ q, q) (quantity_by_SKU (order_rows rows o)) sku
  = order_quantity rows o sku.
Proof.
  unfold quantity_by_SKU.
  rewrite (moved_fmap_keys (λ q, q)
             (λ k, sum (Quantity <$> filter (λ r, SKU r = k) (order_rows rows o))))
    by apply NoDup_group_keys.
  case_decide as Hin; [done|]. unfold order_quantity.
  assert (filter (λ r, SKU r = sku) (order_rows rows o) = []) as ->; [|done].
  apply filter_none. apply Forall_forall. intros r Hr Hsku. apply Hin.
  apply elem_of_group_keys. apply list_elem_of_fmap. by exists r.
Qed.

Lemma force_fulfill_rows rows o :
  set_order_status o Fulfillable
    (foldl deduct_step rows (quantity_by_SKU (order_rows rows o)))
  = (λ r, let r' := set_Final_Stock
                      ((λ v, v - order_quantity rows o (SKU r)) <$> Final_Stock r) r in
          if decide (Order_Number r = Some o)
          then set_Status (Some Fulfillable) r' else r') <$> rows.
Proof.
  rewrite force_fulfill_deduct, (foldl_add_Final_Stock Z.opp).
  unfold set_order_status. rewrite <- list_fmap_compose.
  apply list_fmap_ext. intros _ r _. simpl.
  rewrite moved_opp, moved_quantity_by_SKU.
  assert ((λ v, v + - order_quantity rows o (SKU r)) <$> Final_Stock r
          = (λ v, v - order_quantity rows o (SKU r)) <$> Final_Stock r) as ->; [|done].
  destruct (Final_Stock r); simpl; [f_equal; lia|done].
Qed.

Lemma unfulfill_rows_quantity rows o :
  unfulfill rows o
  = (λ r, let r' := set_Final_Stock
                      ((λ v, v + order_quantity rows o (SKU r)) <$> Final_Stock r) r in
          if decide (Order_Number r = Some o)
          then set_Status (Some Not_Fulfillable) r' else r') <$> rows.
Proof.
  rewrite unfulfill_rows. apply list_fmap_ext. intros _ r _.
  unfold unfulfilled_row. by rewrite moved_quantity_by_SKU.
Qed.

(** The rows a successful toggle returns, row by row. *)
Lemma toggle_success_rows rows rows' o err st :
  current_status rows o = Some st →
  toggle_order_fulfillment (Some rows) o = (true, err, Some rows') →
  let back := bool_decide (st = Some Fulfillable) in
  err = None
  ∧ rows' =
    (λ r, let q := order_quantity rows o (SKU r) in
          let r' := set_Final_Stock
                      ((λ v, if back then v + q else v - q) <$> Final_Stock r) r in
          if decide (Order_Number r = Some o)
          then set_Status
                 (Some (if back then Not_Fulfillable else Fulfillable)) r'
          else r') <$> rows.
Proof.
  intros Hst Htoggle back. unfold current_status in Hst.
  destruct (head (order_rows rows o)) as [first|] eqn:Hhd; [|done].
  injection Hst as Hst. rewrite (toggle_unfold_some _ _ _ Hhd) in Htoggle.
  unfold back. rewrite <- Hst. case_decide as Hd.
  - injection Htoggle as <- <-. rewrite bool_decide_eq_true_2 by done.
    split; [done|]. apply unfulfill_rows_quantity.
  - unfold force_fulfill in Htoggle. case_bool_decide; [|done].
    injection Htoggle as <- <-. rewrite bool_decide_eq_false_2 by done.
    split; [done|]. apply force_fulfill_rows.
Qed.


End toggle_columns.

(** ** The toggle, column by column *)

(** A successful toggle reports no message and sets every row of the order
    to the opposite of the status of the order's first row: Not Fulfillable
    when that row was Fulfillable, Fulfillable for any other status.  The
    rows of the other orders keep their status. *)
Theorem toggle_success_sets_status_of_whole_order
        (rows rows' : list Analysis.AnalysisRow) (o : string)
        (err st : option string) :
  current_status rows o = Some st →
  Analysis.toggle_order_fulfillment (Some rows) o = (true, err, Some rows') →
  let new_status := if bool_decide (st = Some Analysis.Fulfillable)
                    then Analysis.Not_Fulfillable else Analysis.Fulfillable in
  err = None
  ∧ Analysis.Order_Fulfillment_Status <$> rows'
    = (λ r, if decide (Analysis.Order_Number r = Some o)
            then Some new_status
            else Analysis.Order_Fulfillment_Status r) <$> rows.
Proof.
  intros Hst Htoggle new_status.
  destruct (toggle_success_rows _ _ _ _ _ Hst Htoggle) as [-> ->].
  split; [done|]. rewrite <- list_fmap_compose.
  apply list_fmap_ext. intros _ r _. unfold new_status. simpl.
  destruct (decide (Analysis.Order_Number r = Some o)); [|done].
  by destruct (bool_decide (st = Some Analysis.Fulfillable)).
Qed.

Lemma toggle_success_sets_status_witness :
  ∃ rows', Analysis.toggle_order_fulfillment (Some sample_analysis_df) "1001"
           = (true, None, Some rows')
           ∧ Analysis.Order_Fulfillment_Status <$> rows'
             = [Some "Not Fulfillable"; Some "Not Fulfillable";
                Some "Not Fulfillable"].
Proof.
  eexists. split; [reflexivity|].
  apply (toggle_success_sets_status_of_whole_order
           sample_analysis_df _ "1001" None (Some Analysis.Fulfillable));
    reflexivity.
Defined.



(** ** Force-fulfilling *)



Section toggle_back.
Import Py Pd Analysis.




End toggle_back.



Section toggle_invariants.
Import Py Pd Analysis.




End toggle_invariants.



(** ** Statistics *)

Section counting.
Import Pd.

Lemma unique_filter {A} `{EqDecision A} (P : A → Prop) `{∀ x, Decision (P x)}
      (l : list A) :
  unique (filter P l) = filter P (unique l).
Proof.
  induction l as [|x l IH]; [done|]. simpl.
  rewrite !filter_cons. destruct (decide (P x)) as [HP|HP].
  - simpl. rewrite IH. f_equal.
    rewrite !list_filter_filter. apply list_filter_iff.
    intros y. simpl. split; intros [? ?]; by split.
  - rewrite IH. rewrite list_filter_filter.
    apply list_filter_iff. intros y. simpl. split; [|by intros [? ?]].
    intros Hy. split; [done|]. by intros ->.
Qed.

Lemma length_unique (l : list string) :
  length (unique l) = size (list_to_set (C := gset string) l).
Proof.
  rewrite <- (size_list_to_set (C := gset string) (unique l))
    by apply NoDup_unique.
  f_equal. apply set_eq. intros x.
  by rewrite !elem_of_list_to_set, elem_of_unique.
Qed.

Lemma length_unique_subseteq (l1 l2 : list string) :
  l1 ⊆ l2 → (length (unique l1) ≤ length (unique l2))%nat.
Proof.
  intros Hsub. rewrite !length_unique. apply subseteq_size.
  intros x. rewrite !elem_of_list_to_set. apply Hsub.
Qed.

Lemma size_union_list_le (sets : list (gset string)) :
  (size (⋃ sets) ≤ sum_list (size <$> sets))%nat.
Proof.
  induction sets as [|X sets IH].
  { rewrite union_list_nil, size_empty. simpl. lia. }
  rewrite union_list_cons, fmap_cons. simpl.
  rewrite size_union_alt.
  assert (size ((⋃ sets) ∖ X) ≤ size (⋃ sets))%nat
    by (apply subseteq_size; intros x Hx;
        by apply elem_of_difference in Hx as [? _]).
  lia.
Qed.

Lemma size_union_list_disjoint {K} (f : K → gset string) (keys : list K) :
  NoDup keys →
  (∀ k1 k2, k1 ∈ keys → k2 ∈ keys → k1 ≠ k2 → f k1 ## f k2) →
  size (⋃ (f <$> keys)) = sum_list (size <$> (f <$> keys)).
Proof.
  induction keys as [|k keys IH]; intros Hnd Hdisj.
  { rewrite !fmap_nil, union_list_nil, size_empty. done. }
  apply NoDup_cons in Hnd as [Hk Hnd].
  rewrite !fmap_cons, union_list_cons. simpl.
  rewrite size_union.
  - rewrite IH; [done|done|].
    intros k1 k2 H1 H2. apply Hdisj; by right.
  - intros x Hx Hu. apply elem_of_union_list in Hu as (Y & HY & HxY).
    apply list_elem_of_fmap in HY as (k' & -> & Hk').
    assert (f k ## f k') as Hd.
    { apply Hdisj; [left|by right|]. by intros ->. }
    by apply (proj1 (elem_of_disjoint _ _) Hd x).
Qed.

End counting.

Section statistics_facts.
Import Py Pd Analysis.

Lemma nunique_orders_of (l : list AnalysisRow) :
  nunique (Order_Number <$> l) = size (orders_of l).
Proof. unfold nunique, orders_of. apply length_unique. Qed.

Lemma elem_of_orders_of (l : list AnalysisRow) (o : string) :
  o ∈ orders_of l ↔ ∃ r, r ∈ l ∧ Order_Number r = Some o.
Proof.
  unfold orders_of. rewrite elem_of_list_to_set, list_elem_of_omap. split.
  - intros (x & Hx & Hid). apply list_elem_of_fmap in Hx as (r & -> & Hr).
    exists r. split; [done|]. by destruct (Order_Number r); simplify_eq/=.
  - intros (r & Hr & Hon). exists (Some o). split; [|done].
    apply list_elem_of_fmap. by exists r.
Qed.

Lemma orders_of_subseteq (l1 l2 : list AnalysisRow) :
  l1 ⊆ l2 → orders_of l1 ⊆ orders_of l2.
Proof.
  intros Hsub o. rewrite !elem_of_orders_of. intros (r & Hr & Hon).
  exists r. split; [by apply Hsub|done].
Qed.

Lemma group_keys_nil_inv (l : list string) : group_keys l = [] → l = [].
Proof.
  unfold group_keys. intros Hnil. apply unique_nil_inv.
  apply Permutation_nil_r. rewrite <- Hnil.
  symmetry. apply merge_sort_Permutation.
Qed.

(** The couriers that [recalculate_statistics] lists. *)
Lemma couriers_stats_unfold df :
  let completed := filter (has_status Fulfillable) df in
  let cs :=
    (λ provider,
       let group := filter (λ r, provider_of r = provider) completed in
       mkCourierData provider
         (nunique (Order_Number <$> group))
         (nunique (Order_Number <$>
                     filter (λ r, System_note r = Some "Repeat") group)))
      <$> group_keys (provider_of <$> completed) in
  couriers_stats (recalculate_statistics df)
  = match cs with [] => None | _ :: _ => Some cs end.
Proof. done. Qed.

End statistics_facts.

(** The breakdown by courier is missing exactly when no row is
    Fulfillable.  Otherwise it has one entry for each shipping provider of
    a Fulfillable row (a missing provider counting as "Unknown"), in
    ascending order of the provider name and without repetition, and in
    each entry the repeated orders are at most the orders assigned, which
    are at most the orders completed. *)
Theorem courier_statistics_list_each_provider_once
        (df : list Analysis.AnalysisRow) :
  let stats := Analysis.recalculate_statistics df in
  let completed := filter (Analysis.has_status Analysis.Fulfillable) df in
  (Analysis.couriers_stats stats = None ↔ completed = [])
  ∧ ∀ couriers, Analysis.couriers_stats stats = Some couriers →
      Sorted String.le (Analysis.courier_id <$> couriers)
      ∧ NoDup (Analysis.courier_id <$> couriers)
      ∧ (∀ p, p ∈ Analysis.courier_id <$> couriers
              ↔ ∃ r, r ∈ completed ∧ provider_of r = p)
      ∧ Forall (λ c, (Analysis.repeated_orders_found c
                      ≤ Analysis.orders_assigned c
                      ≤ Analysis.total_orders_completed stats)%nat) couriers.
Proof.
  intros stats completed. unfold stats.
  rewrite couriers_stats_unfold. fold completed.
  set (keys := Pd.group_keys (provider_of <$> completed)).
  set (entry := λ provider : string, _).
  assert (Analysis.courier_id <$> (entry <$> keys) = keys) as Hids.
  { rewrite <- list_fmap_compose. apply list_fmap_id. }
  split.
  - destruct (entry <$> keys) as [|c cs] eqn:Hcs.
    + split; [intros _|done]. apply fmap_nil_inv in Hcs.
      apply group_keys_nil_inv in Hcs. by apply fmap_nil_inv in Hcs.
    + split; [done|]. intros Hnil. exfalso.
      assert (keys = []) as Hk by (unfold keys; by rewrite Hnil).
      by rewrite Hk in Hcs.
  - intros couriers Hsome.
    assert (couriers = entry <$> keys) as ->.
    { destruct (entry <$> keys); [done|]. by injection Hsome as <-. }
    rewrite Hids. split; [|split; [|split]].
    + apply (Sorted_merge_sort String.le).
    + apply NoDup_group_keys.
    + intros p. unfold keys. rewrite elem_of_group_keys, list_elem_of_fmap.
      split; intros (r & ? & ?); by exists r.
    + apply Forall_forall. intros c Hc.
      apply list_elem_of_fmap in Hc as (p & -> & _). simpl.
      change (Analysis.total_orders_completed (Analysis.recalculate_statistics df))
        with (Pd.nunique (Analysis.Order_Number <$> completed)).
      rewrite !nunique_orders_of. split; apply subseteq_size, orders_of_subseteq;
        intros r Hr; by apply list_elem_of_filter in Hr as [_ ?].
Qed.

Lemma courier_statistics_witness :
  ∃ couriers,
    Analysis.couriers_stats
      (Analysis.recalculate_statistics
         [provider_row "1001" "DHL"; provider_row "1002" "DPD";
          provider_row "1003" "DHL"])
    = Some couriers
    ∧ Sorted String.le (Analysis.courier_id <$> couriers)
    ∧ NoDup (Analysis.courier_id <$> couriers).
Proof.
  set (df := [provider_row "1001" "DHL"; provider_row "1002" "DPD";
              provider_row "1003" "DHL"]).
  destruct (Analysis.couriers_stats (Analysis.recalculate_statistics df))
    as [couriers|] eqn:Hcs; [|by vm_compute in Hcs].
  exists couriers. split; [done|].
  destruct (courier_statistics_list_each_provider_once df) as [_ H].
  destruct (H couriers Hcs) as (Hsorted & Hnd & _). by split.
Defined.

Section courier_totals.
Import Py Pd Analysis.

Lemma orders_of_by_provider (completed : list AnalysisRow) :
  orders_of completed
  = ⋃ ((λ p, orders_of (filter (λ r, provider_of r = p) completed))
         <$> group_keys (provider_of <$> completed)).
Proof.
  apply set_eq. intros o. rewrite elem_of_union_list, elem_of_orders_of. split.
  - intros (r & Hr & Hon).
    exists (orders_of (filter (λ r0, provider_of r0 = provider_of r) completed)).
    split.
    + apply list_elem_of_fmap. exists (provider_of r). split; [done|].
      apply elem_of_group_keys, list_elem_of_fmap. by exists r.
    + apply elem_of_orders_of. exists r. split; [|done].
      by apply list_elem_of_filter.
  - intros (X & HX & Ho). apply list_elem_of_fmap in HX as (p & -> & _).
    apply elem_of_orders_of in Ho as (r & Hr & Hon).
    exists r. split; [|done]. by apply list_elem_of_filter in Hr as [_ ?].
Qed.

Lemma orders_assigned_sum (df : list AnalysisRow) couriers :
  couriers_stats (recalculate_statistics df) = Some couriers →
  let completed := filter (has_status Fulfillable) df in
  sum_list (orders_assigned <$> couriers)
  = sum_list (size <$>
                ((λ p, orders_of (filter (λ r, provider_of r = p) completed))
                   <$> group_keys (provider_of <$> completed))).
Proof.
  rewrite couriers_stats_unfold. intros Hsome completed. fold completed in Hsome.
  set (keys := group_keys (provider_of <$> completed)) in *.
  set (entry := λ provider : string, _) in Hsome.
  assert (couriers = entry <$> keys) as ->.
  { destruct (entry <$> keys); [done|]. by injection Hsome as <-. }
  f_equal. rewrite <- !list_fmap_compose. apply list_fmap_ext.
  intros _ p _. simpl. apply nunique_orders_of.
Qed.

End courier_totals.

(** The orders assigned to the couriers add up to at least the orders
    completed, an order whose Fulfillable rows name two providers being
    counted under both.  When the Fulfillable rows of each order name one
    provider, they add up to exactly the orders completed. *)
Theorem orders_assigned_add_up_to_orders_completed
        (df : list Analysis.AnalysisRow) (couriers : list Analysis.CourierData) :
  let stats := Analysis.recalculate_statistics df in
  let completed := filter (Analysis.has_status Analysis.Fulfillable) df in
  Analysis.couriers_stats stats = Some couriers →
  (Analysis.total_orders_completed stats
   ≤ sum_list (Analysis.orders_assigned <$> couriers))%nat
  ∧ ((∀ r r', r ∈ completed → r' ∈ completed →
              is_Some (Analysis.Order_Number r) →
              Analysis.Order_Number r = Analysis.Order_Number r' →
              provider_of r = provider_of r') →
     sum_list (Analysis.orders_assigned <$> couriers)
     = Analysis.total_orders_completed stats).
Proof.
  intros stats completed Hsome.
  rewrite (orders_assigned_sum df couriers Hsome). fold completed.
  change (Analysis.total_orders_completed stats)
    with (Pd.nunique (Analysis.Order_Number <$> completed)).
  rewrite nunique_orders_of, (orders_of_by_provider completed). split.
  - apply size_union_list_le.
  - intros Hone. symmetry. apply size_union_list_disjoint.
    + apply NoDup_group_keys.
    + intros p1 p2 _ _ Hne. apply elem_of_disjoint. intros o Ho1 Ho2.
      apply elem_of_orders_of in Ho1 as (r1 & Hr1 & Hon1).
      apply elem_of_orders_of in Ho2 as (r2 & Hr2 & Hon2).
      apply list_elem_of_filter in Hr1 as [Hp1 Hr1].
      apply list_elem_of_filter in Hr2 as [Hp2 Hr2].
      apply Hne. rewrite <- Hp1, <- Hp2. apply Hone; try done.
      congruence.
Qed.

Lemma orders_assigned_add_up_witness :
  ∃ couriers,
    Analysis.couriers_stats
      (Analysis.recalculate_statistics
         [provider_row "1001" "DHL"; provider_row "1001" "DHL";
          provider_row "1002" "DPD"; provider_row "1003" "DHL"])
    = Some couriers
    ∧ sum_list (Analysis.orders_assigned <$> couriers) = 3%nat.
Proof.
  set (df := [provider_row "1001" "DHL"; provider_row "1001" "DHL";
              provider_row "1002" "DPD"; provider_row "1003" "DHL"]).
  destruct (Analysis.couriers_stats (Analysis.recalculate_statistics df))
    as [couriers|] eqn:Hcs; [|by vm_compute in Hcs].
  exists couriers. split; [done|].
  rewrite (proj2 (orders_assigned_add_up_to_orders_completed df couriers Hcs));
    [reflexivity|].
  intros r r' Hr Hr' _ Hon.
  apply list_elem_of_filter in Hr as [_ Hr].
  apply list_elem_of_filter in Hr' as [_ Hr'].
  unfold df in Hr, Hr'. rewrite !elem_of_cons in Hr, Hr'.
  destruct Hr as [->|[->|[->|[->|Hr]]]]; [| | | |by apply elem_of_nil in Hr];
    destruct Hr' as [->|[->|[->|[->|Hr']]]];
    try (by apply elem_of_nil in Hr'); try reflexivity; discriminate Hon.
Defined.

Section statistics_after_toggle.
Import Py Pd Analysis.

Variables (rows : list AnalysisRow) (o old new : string).
Variable g : AnalysisRow → AnalysisRow.
Hypothesis g_Order_Number : ∀ r, Order_Number (g r) = Order_Number r.
Hypothesis g_Quantity : ∀ r, Quantity (g r) = Quantity r.
Hypothesis g_Status :
  ∀ r, Order_Fulfillment_Status (g r)
       = if decide (Order_Number r = Some o) then Some new
         else Order_Fulfillment_Status r.
Hypothesis old_new : old ≠ new.
Hypothesis order_is_old : Forall (has_status old) (order_rows rows o).
Hypothesis order_has_rows : order_rows rows o ≠ [].

Lemma order_row_is_old r :
  r ∈ rows → Order_Number r = Some o → Order_Fulfillment_Status r = Some old.
Proof.
  intros Hr Hon. pose proof order_is_old as Hall.
  rewrite Forall_forall in Hall.
  apply Hall. unfold order_rows. by apply list_elem_of_filter.
Qed.

Lemma order_some_row : ∃ r, r ∈ rows ∧ Order_Number r = Some o.
Proof.
  pose proof order_has_rows as Hne.
  destruct (order_rows rows o) as [|r l] eqn:Hrows; [done|].
  assert (r ∈ order_rows rows o) as Hr by (rewrite Hrows; left).
  unfold order_rows in Hr. apply list_elem_of_filter in Hr as [Hon Hr].
  by exists r.
Qed.

Lemma orders_of_new :
  orders_of (filter (has_status new) (g <$> rows))
  = {[ o ]} ∪ orders_of (filter (has_status new) rows).
Proof.
  apply set_eq. intros k.
  rewrite elem_of_union, elem_of_singleton, !elem_of_orders_of. split.
  - intros (r' & Hr' & Hon). apply list_elem_of_filter in Hr' as [Hst Hr'].
    apply list_elem_of_fmap in Hr' as (r & -> & Hr).
    rewrite g_Order_Number in Hon. unfold has_status in Hst.
    rewrite g_Status in Hst.
    destruct (decide (Order_Number r = Some o)) as [Ho|Ho]; [left; congruence|].
    right. exists r. split; [|done]. by apply list_elem_of_filter.
  - intros [->|(r & Hr & Hon)].
    + destruct order_some_row as (r & Hr & Hon).
      exists (g r). split; [|by rewrite g_Order_Number].
      apply list_elem_of_filter. split; [|apply list_elem_of_fmap; by exists r].
      unfold has_status. rewrite g_Status. by rewrite decide_True.
    + apply list_elem_of_filter in Hr as [Hst Hr].
      exists (g r). split; [|by rewrite g_Order_Number].
      apply list_elem_of_filter. split; [|apply list_elem_of_fmap; by exists r].
      unfold has_status. rewrite g_Status. by case_decide.
Qed.

Lemma orders_of_old :
  orders_of (filter (has_status old) rows)
  = {[ o ]} ∪ orders_of (filter (has_status old) (g <$> rows)).
Proof.
  apply set_eq. intros k.
  rewrite elem_of_union, elem_of_singleton, !elem_of_orders_of. split.
  - intros (r & Hr & Hon). apply list_elem_of_filter in Hr as [Hst Hr].
    destruct (decide (k = o)) as [->|Hne]; [by left|]. right.
    exists (g r). split; [|by rewrite g_Order_Number].
    apply list_elem_of_filter. split; [|apply list_elem_of_fmap; by exists r].
    unfold has_status. rewrite g_Status. rewrite decide_False; [done|congruence].
  - intros [->|(r' & Hr' & Hon)].
    + destruct order_some_row as (r & Hr & Hon).
      exists r. split; [|done]. apply list_elem_of_filter. split; [|done].
      by apply order_row_is_old.
    + apply list_elem_of_filter in Hr' as [Hst Hr'].
      apply list_elem_of_fmap in Hr' as (r & -> & Hr).
      rewrite g_Order_Number in Hon. unfold has_status in Hst.
      rewrite g_Status in Hst.
      destruct (decide (Order_Number r = Some o)) as [Ho|Ho]; [congruence|].
      exists r. split; [|done]. by apply list_elem_of_filter.
Qed.

Lemma order_not_among_new : o ∉ orders_of (filter (has_status new) rows).
Proof.
  rewrite elem_of_orders_of. intros (r & Hr & Hon).
  apply list_elem_of_filter in Hr as [Hst Hr].
  pose proof (order_row_is_old r Hr Hon) as Hold.
  unfold has_status in Hst. congruence.
Qed.

Lemma order_not_among_old_after :
  o ∉ orders_of (filter (has_status old) (g <$> rows)).
Proof.
  rewrite elem_of_orders_of. intros (r' & Hr' & Hon).
  apply list_elem_of_filter in Hr' as [Hst Hr'].
  apply list_elem_of_fmap in Hr' as (r & -> & Hr).
  rewrite g_Order_Number in Hon. unfold has_status in Hst.
  rewrite g_Status, decide_True in Hst by done. congruence.
Qed.

Lemma quantity_after_status_change (l : list AnalysisRow) :
  (∀ r, r ∈ l → Order_Number r = Some o →
        Order_Fulfillment_Status r = Some old) →
  sum (Quantity <$> filter (has_status new) (g <$> l))
  = sum (Quantity <$> filter (has_status new) l)
    + sum (Quantity <$> order_rows l o)
  ∧ sum (Quantity <$> filter (has_status old) (g <$> l))
    = sum (Quantity <$> filter (has_status old) l)
      - sum (Quantity <$> order_rows l o).
Proof.
  induction l as [|r l IH]; intros Hold; [done|].
  destruct IH as [IH1 IH2]; [intros r0 Hr0; apply Hold; by right|].
  assert (r ∈ r :: l) as Hhere by left. specialize (Hold r Hhere).
  unfold order_rows in *. rewrite fmap_cons, !filter_cons.
  pose proof (g_Status r) as Hg.
  destruct (decide (Order_Number r = Some o)) as [Ho|Ho];
    [specialize (Hold Ho)|clear Hold];
    destruct (decide (has_status new (g r))) as [Hn'|Hn'];
    destruct (decide (has_status old (g r))) as [Ho'|Ho'];
    destruct (decide (has_status new r)) as [Hn|Hn];
    destruct (decide (has_status old r)) as [Hol|Hol];
    unfold has_status in *; rewrite ?fmap_cons, ?g_Quantity;
    first [congruence | unfold sum in *; simpl; lia].
Qed.

Lemma statistics_after_status_change :
  let q := sum (Quantity <$> order_rows rows o) in
  nunique (Order_Number <$> filter (has_status new) (g <$> rows))
  = S (nunique (Order_Number <$> filter (has_status new) rows))
  ∧ nunique (Order_Number <$> filter (has_status old) rows)
    = S (nunique (Order_Number <$> filter (has_status old) (g <$> rows)))
  ∧ sum (Quantity <$> filter (has_status new) (g <$> rows))
    = sum (Quantity <$> filter (has_status new) rows) + q
  ∧ sum (Quantity <$> filter (has_status old) (g <$> rows))
    = sum (Quantity <$> filter (has_status old) rows) - q.
Proof.
  intros q. rewrite !nunique_orders_of. split; [|split].
  - rewrite orders_of_new, size_union, size_singleton; [done|].
    apply disjoint_singleton_l, order_not_among_new.
  - rewrite orders_of_old, size_union, size_singleton; [done|].
    apply disjoint_singleton_l, order_not_among_old_after.
  - apply quantity_after_status_change. intros r. apply order_row_is_old.
Qed.

End statistics_after_toggle.

Section int64_totals.
Import Py Pd Analysis.

Lemma int64_exact z : - 2 ^ 63 ≤ z < 2 ^ 63 → int64 z = z.
Proof. intros Hz. unfold int64. rewrite Z.mod_small; lia. Qed.

Lemma int64_add_l a b : int64 (int64 a + b) = int64 (a + b).
Proof.
  unfold int64. f_equal.
  replace ((a + 2 ^ 63) mod 2 ^ 64 - 2 ^ 63 + b + 2 ^ 63)
    with ((a + 2 ^ 63) mod 2 ^ 64 + b) by lia.
  rewrite Zplus_mod_idemp_l. f_equal. lia.
Qed.

Lemma int64_sub_l a b : int64 (int64 a - b) = int64 (a - b).
Proof. apply (int64_add_l a (- b)). Qed.

Lemma sum_filter_bounds (P : AnalysisRow → Prop) `{∀ r, Decision (P r)}
      (l : list AnalysisRow) :
  Forall (λ r, 0 ≤ Quantity r) l →
  0 ≤ sum (Quantity <$> filter P l) ≤ sum (Quantity <$> l).
Proof.
  induction 1 as [|r l Hr _ IH]; [done|].
  rewrite filter_cons. case_decide; rewrite ?fmap_cons; unfold sum in *;
    simpl; lia.
Qed.

(** The total of a part of a row set whose quantities fit is the exact
    sum. *)
Lemma total_quantity_exact (P : AnalysisRow → Prop) `{∀ r, Decision (P r)}
      (l : list AnalysisRow) :
  quantities_fit l →
  total_quantity (filter P l) = sum (Quantity <$> filter P l).
Proof.
  intros [Hnonneg Hsum]. unfold total_quantity. apply int64_exact.
  pose proof (sum_filter_bounds P l Hnonneg). lia.
Qed.

End int64_totals.

(** What a successful toggle does to the statistics the windows show
    after it.  Un-fulfilling an order whose rows are all Fulfillable moves
    exactly one order, and the quantity of its rows, from the completed to
    the not completed totals; force-fulfilling an order whose rows are all
    Not Fulfillable moves them the other way.  The item totals are int64
    sums: they move by that quantity in int64 arithmetic, and by exactly
    that quantity when the quantities of the row set are not negative and
    add up to less than 2^63. *)
Theorem toggle_moves_one_order_in_statistics
        (rows rows' : list Analysis.AnalysisRow) (o : string)
        (err : option string) :
  Analysis.toggle_order_fulfillment (Some rows) o = (true, err, Some rows') →
  let before := Analysis.recalculate_statistics rows in
  let after := Analysis.recalculate_statistics rows' in
  let q := Pd.sum (Analysis.Quantity <$> Analysis.order_rows rows o) in
  (Forall (Analysis.has_status Analysis.Fulfillable)
          (Analysis.order_rows rows o) →
   Analysis.total_orders_completed before
   = S (Analysis.total_orders_completed after)
   ∧ Analysis.total_orders_not_completed after
     = S (Analysis.total_orders_not_completed before)
   ∧ Analysis.total_items_to_write_off after
     = Pd.int64 (Analysis.total_items_to_write_off before - q)
   ∧ Analysis.total_items_not_to_write_off after
     = Pd.int64 (Analysis.total_items_not_to_write_off before + q)
   ∧ (quantities_fit rows →
      Analysis.total_items_to_write_off after
      = Analysis.total_items_to_write_off before - q
      ∧ Analysis.total_items_not_to_write_off after
        = Analysis.total_items_not_to_write_off before + q))
  ∧ (Forall (Analysis.has_status Analysis.Not_Fulfillable)
            (Analysis.order_rows rows o) →
     Analysis.total_orders_completed after
     = S (Analysis.total_orders_completed before)
     ∧ Analysis.total_orders_not_completed before
       = S (Analysis.total_orders_not_completed after)
     ∧ Analysis.total_items_to_write_off after
       = Pd.int64 (Analysis.total_items_to_write_off before + q)
     ∧ Analysis.total_items_not_to_write_off after
       = Pd.int64 (Analysis.total_items_not_to_write_off before - q)
     ∧ (quantities_fit rows →
        Analysis.total_items_to_write_off after
        = Analysis.total_items_to_write_off before + q
        ∧ Analysis.total_items_not_to_write_off after
          = Analysis.total_items_not_to_write_off before - q)).
Proof.
  intros Htoggle before after q.
  destruct (head (Analysis.order_rows rows o)) as [first|] eqn:Hhd.
  2:{ unfold Analysis.toggle_order_fulfillment in Htoggle.
      by rewrite Hhd in Htoggle. }
  assert (Analysis.order_rows rows o ≠ []) as Hne
    by (by destruct (Analysis.order_rows rows o)).
  assert (first ∈ Analysis.order_rows rows o) as Hfirst.
  { destruct (Analysis.order_rows rows o); [done|]. injection Hhd as ->. left. }
  assert (current_status rows o
          = Some (Analysis.Order_Fulfillment_Status first)) as Hst
    by (unfold current_status; by rewrite Hhd).
  destruct (toggle_success_rows _ _ _ _ _ Hst Htoggle) as [_ Hrows].
  set (g := λ r : Analysis.AnalysisRow, _) in Hrows.
  assert (∀ r, Analysis.Quantity (g r) = Analysis.Quantity r) as HgQ.
  { intros r. unfold g. simpl. by case_decide. }
  assert (quantities_fit rows → quantities_fit (g <$> rows)) as Hfit'.
  { intros [Hnonneg Hsum]. split.
    - apply Forall_fmap. eapply Forall_impl; [exact Hnonneg|].
      intros r Hr. simpl. by rewrite HgQ.
    - rewrite <- list_fmap_compose.
      assert (Analysis.Quantity ∘ g <$> rows = Analysis.Quantity <$> rows)
        as ->; [|done].
      apply list_fmap_ext. intros i r _. simpl. apply HgQ. }
  unfold before, after. rewrite Hrows. split; intros Hall.
  - assert (Analysis.Order_Fulfillment_Status first
            = Some Analysis.Fulfillable) as Hf
      by (rewrite Forall_forall in Hall; by apply Hall).
    destruct (statistics_after_status_change rows o
                Analysis.Fulfillable Analysis.Not_Fulfillable g)
      as (H1 & H2 & H3 & H4); try done.
    + intros r. unfold g. simpl. by case_decide.
    + intros r. unfold g. simpl. rewrite Hf.
      rewrite bool_decide_eq_true_2 by done. by case_decide.
    + split; [exact H2|]. split; [exact H1|]. simpl.
      unfold Analysis.total_quantity. rewrite H3, H4.
      rewrite ?int64_add_l, ?int64_sub_l. split; [done|]. split; [done|].
      intros Hfit. fold q.
      rewrite !int64_exact; [done|..].
      all: pose proof (Hfit' Hfit) as [Hn' Hs'];
        destruct Hfit as [Hn Hs];
        pose proof (sum_filter_bounds (Analysis.has_status Analysis.Fulfillable)
                      rows Hn);
        pose proof (sum_filter_bounds (Analysis.has_status Analysis.Not_Fulfillable)
                      rows Hn);
        pose proof (sum_filter_bounds (Analysis.has_status Analysis.Fulfillable)
                      (g <$> rows) Hn');
        pose proof (sum_filter_bounds (Analysis.has_status Analysis.Not_Fulfillable)
                      (g <$> rows) Hn');
        fold q in H3, H4; lia.
  - assert (Analysis.Order_Fulfillment_Status first
            = Some Analysis.Not_Fulfillable) as Hf
      by (rewrite Forall_forall in Hall; by apply Hall).
    destruct (statistics_after_status_change rows o
                Analysis.Not_Fulfillable Analysis.Fulfillable g)
      as (H1 & H2 & H3 & H4); try done.
    + intros r. unfold g. simpl. by case_decide.
    + intros r. unfold g. simpl. rewrite Hf.
      rewrite bool_decide_eq_false_2 by done. by case_decide.
    + split; [exact H1|]. split; [exact H2|]. simpl.
      unfold Analysis.total_quantity. rewrite H3, H4.
      rewrite ?int64_add_l, ?int64_sub_l. split; [done|]. split; [done|].
      intros Hfit. fold q.
      rewrite !int64_exact; [done|..].
      all: pose proof (Hfit' Hfit) as [Hn' Hs'];
        destruct Hfit as [Hn Hs];
        pose proof (sum_filter_bounds (Analysis.has_status Analysis.Fulfillable)
                      rows Hn);
        pose proof (sum_filter_bounds (Analysis.has_status Analysis.Not_Fulfillable)
                      rows Hn);
        pose proof (sum_filter_bounds (Analysis.has_status Analysis.Fulfillable)
                      (g <$> rows) Hn');
        pose proof (sum_filter_bounds (Analysis.has_status Analysis.Not_Fulfillable)
                      (g <$> rows) Hn');
        fold q in H3, H4; lia.
Qed.

Lemma toggle_moves_one_order_witness :
  ∃ rows',
    Analysis.toggle_order_fulfillment (Some sample_analysis_df) "1001"
    = (true, None, Some rows')
    ∧ Analysis.total_orders_completed
        (Analysis.recalculate_statistics sample_analysis_df)
      = S (Analysis.total_orders_completed
             (Analysis.recalculate_statistics rows'))
    ∧ Analysis.total_items_not_to_write_off
        (Analysis.recalculate_statistics rows')
      = Analysis.total_items_not_to_write_off
          (Analysis.recalculate_statistics sample_analysis_df) + 3.
Proof.
  eexists. split; [reflexivity|].
  destruct (toggle_moves_one_order_in_statistics
              sample_analysis_df _ "1001" None eq_refl) as [H _].
  destruct H as (H1 & _ & _ & _ & H4).
  - vm_compute. repeat constructor.
  - split; [exact H1|]. apply H4. split.
    + repeat constructor; vm_compute; discriminate.
    + vm_compute. reflexivity.
Defined.

(** ** The summary tables *)

Section summary_facts.
Import Py Pd Analysis.

#[global] Instance key_le_trans : Transitive key_le.
Proof.
  intros a b c [Hab1 Hab2] [Hbc1 Hbc2]. split; [by etrans|].
  intros Hac.
  assert (a.1 = b.1) as Heq.
  { apply (anti_symm String.le); [done|]. by rewrite Hac. }
  etrans; [by apply Hab2|]. apply Hbc2. congruence.
Qed.

#[global] Instance key_le_total : base.Total key_le.
Proof.
  intros a b. unfold key_le.
  destruct (decide (a.1 = b.1)) as [Heq|Hne].
  - destruct (total String.le a.2 b.2); [left|right];
      (split; [by rewrite Heq|done]).
  - destruct (total String.le a.1 b.1); [left|right]; (split; [done|]); congruence.
Qed.

(** The group keys of a row set: its (SKU, product name) pairs. *)
Lemma elem_of_summary_keys (df : list AnalysisRow) (key : string * string) :
  key ∈ merge_sort key_le
          (unique (omap (λ r, (λ name, (SKU r, name)) <$> Product_Name r) df))
  ↔ ∃ r, r ∈ df ∧ SKU r = key.1 ∧ Product_Name r = Some key.2.
Proof.
  rewrite merge_sort_Permutation, elem_of_unique, list_elem_of_omap. split.
  - intros (r & Hr & Hkey). exists r. split; [done|].
    destruct (Product_Name r) as [name|]; [|done].
    simpl in Hkey. injection Hkey as <-. done.
  - intros (r & Hr & Hsku & Hname). exists r. split; [done|].
    rewrite Hname. simpl. rewrite Hsku. by destruct key.
Qed.

Lemma NoDup_summary_keys (df : list AnalysisRow) :
  NoDup (merge_sort key_le
           (unique (omap (λ r, (λ name, (SKU r, name)) <$> Product_Name r) df))).
Proof. rewrite merge_sort_Permutation. apply NoDup_unique. Qed.


(** Summing the groups of a list gives the sum over the rows that belong
    to a group. *)
Lemma sum_of_groups {K} `{EqDecision K} (key : AnalysisRow → option K)
      (keys : list K) (l : list AnalysisRow) :
  NoDup keys →
  sum ((λ k, sum (Quantity <$> filter (λ r, key r = Some k) l)) <$> keys)
  = sum (Quantity <$> filter (λ r, key r ∈ Some <$> keys) l).
Proof.
  intros Hnd. induction l as [|r l IH].
  - simpl. clear Hnd. induction keys as [|k keys IHk]; [done|].
    rewrite fmap_cons. unfold sum in *. simpl. by rewrite IHk.
  - rewrite filter_cons.
    assert (sum ((λ k, sum (Quantity <$> filter (λ r0, key r0 = Some k) (r :: l)))
                   <$> keys)
            = (if decide (key r ∈ Some <$> keys) then Quantity r else 0)
              + sum ((λ k, sum (Quantity <$> filter (λ r0, key r0 = Some k) l))
                       <$> keys)) as ->.
    { clear IH. induction keys as [|k keys IHk].
      - rewrite decide_False; [done|]. apply not_elem_of_nil.
      - apply NoDup_cons in Hnd as [Hk Hnd]. rewrite !fmap_cons.
        specialize (IHk Hnd). unfold sum in *. simpl.
        rewrite IHk. rewrite filter_cons.
        destruct (decide (key r = Some k)) as [Hkey|Hkey].
        + rewrite (decide_True (P := key r ∈ Some k :: (Some <$> keys)))
            by (rewrite Hkey; left).
          rewrite decide_False.
          2:{ rewrite Hkey. intros Hin.
              apply list_elem_of_fmap in Hin as (k' & [= <-] & Hk'). done. }
          rewrite fmap_cons. simpl. lia.
        + destruct (decide (key r ∈ Some <$> keys)) as [Hin|Hno].
          * rewrite decide_True by (by right). lia.
          * rewrite decide_False; [lia|]. intros Hin.
            apply elem_of_cons in Hin as [Heq|Hin]; done. }
    rewrite IH. case_decide; rewrite ?fmap_cons; unfold sum; simpl; lia.
Qed.

Lemma sum_summarize (df : list AnalysisRow) :
  sum (Total_Quantity <$> summarize df)
  = sum (Quantity <$> filter (λ r, is_Some (Product_Name r)) df).
Proof.
  unfold summarize. rewrite <- list_fmap_compose.
  set (keys := merge_sort _ _).
  transitivity
    (sum ((λ k, sum (Quantity <$>
                       filter (λ r, (λ name, (SKU r, name)) <$> Product_Name r
                                    = Some k) df)) <$> keys)).
  - f_equal. apply list_fmap_ext. intros _ [sku name] _. simpl. do 2 f_equal.
    apply list_filter_iff. intros r. split.
    + intros [<- ->]. done.
    + destruct (Product_Name r); simpl; [|done]. by intros [= <- <-].
  - rewrite sum_of_groups by apply NoDup_summary_keys. do 2 f_equal.
    apply filter_ext_in. intros r Hr. split.
    + intros Hin. apply list_elem_of_fmap in Hin as (k & Hk & _).
      destruct (Product_Name r); [by eexists|done].
    + intros [name Hname]. apply list_elem_of_fmap.
      exists (SKU r, name). rewrite Hname. split; [done|].
      apply elem_of_summary_keys. by exists r.
Qed.

End summary_facts.

Section summary_tables.
Import Py Pd Analysis.



End summary_tables.


(** For a row set whose quantities are not negative and add up to less
    than 2^63, so that no int64 sum wraps around: the quantities of the
    summary of the items to ship add up to the quantity of the Fulfillable
    rows that have a product name; when every Fulfillable row has one,
    that is the [total_items_to_write_off] of the statistics. *)
Theorem summary_present_adds_up_to_items_to_write_off
        (final_df : list Analysis.AnalysisRow) :
  quantities_fit final_df →
  Pd.sum (Analysis.Total_Quantity <$> Analysis.summary_present_df final_df)
  = Pd.sum (Analysis.Quantity <$>
              filter (λ r, Analysis.has_status Analysis.Fulfillable r
                           ∧ is_Some (Analysis.Product_Name r)) final_df)
  ∧ (Forall (λ r, Analysis.has_status Analysis.Fulfillable r →
                  is_Some (Analysis.Product_Name r)) final_df →
     Pd.sum (Analysis.Total_Quantity <$> Analysis.summary_present_df final_df)
     = Analysis.total_items_to_write_off
         (Analysis.recalculate_statistics final_df)).
Proof.
  intros Hfit.
  unfold Analysis.summary_present_df. rewrite sum_summarize, list_filter_filter.
  assert (∀ P Q : Analysis.AnalysisRow → Prop,
            ∀ `{∀ x, Decision (P x)} `{∀ x, Decision (Q x)} l,
            (∀ x, x ∈ l → P x ↔ Q x) →
            Pd.sum (Analysis.Quantity <$> filter P l)
            = Pd.sum (Analysis.Quantity <$> filter Q l)) as Hext.
  { intros P Q ?? l Hiff. do 2 f_equal. by apply filter_ext_in. }
  split.
  - apply Hext. intros x _. tauto.
  - intros Hall. simpl.
    rewrite (total_quantity_exact _ _ Hfit).
    apply Hext. intros x Hx.
    rewrite Forall_forall in Hall. specialize (Hall x Hx). tauto.
Qed.

Lemma summary_present_adds_up_witness :
  Pd.sum (Analysis.Total_Quantity
            <$> Analysis.summary_present_df
                  [named_row "1001" "SKU-A" "Apple" 2 Analysis.Fulfillable;
                   named_row "1002" "SKU-A" "Apple" 3 Analysis.Fulfillable;
                   named_row "1003" "SKU-B" "Bread" 1 Analysis.Not_Fulfillable])
  = 5.
Proof.
  assert (quantities_fit
            [named_row "1001" "SKU-A" "Apple" 2 Analysis.Fulfillable;
             named_row "1002" "SKU-A" "Apple" 3 Analysis.Fulfillable;
             named_row "1003" "SKU-B" "Bread" 1 Analysis.Not_Fulfillable])
    as Hfit.
  { split; [repeat constructor; vm_compute; discriminate|].
    vm_compute. reflexivity. }
  rewrite (proj2 (summary_present_adds_up_to_items_to_write_off _ Hfit));
    [reflexivity|].
  repeat constructor; by eexists.
Defined.


(** ** The rows of a run *)

(** Every row of a run carries an order number, and its [Order_Type] is
    "Multi" exactly when the run has more than one row of that order,
    "Single" otherwise.  The lines are counted, not the SKUs: an order with
    two lines of one SKU is "Multi". *)
Theorem order_type_counts_the_rows_of_the_order
        (stock_df : list Analysis.StockLine)
        (orders_df : list Analysis.OrderLine) (history_df : list string)
        (final_df : list Analysis.AnalysisRow) (stats : Analysis.Stats)
        (r : Analysis.AnalysisRow) :
  Analysis.run_analysis stock_df orders_df history_df = Py.Ok (final_df, stats) →
  r ∈ final_df →
  ∃ o, Analysis.Order_Number r = Some o
       ∧ Analysis.Order_Type r
         = Some (if (1 <? length (Analysis.order_rows final_df o))%nat
                 then "Multi" else "Single").
Proof.
  intros Hrun Hr.
  apply run_analysis_Ok in Hrun as (ls & fr & _ & -> & _).
  set (clean := Analysis.orders_clean orders_df) in *.
  apply list_elem_of_fmap in Hr as (it & -> & Hit).
  exists (Analysis.li_Order_Number it). split; [done|]. simpl.
  rewrite length_order_rows_final_row.
  rewrite (orders_with_counts_item_count clean it Hit).
  unfold Analysis.orders_with_counts at 1.
  rewrite length_order_items_of; [done|].
  apply Forall_forall. intros l. apply orders_clean_has_sku.
Qed.

Lemma order_type_witness :
  ∃ final_df stats,
    Analysis.run_analysis example_stock example_orders [] = Py.Ok (final_df, stats)
    ∧ Analysis.Order_Type <$> final_df
      = [Some "Single"; Some "Multi"; Some "Multi"]
    ∧ ∀ r, r ∈ final_df → is_Some (Analysis.Order_Number r).
Proof.
  eexists _, _. split; [reflexivity|]. split; [reflexivity|].
  intros r Hr.
  destruct (order_type_counts_the_rows_of_the_order
              example_stock example_orders [] _ _ r eq_refl Hr) as (o & Ho & _).
  by exists o.
Defined.

Section exact_numbers_facts.
Import Py Pd Analysis.

Lemma ffill_orders_quantity name method country total l :
  Lineitem_quantity <$> ffill_orders name method country total l
  = Lineitem_quantity <$> l.
Proof.
  revert name method country total.
  induction l as [|o l IH]; intros name method country total; [done|].
  simpl. by rewrite IH.
Qed.

Lemma sum_filter_le {A} (q : A → Z) (P : A → Prop) `{∀ x, Decision (P x)}
      (l : list A) :
  Forall (λ x, 0 ≤ q x) l →
  Forall (λ x, 0 ≤ q x) (filter P l)
  ∧ 0 ≤ sum (q <$> filter P l) ≤ sum (q <$> l).
Proof.
  induction 1 as [|x l Hx _ [IH1 IH2]]; [by split|].
  rewrite filter_cons. case_decide; rewrite ?fmap_cons; unfold sum in *;
    simpl; (split; [try constructor; done|lia]).
Qed.

Lemma sum_omap_le {A B} (f : A → option B) (qa : A → Z) (qb : B → Z)
      (l : list A) :
  (∀ a b, f a = Some b → qb b = qa a) →
  Forall (λ a, 0 ≤ qa a) l →
  Forall (λ b, 0 ≤ qb b) (omap f l)
  ∧ 0 ≤ sum (qb <$> omap f l) ≤ sum (qa <$> l).
Proof.
  intros Hf. induction 1 as [|a l Ha _ [IH1 IH2]]; [by split|].
  change (omap f (a :: l))
    with (match f a with Some y => y :: omap f l | None => omap f l end).
  destruct (f a) as [b|] eqn:Hb; rewrite ?fmap_cons; unfold sum in *; simpl.
  - rewrite (Hf a b Hb). split; [constructor; [by rewrite (Hf a b Hb)|done]|lia].
  - split; [done|lia].
Qed.

(** The quantities of the line items of a batch with exact numbers. *)
Lemma items_quantities stock_df orders_df :
  exact_numbers stock_df orders_df →
  let items := orders_with_counts (orders_clean orders_df) in
  Forall (λ it, 0 ≤ li_Quantity it) items
  ∧ 0 ≤ sum (li_Quantity <$> items) ≤ 2 ^ 53.
Proof.
  intros (_ & Hnonneg & Hsum) items.
  set (filled := ffill_orders None None None None orders_df).
  assert (Forall (λ o, 0 ≤ Lineitem_quantity o) filled
          ∧ sum (Lineitem_quantity <$> filled) ≤ 2 ^ 53) as [Hf1 Hf2].
  { unfold filled. split; [|by rewrite ffill_orders_quantity].
    apply (Forall_fmap Lineitem_quantity (λ q, 0 ≤ q)).
    rewrite ffill_orders_quantity.
    by apply (Forall_fmap Lineitem_quantity (λ q, 0 ≤ q)). }
  destruct (sum_filter_le Lineitem_quantity
              (λ o, is_Some (Lineitem_sku o)) filled Hf1) as [Hc1 Hc2].
  set (clean := filter (λ o, is_Some (Lineitem_sku o)) filled) in *.
  change (orders_clean orders_df) with clean in items.
  unfold items, orders_with_counts.
  match goal with |- context [omap ?g _] => set (f := g) end.
  destruct (sum_omap_le f Lineitem_quantity li_Quantity clean)
    as [Hi1 Hi2]; [|done|].
  { intros l it. unfold f.
    destruct (Name l), (Lineitem_sku l); intros [= <-]; done. }
  split; [done|lia].
Qed.

Lemma stock_clean_bounds stock_df orders_df sku v :
  exact_numbers stock_df orders_df →
  initial_live_stock (stock_clean stock_df) !! sku = Some v →
  0 ≤ v ≤ 2 ^ 53.
Proof.
  intros (Hall & _) (r & Hr & _ & <-)%initial_live_stock_lookup.
  unfold stock_clean in Hr. apply elem_of_drop_duplicate_SKU in Hr.
  apply list_elem_of_omap in Hr as (s & Hs & Hsome).
  rewrite Forall_forall in Hall. specialize (Hall s Hs).
  destruct (Artikul s); [|done]. by injection Hsome as <-.
Qed.

(** The rows of a run on a batch with exact numbers: quantities that are
    not negative and add up to 2^53 at most. *)
Lemma run_quantities stock_df orders_df history_df final_df stats :
  exact_numbers stock_df orders_df →
  run_analysis stock_df orders_df history_df = Ok (final_df, stats) →
  Forall (λ r, 0 ≤ Quantity r) final_df
  ∧ sum (Quantity <$> final_df) ≤ 2 ^ 53.
Proof.
  intros Hexact Hrun.
  apply run_analysis_Ok in Hrun as (ls & fr & _ & -> & _).
  destruct (items_quantities _ _ Hexact) as [Hnonneg Hsum].
  split.
  - apply Forall_fmap. eapply Forall_impl; [exact Hnonneg|]. by intros it.
  - rewrite <- list_fmap_compose.
    assert (Quantity ∘ final_row (stock_clean stock_df) ls fr history_df
              <$> orders_with_counts (orders_clean orders_df)
            = li_Quantity <$> orders_with_counts (orders_clean orders_df))
      as ->; [by apply list_fmap_ext|lia].
Qed.

Lemma fulfilled_quantity_bounds final_df sku :
  Forall (λ r, 0 ≤ Quantity r) final_df →
  0 ≤ fulfilled_quantity final_df sku ≤ sum (Quantity <$> final_df).
Proof.
  intros Hnonneg. unfold fulfilled_quantity.
  by destruct (sum_filter_le Quantity
                 (λ r, SKU r = sku ∧ has_status Fulfillable r) final_df Hnonneg).
Qed.

End exact_numbers_facts.

(** The stock a run reports, for a batch whose numbers the code holds
    exactly (stocks between 0 and 2^53, quantities that are not negative
    and add up to 2^53 at most).  For a SKU of the stock table every row
    shows the table's stock as [Stock], and as [Final_Stock] that stock
    less the quantity of the Fulfillable rows of the SKU, the same on all
    rows of the SKU; both numbers are within 2^53 of 0, where a float64
    column holds them as they are.  For a SKU that is not in the stock
    table the rows show a [Stock] of 0 and a missing [Final_Stock]. *)
Theorem run_reports_stock_less_fulfilled_quantity
        (stock_df : list Analysis.StockLine)
        (orders_df : list Analysis.OrderLine) (history_df : list string)
        (final_df : list Analysis.AnalysisRow) (stats : Analysis.Stats)
        (r : Analysis.AnalysisRow) :
  exact_numbers stock_df orders_df →
  Analysis.run_analysis stock_df orders_df history_df = Py.Ok (final_df, stats) →
  r ∈ final_df →
  match Analysis.initial_live_stock (Analysis.stock_clean stock_df)
          !! Analysis.SKU r with
  | Some v =>
      Analysis.Stock r = Some v
      ∧ Analysis.Final_Stock r
        = Some (v - fulfilled_quantity final_df (Analysis.SKU r))
      ∧ 0 ≤ v ≤ 2 ^ 53
      ∧ - 2 ^ 53 ≤ v - fulfilled_quantity final_df (Analysis.SKU r) ≤ 2 ^ 53
  | None => Analysis.Stock r = Some 0 ∧ Analysis.Final_Stock r = None
  end.
Proof.
  intros Hexact Hrun Hr.
  pose proof (final_stock_of_rows _ _ _ _ _ r Hrun Hr) as Hstock.
  destruct (Analysis.initial_live_stock (Analysis.stock_clean stock_df)
              !! Analysis.SKU r) as [v|] eqn:Hv; [|exact Hstock].
  destruct Hstock as [Hs Hf]. split; [exact Hs|]. split; [exact Hf|].
  pose proof (stock_clean_bounds _ _ _ _ Hexact Hv) as Hvb.
  destruct (run_quantities _ _ _ _ _ Hexact Hrun) as [Hnonneg Hsum].
  pose proof (fulfilled_quantity_bounds final_df (Analysis.SKU r) Hnonneg).
  split; lia.
Qed.

Lemma run_reports_stock_witness :
  ∃ final_df stats,
    Analysis.run_analysis example_stock example_orders [] = Py.Ok (final_df, stats)
    ∧ ∀ r, r ∈ final_df → Analysis.SKU r = "A" →
           Analysis.Final_Stock r = Some (2 - fulfilled_quantity final_df "A").
Proof.
  assert (exact_numbers example_stock example_orders) as Hexact.
  { repeat split; repeat constructor; vm_compute; discriminate. }
  eexists _, _. split; [reflexivity|]. intros r Hr Hsku.
  pose proof (run_reports_stock_less_fulfilled_quantity
                example_stock example_orders [] _ _ r Hexact eq_refl Hr) as H.
  rewrite Hsku in H. exact (proj1 (proj2 H)).
Defined.

(** ** core.py: validation of the input files *)

Section validation_facts.
Import Py Pd Analysis Core.

Lemma missing_column_errors_filter file required columns :
  missing_column_errors file required columns
  = (λ col, "Missing required column in " +:+ file +:+ " file: '" +:+ col +:+ "'")
      <$> filter (λ col, col ∉ columns) required.
Proof.
  unfold missing_column_errors.
  set (msg := λ col : string, _ +:+ _).
  cut (∀ acc, foldl (λ errors col,
                       if decide (col ∈ columns) then errors
                       else errors ++ [msg col]) acc required
              = acc ++ (msg <$> filter (λ col, col ∉ columns) required)).
  { intros H. apply (H []). }
  induction required as [|col required IH]; intros acc; simpl.
  - by rewrite app_nil_r.
  - rewrite IH, filter_cons. destruct (decide (col ∈ columns)) as [Hin|Hnin].
    + by rewrite decide_False by tauto.
    + rewrite decide_True by done. by rewrite fmap_cons, <- app_assoc.
Qed.

Lemma _validate_dataframes_unfold orders_columns stock_columns config :
  _validate_dataframes orders_columns stock_columns config
  = missing_column_errors "Orders" (required_orders_cols config) orders_columns
    ++ missing_column_errors "Stock" (required_stock_cols config) stock_columns.
Proof.
  unfold _validate_dataframes, required_orders_cols, required_stock_cols.
  by destruct (column_mappings config).
Qed.

Lemma filter_absent_nil (required columns : list string) :
  filter (λ col, col ∉ columns) required = [] ↔ required ⊆ columns.
Proof.
  split.
  - intros Hnil col Hcol. destruct (decide (col ∈ columns)) as [|Hnin]; [done|].
    assert (col ∈ filter (λ col, col ∉ columns) required) as Hin
      by (by apply list_elem_of_filter).
    rewrite Hnil in Hin. by apply elem_of_nil in Hin.
  - intros Hsub. apply filter_none. apply Forall_forall.
    intros col Hcol Hnin. by apply Hnin, Hsub.
Qed.

Lemma validate_dataframes_nil orders_columns stock_columns config :
  _validate_dataframes orders_columns stock_columns config = []
  ↔ required_orders_cols config ⊆ orders_columns
    ∧ required_stock_cols config ⊆ stock_columns.
Proof.
  rewrite _validate_dataframes_unfold, !missing_column_errors_filter.
  rewrite <- !filter_absent_nil. split.
  - intros Hnil. apply app_eq_nil in Hnil as [H1 H2].
    apply fmap_nil_inv in H1. apply fmap_nil_inv in H2. done.
  - intros [-> ->]. done.
Qed.

End validation_facts.

(** The validation reports one error for each required column that a file
    lacks and none for a column that is there: first the errors of the
    orders file, in the order in which its columns are required, then
    those of the stock file, in the order in which its columns are
    required.  It passes exactly when the orders file has every required
    orders column and the stock file every required stock column.  A
    configuration without the lists requires nothing. *)
Theorem validation_reports_each_missing_column
        (orders_columns stock_columns : list string) (config : Core.Config) :
  let errors := Core._validate_dataframes orders_columns stock_columns config in
  errors
  = ((λ col, "Missing required column in Orders file: '" +:+ col +:+ "'")
       <$> filter (λ col, col ∉ orders_columns) (required_orders_cols config))
    ++ ((λ col, "Missing required column in Stock file: '" +:+ col +:+ "'")
          <$> filter (λ col, col ∉ stock_columns) (required_stock_cols config))
  ∧ (errors = [] ↔ required_orders_cols config ⊆ orders_columns
                   ∧ required_stock_cols config ⊆ stock_columns)
  ∧ length errors
    = (length (filter (λ col, col ∉ orders_columns) (required_orders_cols config))
       + length (filter (λ col, col ∉ stock_columns) (required_stock_cols config)))%nat
  ∧ (∀ col, col ∈ required_orders_cols config → col ∉ orders_columns →
            "Missing required column in Orders file: '" +:+ col +:+ "'" ∈ errors)
  ∧ (∀ col, col ∈ required_stock_cols config → col ∉ stock_columns →
            "Missing required column in Stock file: '" +:+ col +:+ "'" ∈ errors).
Proof.
  intros errors. unfold errors.
  split; [by rewrite _validate_dataframes_unfold, !missing_column_errors_filter|].
  split; [apply validate_dataframes_nil|].
  rewrite _validate_dataframes_unfold, !missing_column_errors_filter.
  split; [|split].
  - by rewrite length_app, !length_fmap.
  - intros col Hreq Hnin. apply elem_of_app. left.
    apply list_elem_of_fmap. exists col. split; [done|].
    by apply list_elem_of_filter.
  - intros col Hreq Hnin. apply elem_of_app. right.
    apply list_elem_of_fmap. exists col. split; [done|].
    by apply list_elem_of_filter.
Qed.

Lemma validation_reports_witness :
  "Missing required column in Stock file: 'Наличност'"
  ∈ Core._validate_dataframes
      ["Name"; "Lineitem sku"; "Lineitem quantity"; "Shipping Method"]
      ["Артикул"; "Име"] test_config.
Proof.
  refine (proj2 (proj2 (proj2 (proj2 (validation_reports_each_missing_column
           ["Name"; "Lineitem sku"; "Lineitem quantity"; "Shipping Method"]
           ["Артикул"; "Име"] test_config)))) "Наличност" _ _);
    apply (bool_decide_unpack _); vm_compute; exact I.
Defined.

(** The quick check of a file's header row succeeds when nothing is
    required, whatever the file, and otherwise exactly when the file could
    be read and its header has every required column.  On success the
    second component is empty; on failure it is not: it holds the required
    columns the header lacks, in the order they are required, or, when
    something is required and the file could not be read, one message:
    that no file is at the path, that the file could not be parsed, or
    that an unexpected error occurred, the last two with the text of the
    exception. *)
Theorem header_check_lists_the_missing_columns
        (read_csv : Core.read_csv_outcome) (file_path : string)
        (required_columns : list string) :
  let res := Core.validate_csv_headers read_csv file_path required_columns in
  (res.1 = true
   ↔ required_columns = []
     ∨ ∃ headers, read_csv = Core.Headers headers ∧ required_columns ⊆ headers)
  ∧ (res.1 = true → res.2 = [])
  ∧ (res.1 = false → res.2 ≠ [])
  ∧ (∀ headers, read_csv = Core.Headers headers →
                res.2 = filter (λ col, col ∉ headers) required_columns)
  ∧ (required_columns ≠ [] →
     match read_csv with
     | Core.Headers _ => True
     | Core.FileNotFoundError =>
         res = (false, ["File not found at path: " +:+ file_path])
     | Core.ParserError e =>
         res = (false, ["Could not parse file. It might be corrupt or not a "
                        +:+ "valid CSV. Error: " +:+ e])
     | Core.OtherException e =>
         res = (false, ["An unexpected error occurred: " +:+ e])
     end).
Proof.
  intros res. unfold res, Core.validate_csv_headers.
  destruct required_columns as [|col required]; simpl.
  { split; [split; [by left|done]|]. repeat split; done. }
  destruct read_csv as [headers| |e|e]; simpl.
  2-4: (split; [split; [done|]|];
        [intros [?|(h & ? & _)]; done | repeat split; done]).
  set (req := col :: required).
  pose proof (filter_absent_nil req headers) as Hnil.
  change (filter (λ col0, col0 ∉ headers) (col :: required))
    with (filter (λ col0, col0 ∉ headers) req).
  destruct (filter (λ col0, col0 ∉ headers) req) as [|m missing] eqn:Hmissing;
    simpl.
  - split; [split; [intros _; right; exists headers; split; [done|by apply Hnil]
                   |done]|].
    repeat split; try done. intros ? [= <-]. done.
  - split.
    + split; [done|]. intros [?|(h & [= <-] & Hsub)]; [done|].
      apply Hnil in Hsub. done.
    + repeat split; try done. intros ? [= <-]. done.
Qed.

Lemma header_check_witness :
  (Core.validate_csv_headers (Core.Headers ["Name"; "Total"]) "orders.csv"
     ["Name"; "Lineitem sku"]).2 = ["Lineitem sku"]
  ∧ Core.validate_csv_headers Core.FileNotFoundError "orders.csv" ["Name"]
    = (false, ["File not found at path: orders.csv"]).
Proof.
  split.
  - rewrite (proj1 (proj2 (proj2 (proj2 (header_check_lists_the_missing_columns
               (Core.Headers ["Name"; "Total"]) "orders.csv"
               ["Name"; "Lineitem sku"])))) ["Name"; "Total"] eq_refl).
    reflexivity.
  - apply (proj2 (proj2 (proj2 (proj2 (header_check_lists_the_missing_columns
             Core.FileNotFoundError "orders.csv" ["Name"]))))).
    discriminate.
Defined.

(** The quick check of the headers and the validation of the loaded
    files agree: the validation finds no error exactly when the quick check
    passes for both files. *)
Theorem header_check_agrees_with_validation
        (orders_headers stock_headers : list string)
        (orders_path stock_path : string) (config : Core.Config) :
  Core._validate_dataframes orders_headers stock_headers config = []
  ↔ (Core.validate_csv_headers (Core.Headers orders_headers) orders_path
       (required_orders_cols config)).1 = true
    ∧ (Core.validate_csv_headers (Core.Headers stock_headers) stock_path
         (required_stock_cols config)).1 = true.
Proof.
  rewrite validate_dataframes_nil.
  assert (∀ headers path required,
            (Core.validate_csv_headers (Core.Headers headers) path required).1
            = true ↔ required ⊆ headers) as Hcheck.
  { intros headers path required.
    unfold Core.validate_csv_headers.
    destruct required as [|col required]; [split; [intros _ ? H|done]|].
    { by apply elem_of_nil in H. }
    set (req := col :: required).
    pose proof (filter_absent_nil req headers) as Hnil.
    destruct (filter (λ col0, col0 ∉ headers) req) as [|m missing]; simpl.
    - split; [intros _; by apply Hnil|done].
    - split; [done|]. intros Hsub. by apply Hnil in Hsub. }
  by rewrite !Hcheck.
Qed.

Lemma header_check_agrees_witness :
  Core._validate_dataframes
    ["Name"; "Lineitem sku"; "Lineitem quantity"; "Shipping Method"]
    ["Артикул"; "Име"; "Наличност"] test_config = [].
Proof.
  apply (header_check_agrees_with_validation _ _ "orders.csv" "stock.csv").
  split; reflexivity.
Defined.

(** ** core.py: the stock alerts *)

(** The stock alerts of a run, for a batch whose numbers the code holds
    exactly (stocks between 0 and 2^53, quantities that are not negative
    and add up to 2^53 at most) and a threshold within 2^53 of 0.  With a
    threshold configured, the alert step keeps every row and writes only
    [Stock_Alert]: "Low Stock" on the rows of a SKU of the stock table
    whose stock, less the quantity of the Fulfillable rows of that SKU, is
    below the threshold, and the empty string on every other row.  The
    rows of a SKU that is not in the stock table are never flagged,
    although they show a [Stock] of 0. *)
Theorem low_stock_alert_is_for_stocked_skus_below_threshold
        (stock_df : list Analysis.StockLine)
        (orders_df : list Analysis.OrderLine) (history_df : list string)
        (final_df : list Analysis.AnalysisRow) (stats : Analysis.Stats)
        (config : Core.Config) (threshold : Z) :
  exact_numbers stock_df orders_df →
  - 2 ^ 53 ≤ threshold ≤ 2 ^ 53 →
  Analysis.run_analysis stock_df orders_df history_df = Py.Ok (final_df, stats) →
  Core.low_stock_threshold config = Some threshold →
  let alerted := Core.low_stock_alerts config final_df in
  let stock := Analysis.initial_live_stock (Analysis.stock_clean stock_df) in
  length alerted = length final_df
  ∧ ∀ i r r', final_df !! i = Some r → alerted !! i = Some r' →
      r' = Core.set_Stock_Alert (Analysis.Stock_Alert r') r
      ∧ (Analysis.Stock_Alert r' = Some "Low Stock"
         ∨ Analysis.Stock_Alert r' = Some "")
      ∧ (Analysis.Stock_Alert r' = Some "Low Stock"
         ↔ ∃ v, stock !! Analysis.SKU r = Some v
                ∧ v - fulfilled_quantity final_df (Analysis.SKU r) < threshold)
      ∧ (∀ v, Analysis.Final_Stock r = Some v → - 2 ^ 53 ≤ v ≤ 2 ^ 53).
Proof.
  intros Hexact _ Hrun Hth alerted stock. unfold alerted, Core.low_stock_alerts.
  rewrite Hth. split; [by rewrite length_fmap|].
  intros i r r' Hr Hr'. rewrite list_lookup_fmap, Hr in Hr'.
  injection Hr' as <-. split; [done|]. simpl.
  assert (r ∈ final_df) as Hin by (by eapply list_elem_of_lookup_2).
  pose proof (final_stock_of_rows _ _ _ _ _ r Hrun Hin) as Hstock.
  fold stock in Hstock. unfold Core.below_threshold.
  destruct (stock !! Analysis.SKU r) as [v|] eqn:Hv.
  - destruct Hstock as [_ Hfinal]. rewrite Hfinal.
    assert (- 2 ^ 53 ≤ v - fulfilled_quantity final_df (Analysis.SKU r)
            ≤ 2 ^ 53) as Hbound.
    { pose proof (stock_clean_bounds _ _ _ _ Hexact Hv) as Hvb.
      destruct (run_quantities _ _ _ _ _ Hexact Hrun) as [Hnonneg Hsum].
      pose proof (fulfilled_quantity_bounds final_df (Analysis.SKU r) Hnonneg).
      lia. }
    destruct (Z.ltb_spec (v - fulfilled_quantity final_df (Analysis.SKU r))
                         threshold) as [Hlt|Hge].
    + split; [by left|]. split; [split; [intros _; by exists v|done]|].
      by intros v' [= <-].
    + split; [by right|]. split.
      * split; [done|]. intros (v' & [= <-] & Hlt). lia.
      * by intros v' [= <-].
  - destruct Hstock as [_ ->]. split; [by right|].
    split; [split; [done|]; intros (v' & [=] & _)|]. by intros v' [=].
Qed.

Lemma low_stock_alert_witness :
  ∃ final_df stats,
    Analysis.run_analysis exhaustive_stock exhaustive_orders []
    = Py.Ok (final_df, stats)
    ∧ (λ r, (Analysis.SKU r, Analysis.Stock r, Analysis.Stock_Alert r))
        <$> Core.low_stock_alerts test_config final_df
      = [("A", Some 2, Some "Low Stock"); ("B", Some 0, Some "");
         ("A", Some 2, Some "Low Stock")]
    ∧ length (Core.low_stock_alerts test_config final_df) = length final_df.
Proof.
  eexists _, _. split; [reflexivity|]. split; [reflexivity|].
  refine (proj1 (low_stock_alert_is_for_stocked_skus_below_threshold
                   exhaustive_stock exhaustive_orders [] _ _ test_config 2
                   _ _ _ _)); [|lia|reflexivity..].
  repeat split; repeat constructor; vm_compute; discriminate.
Defined.

(** ** core.py: the fulfillment history *)

Section history_facts.
Import Py Pd Analysis Core.

Lemma elem_of_drop_duplicates_keep_last l row :
  row ∈ drop_duplicates_keep_last l → row ∈ l.
Proof.
  induction l as [|x l IH]; simpl; [done|].
  case_decide; [intros ?; right; by apply IH|].
  intros [->|?]%elem_of_cons; [left|right; by apply IH].
Qed.

Lemma drop_duplicates_keep_last_keys l o :
  o ∈ history_Order_Number <$> drop_duplicates_keep_last l
  ↔ o ∈ history_Order_Number <$> l.
Proof.
  induction l as [|x l IH]; simpl; [done|].
  case_decide as Hin.
  - rewrite IH, ?fmap_cons, elem_of_cons. split; [by right|].
    intros [->|?]; done.
  - by rewrite ?fmap_cons, !elem_of_cons, IH.
Qed.

Lemma NoDup_drop_duplicates_keep_last l :
  NoDup (history_Order_Number <$> drop_duplicates_keep_last l).
Proof.
  induction l as [|x l IH]; simpl; [constructor|].
  case_decide as Hin; [done|]. rewrite ?fmap_cons. apply NoDup_cons.
  split; [|done]. by rewrite drop_duplicates_keep_last_keys.
Qed.

Lemma drop_duplicates_keep_last_NoDup l :
  NoDup (history_Order_Number <$> l) → drop_duplicates_keep_last l = l.
Proof.
  induction l as [|x l IH]; simpl; [done|].
  rewrite ?fmap_cons, NoDup_cons. intros [Hx Hnd].
  rewrite decide_False by done. by rewrite IH.
Qed.

(** The rows appended last survive, and an older row survives only when
    no appended row has its order number. *)
Lemma drop_duplicates_keep_last_app old new row :
  NoDup (history_Order_Number <$> new) →
  (row ∈ new → row ∈ drop_duplicates_keep_last (old ++ new))
  ∧ (row ∈ drop_duplicates_keep_last (old ++ new) →
     row ∈ new
     ∨ (row ∈ old
        ∧ history_Order_Number row ∉ history_Order_Number <$> new)).
Proof.
  intros Hnd. induction old as [|x old [IH1 IH2]]; simpl.
  - rewrite drop_duplicates_keep_last_NoDup by done. split; [done|by left].
  - case_decide as Hin.
    + split; [done|]. intros Hrow. destruct (IH2 Hrow) as [?|[? ?]];
        [by left|right]. split; [by right|done].
    + split; [intros ?; right; by apply IH1|].
      intros [->|Hrow]%elem_of_cons.
      * right. split; [left|]. intros Hnew. apply Hin.
        rewrite fmap_app, elem_of_app. by right.
      * destruct (IH2 Hrow) as [?|[? ?]]; [by left|right].
        split; [by right|done].
Qed.

Lemma updated_history_Some history_df final_df today history' :
  updated_history history_df final_df today = Some history' →
  history'
  = drop_duplicates_keep_last
      (history_df
       ++ ((λ o, mkHistoryRow o (Some today)) <$> newly_fulfilled final_df)).
Proof.
  unfold updated_history.
  destruct (newly_fulfilled final_df); [done|]. by intros [= <-].
Qed.

Lemma newly_fulfilled_keys final_df (today : string) :
  history_Order_Number
    <$> ((λ o, mkHistoryRow o (Some today)) <$> newly_fulfilled final_df)
  = newly_fulfilled final_df.
Proof. rewrite <- list_fmap_compose. apply list_fmap_id. Qed.

Lemma elem_of_newly_fulfilled final_df o :
  o ∈ newly_fulfilled final_df
  ↔ ∃ r, r ∈ final_df ∧ has_status Fulfillable r ∧ Order_Number r = o.
Proof.
  unfold newly_fulfilled. rewrite elem_of_unique, list_elem_of_fmap. split.
  - intros (r & -> & Hr). apply list_elem_of_filter in Hr as [? ?]. by exists r.
  - intros (r & Hr & Hst & <-). exists r. split; [done|].
    by apply list_elem_of_filter.
Qed.

Lemma updated_history_facts
        (history_df history' : list HistoryRow)
        (final_df : list AnalysisRow) (today : string) :
  updated_history history_df final_df today = Some history' →
  NoDup (history_Order_Number <$> history')
  ∧ (∀ r, r ∈ final_df → has_status Fulfillable r →
          mkHistoryRow (Order_Number r) (Some today) ∈ history')
  ∧ (∀ row, row ∈ history' →
            (Execution_Date row = Some today
             ∧ history_Order_Number row ∈ newly_fulfilled final_df)
            ∨ (row ∈ history_df
               ∧ history_Order_Number row ∉ newly_fulfilled final_df))
  ∧ (∀ row, row ∈ history_df →
            history_Order_Number row
            ∈ history_Order_Number <$> history').
Proof.
  intros Hupd. apply updated_history_Some in Hupd as ->.
  set (new := (λ o, mkHistoryRow o (Some today))
                <$> newly_fulfilled final_df).
  assert (NoDup (history_Order_Number <$> new)) as Hnd.
  { unfold new. rewrite newly_fulfilled_keys. apply NoDup_unique. }
  split; [apply NoDup_drop_duplicates_keep_last|]. split; [|split].
  - intros r Hr Hst.
    apply (proj1 (drop_duplicates_keep_last_app history_df new _ Hnd)).
    unfold new. apply list_elem_of_fmap. eexists. split; [done|].
    apply elem_of_newly_fulfilled. by exists r.
  - intros row Hrow.
    apply (proj2 (drop_duplicates_keep_last_app history_df new _ Hnd)) in Hrow
      as [Hnew|[Hold Hnot]].
    + left. unfold new in Hnew.
      apply list_elem_of_fmap in Hnew as (o & -> & Ho). by split.
    + right. split; [done|]. unfold new in Hnot.
      by rewrite newly_fulfilled_keys in Hnot.
  - intros row Hrow. apply drop_duplicates_keep_last_keys.
    rewrite fmap_app, elem_of_app. left. apply list_elem_of_fmap. by exists row.
Qed.

End history_facts.

(** The history written back after a run in which some order was
    fulfilled.  Every order number is recorded once; each order fulfilled
    in the run is recorded with the date of the run, replacing an older
    record of that order; and the records of the other orders are the ones
    the history had, each order keeping its last record. *)
Theorem updated_history_records_each_order_once
        (history_df history' : list Core.HistoryRow)
        (final_df : list Analysis.AnalysisRow) (today : string) :
  Core.updated_history history_df final_df today = Some history' →
  NoDup (Core.history_Order_Number <$> history')
  ∧ (∀ r, r ∈ final_df → Analysis.has_status Analysis.Fulfillable r →
          Core.mkHistoryRow (Analysis.Order_Number r) (Some today) ∈ history')
  ∧ (∀ row, row ∈ history' →
            (Core.Execution_Date row = Some today
             ∧ Core.history_Order_Number row ∈ Core.newly_fulfilled final_df)
            ∨ (row ∈ history_df
               ∧ Core.history_Order_Number row ∉ Core.newly_fulfilled final_df))
  ∧ (∀ row, row ∈ history_df →
            Core.history_Order_Number row
            ∈ Core.history_Order_Number <$> history').
Proof. apply updated_history_facts. Qed.

Lemma updated_history_witness :
  ∃ history',
    Core.updated_history
      [Core.mkHistoryRow (Some "1001") (Some "2024-01-01");
       Core.mkHistoryRow (Some "0999") (Some "2024-01-01")]
      sample_analysis_df "2024-02-02" = Some history'
    ∧ history'
      = [Core.mkHistoryRow (Some "0999") (Some "2024-01-01");
         Core.mkHistoryRow (Some "1001") (Some "2024-02-02")]
    ∧ NoDup (Core.history_Order_Number <$> history').
Proof.
  eexists. split; [reflexivity|]. split; [reflexivity|].
  refine (proj1 (updated_history_records_each_order_once
                   _ _ sample_analysis_df "2024-02-02" _)).
  reflexivity.
Defined.



(** ** core.py: the values of a column *)

Section unique_values_facts.
Import Py Pd Rules Core.

Lemma elem_of_unique_values l x : x ∈ unique_values l → x ∈ l.
Proof.
  induction l as [|y l IH]; simpl; [done|].
  rewrite !elem_of_cons, list_elem_of_filter.
  intros [->|[_ ?]]; [by left|right; by apply IH].
Qed.

(** Every value of the list has an equal value among the unique ones. *)
Lemma unique_values_covers l x :
  x ∈ l → py_eq x x = true → ∃ y, y ∈ unique_values l ∧ py_eq y x = true.
Proof.
  intros Hx Hrefl. induction l as [|z l IH]; [by apply elem_of_nil in Hx|].
  simpl. destruct (py_eq x z) eqn:Hxz.
  - exists z. split; [left|].
    destruct x, z; simpl in *; try done;
      repeat case_bool_decide; simplify_eq; try done;
      destruct b; try destruct b0; simplify_eq/=; done.
  - apply elem_of_cons in Hx as [->|Hx]; [congruence|].
    destruct (IH Hx) as (y & Hy & Hyx).
    destruct (py_eq y z) eqn:Hyz.
    + exists z. split; [left|].
      destruct x, y, z; simpl in *; try done;
        repeat case_bool_decide; simplify_eq; try done;
        repeat match goal with b : bool |- _ => destruct b end;
        simplify_eq/=; done.
    + exists y. split; [|done]. right. by apply list_elem_of_filter.
Qed.

Lemma py_eq_Str y s : py_eq y (Str s) = true → y = Str s.
Proof.
  destruct y; simpl; try done. case_bool_decide; [by subst|done].
Qed.

Lemma get_unique_column_values_unfold df column_name :
  rows df ≠ [] → column_name ∈ columns df →
  get_unique_column_values df column_name
  = merge_sort String.le
      (py_str <$> unique_values
                    (filter (λ c, is_null c = false) (column df column_name))).
Proof.
  intros Hrows Hcol. unfold get_unique_column_values.
  rewrite (bool_decide_eq_false_2 (rows df = [])) by done.
  rewrite (bool_decide_eq_false_2 (columns df = [])).
  2:{ intros Hnil. rewrite Hnil in Hcol. by apply elem_of_nil in Hcol. }
  by rewrite (bool_decide_eq_true_2 (column_name ∈ columns df)) by done.
Qed.

End unique_values_facts.

(** The values offered for a column.  The list is in ascending order.  For
    a frame without rows or a column the frame does not have it is empty.
    Otherwise, for a column that holds no number (the text of a number
    depends on whether pandas keeps the column as integers or as floats),
    every entry is the text of a cell of the column that is not missing,
    every such cell has an entry for a value equal to it, and the text of
    every string cell is in the list. *)
Theorem unique_column_values_are_sorted_texts_of_the_cells
        (df : Rules.DataFrame) (column_name : string) :
  let values := Core.get_unique_column_values df column_name in
  Sorted String.le values
  ∧ (Rules.rows df = [] ∨ column_name ∉ Rules.columns df → values = [])
  ∧ (Rules.rows df ≠ [] → column_name ∈ Rules.columns df →
     Forall (λ c, ∀ n, c ≠ Rules.Int n) (Rules.column df column_name) →
     (∀ s, s ∈ values →
           ∃ c, c ∈ Rules.column df column_name ∧ c ≠ Rules.NA
                ∧ Rules.py_str c = s)
     ∧ (∀ c, c ∈ Rules.column df column_name → c ≠ Rules.NA →
             ∃ c', Rules.py_eq c' c = true ∧ Rules.py_str c' ∈ values)
     ∧ (∀ s, Rules.Str s ∈ Rules.column df column_name → s ∈ values)).
Proof.
  intros values. split; [|split].
  - unfold values, Core.get_unique_column_values.
    destruct (_ || _); [constructor|]. apply (Sorted_merge_sort String.le).
  - unfold values, Core.get_unique_column_values. intros [Hrows|Hcol].
    + by rewrite Hrows.
    + rewrite (bool_decide_eq_false_2 (column_name ∈ Rules.columns df)) by done.
      simpl. by rewrite !orb_true_r.
  - intros Hrows Hcol _. unfold values.
    rewrite get_unique_column_values_unfold by done.
    set (present := filter (λ c, Rules.is_null c = false) _).
    assert (∀ c, c ∈ present ↔ c ∈ Rules.column df column_name ∧ c ≠ Rules.NA)
      as Hpresent.
    { intros c. unfold present. rewrite list_elem_of_filter.
      split.
      - intros [Hnull Hc]. split; [done|]. by intros ->.
      - intros [Hc Hna]. split; [|done]. by destruct c. }
    assert (∀ c, c ∈ Rules.column df column_name → c ≠ Rules.NA →
                 ∃ c', Rules.py_eq c' c = true
                       ∧ Rules.py_str c'
                         ∈ merge_sort String.le
                             (Rules.py_str <$> Core.unique_values present))
      as Hcover.
    { intros c Hc Hna.
      destruct (unique_values_covers present c) as (y & Hy & Hyc).
      - by apply Hpresent.
      - destruct c; [by destruct Hna|..]; simpl; by rewrite bool_decide_eq_true_2.
      - exists y. split; [done|]. rewrite merge_sort_Permutation.
        apply list_elem_of_fmap. by exists y. }
    split; [|split; [exact Hcover|]].
    + intros s. rewrite merge_sort_Permutation, list_elem_of_fmap.
      intros (c & -> & Hc). apply elem_of_unique_values, Hpresent in Hc as [? ?].
      by exists c.
    + intros s Hs. destruct (Hcover (Rules.Str s) Hs) as (c' & Heq & Hin);
        [done|]. apply py_eq_Str in Heq. by subst.
Qed.

Lemma unique_column_values_witness :
  Core.get_unique_column_values orders_frame "Shipping_Provider"
  = ["DHL"; "DPD"]
  ∧ "DPD" ∈ Core.get_unique_column_values orders_frame "Shipping_Provider".
Proof.
  split; [reflexivity|].
  refine (proj2 (proj2 (proj2 (proj2
            (unique_column_values_are_sorted_texts_of_the_cells
               orders_frame "Shipping_Provider")) _ _ _)) "DPD" _).
  - discriminate.
  - apply (bool_decide_unpack _); vm_compute; exact I.
  - repeat constructor; discriminate.
  - apply elem_of_cons. right. apply elem_of_cons. left. reflexivity.
Defined.

(** ** The rule engine: preparing the columns *)

Section prepare_facts.
Import Py Pd Rules.

Lemma ensure_column_present needed col v df :
  col ∈ needed → col ∈ columns (ensure_column needed col v df).
Proof.
  intros Hin. unfold ensure_column.
  rewrite (bool_decide_eq_true_2 _ Hin). simpl.
  case_bool_decide as Hcol; simpl; [done|].
  rewrite decide_False by done. apply elem_of_app. right. left.
Qed.

Lemma ensure_column_id needed col v df :
  col ∉ needed ∨ col ∈ columns df → ensure_column needed col v df = df.
Proof.
  intros [Hnin|Hin]; unfold ensure_column.
  - by rewrite (bool_decide_eq_false_2 _ Hnin).
  - rewrite (bool_decide_eq_true_2 (col ∈ columns df)) by done.
    simpl. by rewrite andb_false_r.
Qed.

(** What a column created by [ensure_column] holds. *)
Lemma ensure_column_new needed col v df col' :
  col' ∈ columns (ensure_column needed col v df) →
  col' ∈ columns df
  ∨ (col' = col ∧ col ∈ needed
     ∧ Forall (λ c, c = v) (column (ensure_column needed col v df) col)).
Proof.
  unfold ensure_column. destruct (decide (col ∈ needed)) as [Hn|Hn].
  2:{ rewrite (bool_decide_eq_false_2 _ Hn). simpl. intros ?. by left. }
  rewrite (bool_decide_eq_true_2 _ Hn).
  destruct (decide (col ∈ columns df)) as [Hcol|Hcol].
  { rewrite (bool_decide_eq_true_2 _ Hcol). simpl. intros ?. by left. }
  rewrite (bool_decide_eq_false_2 _ Hcol). simpl.
  rewrite decide_False by done. rewrite elem_of_app, list_elem_of_singleton.
  intros [?| ->]; [by left|right]. split; [done|]. split; [done|].
  unfold column. simpl. rewrite <- list_fmap_compose.
  apply Forall_fmap, Forall_forall. intros r _. simpl.
  unfold get_cell. by rewrite lookup_insert_eq.
Qed.

Lemma prepare_present rules df col :
  col ∈ ["Priority"; "_is_excluded"; "Status_Note"] →
  col ∈ needed_columns rules →
  col ∈ columns (_prepare_df_for_actions rules df).
Proof.
  intros Hcol Hneeded. unfold _prepare_df_for_actions.
  set (needed := needed_columns rules) in *.
  rewrite !elem_of_cons in Hcol.
  destruct Hcol as [->|[->|[->|Hcol]]]; [| | |by apply elem_of_nil in Hcol].
  - apply ensure_column_existing, ensure_column_existing.
    by apply ensure_column_present.
  - apply ensure_column_existing. by apply ensure_column_present.
  - by apply ensure_column_present.
Qed.

Lemma prepare_columns rules df col :
  col ∈ columns df → col ∈ columns (_prepare_df_for_actions rules df).
Proof.
  intros Hcol. unfold _prepare_df_for_actions.
  by do 3 apply ensure_column_existing.
Qed.

Lemma prepare_idempotent rules df :
  _prepare_df_for_actions rules (_prepare_df_for_actions rules df)
  = _prepare_df_for_actions rules df.
Proof.
  set (df' := _prepare_df_for_actions rules df).
  assert (∀ col, col ∈ ["Priority"; "_is_excluded"; "Status_Note"] →
                 col ∉ needed_columns rules ∨ col ∈ columns df') as Hdone.
  { intros col Hcol.
    destruct (decide (col ∈ needed_columns rules)); [right|by left].
    by apply prepare_present. }
  unfold _prepare_df_for_actions at 1.
  rewrite (ensure_column_id _ "Priority");
    [|apply Hdone; rewrite !elem_of_cons; tauto].
  rewrite (ensure_column_id _ "_is_excluded");
    [|apply Hdone; rewrite !elem_of_cons; tauto].
  apply ensure_column_id, Hdone. rewrite !elem_of_cons. tauto.
Qed.

Lemma prepare_new rules df col :
  col ∈ columns (_prepare_df_for_actions rules df) →
  col ∈ columns df
  ∨ (col ∈ needed_columns rules
     ∧ ∃ v, (col, v) ∈ [("Priority", Str "Normal");
                        ("_is_excluded", Bool false); ("Status_Note", Str "")]
            ∧ Forall (λ c, c = v)
                     (column (_prepare_df_for_actions rules df) col)).
Proof.
  unfold _prepare_df_for_actions. set (needed := needed_columns rules).
  set (df1 := ensure_column needed "Priority" (Str "Normal") df).
  set (df2 := ensure_column needed "_is_excluded" (Bool false) df1).
  set (df3 := ensure_column needed "Status_Note" (Str "") df2).
  intros H3.
  apply ensure_column_new in H3 as [H2|(-> & Hn & Hall)].
  2:{ right. split; [done|]. exists (Str ""). split; [|done].
      rewrite !elem_of_cons. tauto. }
  apply ensure_column_new in H2 as [H1|(-> & Hn & Hall)].
  2:{ right. split; [done|]. exists (Bool false). split.
      - rewrite !elem_of_cons. tauto.
      - unfold df3.
        destruct (ensure_column_existing needed "Status_Note" (Str "") df2
                    "_is_excluded") as [_ ->]; [|done].
        by apply ensure_column_present. }
  apply ensure_column_new in H1 as [H0|(-> & Hn & Hall)]; [by left|].
  right. split; [done|]. exists (Str "Normal"). split.
  - rewrite !elem_of_cons. tauto.
  - assert ("Priority" ∈ columns df1) as Hp1 by (by apply ensure_column_present).
    destruct (ensure_column_existing needed "_is_excluded" (Bool false) df1
                "Priority" Hp1) as [Hp2 E2].
    destruct (ensure_column_existing needed "Status_Note" (Str "") df2
                "Priority" Hp2) as [_ E3].
    unfold df3. rewrite E3. unfold df2. by rewrite E2.
Qed.

End prepare_facts.

(** Preparing a frame for the actions of the rules keeps its rows and
    the columns it has, cell by cell, and adds only columns that an action
    of the rules writes and the frame lacks: Priority filled with "Normal",
    _is_excluded with False, Status_Note with the empty string.  Preparing
    a prepared frame changes nothing. *)
Theorem prepare_adds_only_the_missing_default_columns
        (rules : list Rules.Rule) (df : Rules.DataFrame) :
  let df' := Rules._prepare_df_for_actions rules df in
  Rules._prepare_df_for_actions rules df' = df'
  ∧ length (Rules.rows df') = length (Rules.rows df)
  ∧ (∀ col, col ∈ Rules.columns df →
            col ∈ Rules.columns df'
            ∧ Rules.column df' col = Rules.column df col)
  ∧ (∀ col, col ∈ Rules.columns df' →
            col ∈ Rules.columns df
            ∨ (col ∈ Rules.needed_columns rules
               ∧ ∃ v, (col, v) ∈ [("Priority", Rules.Str "Normal");
                                  ("_is_excluded", Rules.Bool false);
                                  ("Status_Note", Rules.Str "")]
                      ∧ Forall (λ c, c = v) (Rules.column df' col))).
Proof.
  intros df'. split; [apply prepare_idempotent|].
  split; [apply prepare_length|]. split.
  - intros col Hcol. split; [by apply prepare_columns|by apply prepare_existing].
  - apply prepare_new.
Qed.

Lemma prepare_adds_default_columns_witness :
  Rules.column
    (Rules._prepare_df_for_actions [tag_rule [is_dhl] "Express"] bare_frame)
    "Order_Number"
  = Rules.column bare_frame "Order_Number".
Proof.
  refine (proj2 (proj1 (proj2 (proj2
            (prepare_adds_only_the_missing_default_columns
               [tag_rule [is_dhl] "Express"] bare_frame)))
            "Order_Number" _)).
  apply (bool_decide_unpack _); vm_compute; exact I.
Defined.

(** ** The rule engine: what the actions leave alone *)

Section action_frame.
Import Py Pd Rules.
Variable pandas_kernel : operator → list cell → cell → result (list bool).

Lemma extends_refl mask df : extends mask df df.
Proof.
  split; [done|]. split; [done|]. intros i r r' _ Hr Hr' col _. congruence.
Qed.

Lemma extends_trans mask df1 df2 df3 :
  extends mask df1 df2 → extends mask df2 df3 → extends mask df1 df3.
Proof.
  intros (Hl1 & Hc1 & Hr1) (Hl2 & Hc2 & Hr2).
  split; [congruence|]. split; [by etrans|].
  intros i r r' Hm Hr Hr' col Hcol.
  destruct (rows df2 !! i) as [r2|] eqn:H2.
  - rewrite (Hr2 i r2 r' Hm H2 Hr' col (Hc1 _ Hcol)). by apply (Hr1 i r r2).
  - apply lookup_lt_Some in Hr. apply lookup_ge_None in H2. lia.
Qed.

Lemma update_where_extends mask col f df :
  length mask = length (rows df) →
  extends mask df (update_where mask col f df).
Proof.
  intros Hlen. split; [|split].
  - simpl. by rewrite length_zip_with_r_eq.
  - simpl. intros c Hc. case_decide; [done|]. apply elem_of_app. by left.
  - intros i r r' Hm Hr Hr' c Hc. simpl in Hr'.
    rewrite lookup_zip_with, Hm, Hr in Hr'. simpl in Hr'.
    case_decide as Hcol; [congruence|]. injection Hr' as <-.
    unfold get_cell. rewrite lookup_insert_ne; [done|]. by intros ->.
Qed.

(** A mask that selects fewer rows. *)
Lemma extends_weaken (mask mask' : list bool) df df' :
  (∀ i, mask !! i = Some false → mask' !! i = Some false) →
  extends mask' df df' → extends mask df df'.
Proof.
  intros Hw (Hl & Hc & Hr). split; [done|]. split; [done|].
  intros i r r' Hm. apply Hr. by apply Hw.
Qed.

Lemma execute_action_extends df matches action df' :
  length matches = length (rows df) →
  execute_action df matches action = Ok df' →
  extends matches df df'.
Proof.
  intros Hlen. unfold execute_action.
  repeat case_bool_decide; try (intros [= <-]; by apply update_where_extends);
    try (intros [= <-]; by apply extends_refl).
  destruct (_ && _); [|intros [= <-]; by apply extends_refl].
  set (final_matches := zip_with andb matches _).
  assert (length final_matches = length (rows df)) as Hfinal.
  { unfold final_matches. rewrite length_zip_with_l_eq; [done|].
    unfold column. by rewrite !length_fmap. }
  assert (∀ i, matches !! i = Some false → final_matches !! i = Some false)
    as Hweaker.
  { intros i Hm. unfold final_matches. rewrite lookup_zip_with, Hm. simpl.
    apply lookup_lt_Some in Hm. rewrite Hlen in Hm.
    destruct ((_ <$> column df "SKU") !! i) eqn:Hsku; [done|].
    apply lookup_ge_None in Hsku. unfold column in Hsku.
    rewrite !length_fmap in Hsku. lia. }
  destruct (forallb _ _); [|done]. intros [= <-].
  apply (extends_weaken _ final_matches); [done|].
  eapply extends_trans; [by apply update_where_extends|].
  apply update_where_extends.
  destruct (update_where_extends final_matches "Quantity" (λ _, Int 0) df Hfinal)
    as [-> _]. done.
Qed.

Lemma execute_actions_extends acts df matches df' :
  length matches = length (rows df) →
  _execute_actions df matches acts = Ok df' →
  extends matches df df'.
Proof.
  revert df. induction acts as [|action acts IH]; intros df Hlen; simpl.
  - intros [= <-]. apply extends_refl.
  - destruct (execute_action df matches action) as [df1|] eqn:Hact; [|done].
    simpl. intros Hrest.
    pose proof (execute_action_extends _ _ _ _ Hlen Hact) as H1.
    eapply extends_trans; [exact H1|]. apply IH; [|done].
    destruct H1 as [-> _]. done.
Qed.

Lemma get_matching_rows_length df rule matches :
  _get_matching_rows pandas_kernel df rule = Ok matches →
  length matches = length (rows df).
Proof.
  unfold _get_matching_rows, no_rows_match.
  destruct (conditions rule); [intros [= <-]; by rewrite length_replicate|].
  destruct (condition_results _ _ _) as [[|res results]|]; simpl; [| |done].
  - intros [= <-]. by rewrite length_replicate.
  - case_bool_decide; intros [= <-]; unfold all_axis1, any_axis1;
      by rewrite length_fmap, length_seq.
Qed.

Lemma apply_rule_extends df rule matches df' :
  _get_matching_rows pandas_kernel df rule = Ok matches →
  apply_rule pandas_kernel df rule = Ok df' →
  extends matches df df'.
Proof.
  intros Hm. unfold apply_rule. rewrite Hm. simpl.
  destruct (existsb id matches); [|intros [= <-]; apply extends_refl].
  apply execute_actions_extends. by eapply get_matching_rows_length.
Qed.

Lemma apply_rule_keeps df rule df' :
  apply_rule pandas_kernel df rule = Ok df' →
  length (rows df') = length (rows df) ∧ columns df ⊆ columns df'.
Proof.
  intros Happly.
  destruct (_get_matching_rows pandas_kernel df rule) as [matches|] eqn:Hm.
  - destruct (apply_rule_extends _ _ _ _ Hm Happly) as (? & ? & _). done.
  - unfold apply_rule in Happly. by rewrite Hm in Happly.
Qed.

Lemma apply_rules_keeps rules df df' :
  apply_rules pandas_kernel df rules = Ok df' →
  length (rows df') = length (rows df) ∧ columns df ⊆ columns df'.
Proof.
  revert df. induction rules as [|rule rules IH]; intros df; simpl.
  - intros [= <-]. done.
  - destruct (apply_rule pandas_kernel df rule) as [df1|] eqn:H1; [|done].
    simpl. intros Hrest. apply apply_rule_keeps in H1 as [Hl1 Hc1].
    apply IH in Hrest as [Hl Hc]. split; [congruence|by etrans].
Qed.

End action_frame.

(** A rule writes only on the rows it matches.  When a rule has been
    applied, every row that its conditions do not match has, in every
    column the frame had, the cell it had before; the frame has as many
    rows as before and has kept its columns. *)
Theorem rule_leaves_unmatched_rows_unchanged
        (pandas_kernel : Rules.operator → list Rules.cell → Rules.cell →
                         Py.result (list bool))
        (df df' : Rules.DataFrame) (rule : Rules.Rule) (matches : list bool) :
  Rules._get_matching_rows pandas_kernel df rule = Py.Ok matches →
  Rules.apply_rule pandas_kernel df rule = Py.Ok df' →
  length (Rules.rows df') = length (Rules.rows df)
  ∧ Rules.columns df ⊆ Rules.columns df'
  ∧ ∀ i r r', matches !! i = Some false →
              Rules.rows df !! i = Some r → Rules.rows df' !! i = Some r' →
              ∀ col, col ∈ Rules.columns df →
                     Rules.get_cell r' col = Rules.get_cell r col.
Proof. apply apply_rule_extends. Qed.

Lemma rule_leaves_unmatched_rows_witness :
  ∃ df', Rules.apply_rule unused_kernel orders_frame (tag_rule [is_dhl] "Express")
         = Py.Ok df'
         ∧ Rules.column df' "Status_Note"
           = [Rules.Str "Express"; Rules.Str "Repeat"]
         ∧ length (Rules.rows df') = length (Rules.rows orders_frame).
Proof.
  eexists. split; [reflexivity|]. split; [reflexivity|].
  refine (proj1 (rule_leaves_unmatched_rows_unchanged
                   unused_kernel orders_frame _ (tag_rule [is_dhl] "Express")
                   [true; false] _ _)); reflexivity.
Defined.

(** The engine neither drops nor adds rows, and it drops no column:
    whatever the rules and the kernels, a run of the engine that returns
    gives a frame with as many rows as it was given and with every column
    it was given. *)
Theorem rule_engine_keeps_rows_and_columns
        (pandas_kernel : Rules.operator → list Rules.cell → Rules.cell →
                         Py.result (list bool))
        (rules_config : option (list Rules.Rule)) (df df' : Rules.DataFrame) :
  Rules.apply pandas_kernel rules_config df = Py.Ok df' →
  length (Rules.rows df') = length (Rules.rows df)
  ∧ Rules.columns df ⊆ Rules.columns df'.
Proof.
  unfold Rules.apply. destruct rules_config as [[|rule rules]|];
    [intros [= <-]; done| |intros [= <-]; done].
  intros Happly. apply apply_rules_keeps in Happly as [Hl Hc].
  rewrite prepare_length in Hl. split; [done|].
  intros col Hcol. apply Hc. by apply prepare_columns.
Qed.

Lemma rule_engine_keeps_rows_witness :
  ∃ df', Rules.apply unused_kernel (Some [tag_rule [is_dhl] "Express"]) bare_frame
         = Py.Ok df'
         ∧ length (Rules.rows df') = 2%nat
         ∧ Rules.columns bare_frame ⊆ Rules.columns df'.
Proof.
  eexists. split; [reflexivity|].
  apply (rule_engine_keeps_rows_and_columns
           unused_kernel (Some [tag_rule [is_dhl] "Express"]) bare_frame).
  reflexivity.
Defined.

(** ** ADD_TAG: the tags of a note *)

Section tag_list.
Import Py Pd Rules.

(** Splitting a note that ends in the separator and a tag gives the
    pieces of the note and then the pieces of the tag. *)
Lemma split_comma_go_app v n note cur :
  (String.length note ≤ n)%nat →
  split_comma_go cur (note +:+ ", " +:+ v)
  = split_comma_go cur note ++ split_comma_go "" v.
Proof.
  revert note cur.
  assert (∀ cur, split_comma_go cur (", " +:+ v)
                 = split_comma_go cur "" ++ split_comma_go "" v) as Hbase.
  { intros cur. change (", " +:+ v) with (String "," (String " " v)).
    by rewrite split_comma_go_two. }
  induction n as [|n IH]; intros note cur Hlen.
  - destruct note; [apply Hbase|simpl in Hlen; lia].
  - destruct note as [|c note]; [apply Hbase|].
    destruct note as [|c' note].
    + change (String c "" +:+ ", " +:+ v)
        with (String c (String "," (String " " v))).
      rewrite split_comma_go_two.
      replace (Ascii.eqb c "," && Ascii.eqb "," " ") with false
        by (by rewrite andb_false_r).
      rewrite split_comma_go_one.
      apply (IH "" (String c cur)). simpl. lia.
    + change (String c (String c' note) +:+ ", " +:+ v)
        with (String c (String c' (note +:+ ", " +:+ v))).
      rewrite !split_comma_go_two. destruct (_ && _).
      * simpl. f_equal. apply IH. simpl in Hlen. lia.
      * apply (IH (String c' note) (String c cur)). simpl in *. lia.
Qed.

Lemma split_comma_free v : free_of_separator v → split_comma v = [v].
Proof. intros Hfree. unfold split_comma. by rewrite split_comma_go_free. Qed.

Lemma split_comma_app v note :
  free_of_separator v →
  split_comma (note +:+ ", " +:+ v) = split_comma note ++ [v].
Proof.
  intros Hfree. unfold split_comma.
  rewrite (split_comma_go_app v (String.length note)) by done.
  by rewrite (split_comma_go_free v "" Hfree).
Qed.

End tag_list.

(** What ADD_TAG does to a note, for a tag that does not contain the
    separator.  A note that has the tag among its comma-separated pieces is
    left as it is; an empty note becomes the tag; any other note keeps its
    pieces, in order, and gets the tag as its last piece.  In each case the
    tag is a piece of the new note, so adding it again changes nothing. *)
Theorem add_tag_appends_the_tag_to_the_pieces_of_the_note
        (v note : string) :
  free_of_separator v →
  let note' := Rules.note_text (Rules.append_note (Rules.Str v) note) in
  Py.split_comma note'
  = (if decide (v ∈ Py.split_comma note) then Py.split_comma note
     else if decide (note = "") then [v]
          else Py.split_comma note ++ [v])
  ∧ v ∈ Py.split_comma note'
  ∧ Rules.append_note (Rules.Str v) note' = Rules.Str note'.
Proof.
  intros Hfree note'.
  assert (Py.split_comma note'
          = (if decide (v ∈ Py.split_comma note) then Py.split_comma note
             else if decide (note = "") then [v]
                  else Py.split_comma note ++ [v])) as Hsplit.
  { unfold note', Rules.append_note.
    destruct (decide (v ∈ Py.split_comma note)) as [Hin|Hnin].
    - rewrite bool_decide_eq_true_2; [done|]. by apply list_elem_of_fmap_2.
    - rewrite bool_decide_eq_false_2.
      2:{ intros Hin. apply list_elem_of_fmap in Hin as (s & [= <-] & Hs). done. }
      destruct (decide (note = "")) as [->|Hne].
      + rewrite bool_decide_eq_true_2 by done. simpl. by apply split_comma_free.
      + rewrite bool_decide_eq_false_2 by done. simpl.
        by apply split_comma_app. }
  assert (v ∈ Py.split_comma note') as Hin.
  { rewrite Hsplit. repeat case_decide; [done|left|].
    apply elem_of_app. right. left. }
  split; [done|]. split; [done|].
  unfold Rules.append_note at 1. rewrite bool_decide_eq_true_2; [done|].
  by apply list_elem_of_fmap_2.
Qed.

Lemma add_tag_appends_witness :
  Py.split_comma
    (Rules.note_text (Rules.append_note (Rules.Str "Express") "Repeat, Gift"))
  = ["Repeat"; "Gift"; "Express"].
Proof.
  rewrite (proj1 (add_tag_appends_the_tag_to_the_pieces_of_the_note
                    "Express" "Repeat, Gift" eq_refl)).
  reflexivity.
Defined.

(** ** Matching: ALL and ANY *)

Section match_types.
Import Py Pd Rules.
Variable pandas_kernel : operator → list cell → cell → result (list bool).

Lemma forallb_existsb_cons {A} (p : A → bool) (x : A) (l : list A) :
  forallb p (x :: l) = true → existsb p (x :: l) = true.
Proof. simpl. intros [-> _]%andb_true_iff. done. Qed.

Lemma all_axis1_any_axis1 n res results i :
  all_axis1 n (res :: results) !! i = Some true →
  any_axis1 n (res :: results) !! i = Some true.
Proof.
  unfold all_axis1, any_axis1. rewrite !list_lookup_fmap.
  destruct (seq 0 n !! i) as [j|]; [|done]. simpl.
  intros [= H]. f_equal.
  apply (forallb_existsb_cons (λ col : list bool, default false (col !! j))).
  exact H.
Qed.

End match_types.

(** The match type of a rule is read without regard to case, a rule
    without one being an ALL rule, and every match type other than ALL is
    ANY.  An ALL rule matches a row exactly when it has a usable condition
    and all its usable conditions hold on the row; any other rule matches
    it exactly when one of its usable conditions holds.  Hence a row that
    an ALL rule matches is matched by every rule with the same conditions,
    whatever its match type, and two ALL rules with the same conditions
    match the same rows. *)
Theorem rows_matching_all_conditions_match_any
        (pandas_kernel : Rules.operator → list Rules.cell → Rules.cell →
                         Py.result (list bool))
        (df : Rules.DataFrame) (rule_all rule_other : Rules.Rule)
        (matches_all : list bool) :
  Rules.conditions rule_other = Rules.conditions rule_all →
  Py.upper (default "ALL" (Rules.rule_match rule_all)) = "ALL" →
  Rules._get_matching_rows pandas_kernel df rule_all = Py.Ok matches_all →
  ∃ matches_other,
    Rules._get_matching_rows pandas_kernel df rule_other = Py.Ok matches_other
    ∧ length matches_other = length matches_all
    ∧ (∀ i, matches_all !! i = Some true → matches_other !! i = Some true)
    ∧ (Py.upper (default "ALL" (Rules.rule_match rule_other)) = "ALL" →
       matches_other = matches_all)
    ∧ (∀ i, matches_all !! i = Some true
            ↔ (i < length (Rules.rows df))%nat
              ∧ usable_conditions df rule_all ≠ []
              ∧ ∀ cond, cond ∈ usable_conditions df rule_all →
                        holds_at pandas_kernel df cond i)
    ∧ (Py.upper (default "ALL" (Rules.rule_match rule_other)) ≠ "ALL" →
       ∀ i, matches_other !! i = Some true
            ↔ (i < length (Rules.rows df))%nat
              ∧ ∃ cond, cond ∈ usable_conditions df rule_all
                        ∧ holds_at pandas_kernel df cond i).
Proof.
  intros Hconds Hall Hm.
  assert (usable_conditions df rule_other = usable_conditions df rule_all)
    as Husable by (unfold usable_conditions; by rewrite Hconds).
  assert (∃ matches_other,
            Rules._get_matching_rows pandas_kernel df rule_other
            = Py.Ok matches_other
            ∧ length matches_other = length matches_all
            ∧ (∀ i, matches_all !! i = Some true →
                    matches_other !! i = Some true)
            ∧ (Py.upper (default "ALL" (Rules.rule_match rule_other)) = "ALL" →
               matches_other = matches_all)) as (matches_other & Ho & H1 & H2 & H3).
  { revert Hm. unfold Rules._get_matching_rows.
    rewrite Hconds, Hall.
    destruct (Rules.conditions rule_all) as [|cond conds].
    { intros [= <-]. eexists. by repeat split. }
    destruct (Rules.condition_results _ _ _) as [[|res results]|]; simpl;
      [| |done].
    { intros [= <-]. eexists. by repeat split. }
    intros [= <-].
    case_bool_decide as Hother.
    - eexists. by repeat split.
    - eexists. split; [done|]. split; [|split; [|by intros ?]].
      + unfold Rules.all_axis1, Rules.any_axis1. by rewrite !length_fmap.
      + intros i. apply all_axis1_any_axis1. }
  exists matches_other. split; [exact Ho|]. split; [exact H1|].
  split; [exact H2|]. split; [exact H3|]. split.
  - intros i.
    by apply (get_matching_rows_lookup pandas_kernel df rule_all matches_all i Hm).
  - intros Hany i. rewrite <- Husable.
    by apply (get_matching_rows_lookup pandas_kernel df rule_other
                matches_other i Ho).
Qed.

Lemma rows_matching_all_witness :
  ∃ matches_other,
    Rules._get_matching_rows unused_kernel orders_frame
      (with_match (Some "any") [is_dhl; has_order_number])
    = Py.Ok matches_other
    ∧ matches_other = [true; true]
    ∧ Rules._get_matching_rows unused_kernel orders_frame
        (with_match None [is_dhl; has_order_number])
      = Py.Ok [true; false]
    ∧ matches_other !! 0%nat = Some true.
Proof.
  destruct (rows_matching_all_conditions_match_any
              unused_kernel orders_frame
              (with_match None [is_dhl; has_order_number])
              (with_match (Some "any") [is_dhl; has_order_number])
              [true; false] eq_refl eq_refl eq_refl)
    as (m & Hm & _ & Himp & _).
  exists m. split; [exact Hm|]. split; [|split; [reflexivity|]].
  - vm_compute in Hm. by injection Hm as <-.
  - apply Himp. reflexivity.
Defined.

(** ** stock_export.py *)

Section stock_export_facts.
Import Py Pd Analysis ReportQuery StockExport.

Lemma quantity_by_SKU_keys (l : list AnalysisRow) :
  (quantity_by_SKU l).*1 = group_keys (SKU <$> l).
Proof.
  unfold quantity_by_SKU. rewrite <- list_fmap_compose. apply list_fmap_id.
Qed.

Lemma elem_of_quantity_by_SKU (l : list AnalysisRow) sku q :
  (sku, q) ∈ quantity_by_SKU l
  ↔ (∃ r, r ∈ l ∧ SKU r = sku)
    ∧ q = sum (Quantity <$> filter (λ r, SKU r = sku) l).
Proof.
  unfold quantity_by_SKU. rewrite list_elem_of_fmap. split.
  - intros (k & [= -> ->] & Hk). split; [|done].
    apply elem_of_group_keys, list_elem_of_fmap in Hk as (r & -> & Hr).
    by exists r.
  - intros [(r & Hr & Hsku) ->]. exists sku. split; [done|].
    apply elem_of_group_keys, list_elem_of_fmap. by exists r.
Qed.

(** The lines of the export: the SKU totals that are positive. *)
Lemma stock_export_lines (filtered_items : list AnalysisRow) :
  match filtered_items with
  | [] => []
  | _ :: _ =>
      match filter (λ kv : string * Z, 0 < kv.2) (quantity_by_SKU filtered_items)
      with
      | [] => []
      | _ :: _ =>
          filter (λ kv : string * Z, 0 < kv.2) (quantity_by_SKU filtered_items)
      end
  end
  = filter (λ kv : string * Z, 0 < kv.2) (quantity_by_SKU filtered_items).
Proof.
  destruct filtered_items as [|r l]; [done|].
  by destruct (filter _ (quantity_by_SKU (r :: l))).
Qed.

Lemma Sorted_filter {A} (R : relation A) `{!Transitive R} (P : A → Prop)
      `{∀ x, Decision (P x)} (l : list A) :
  Sorted R l → Sorted R (filter P l).
Proof.
  intros Hs. apply Sorted_StronglySorted in Hs; [|done].
  apply StronglySorted_Sorted.
  induction Hs as [|x l Hl IH Hx]; [constructor|].
  rewrite filter_cons. case_decide; [|done]. constructor; [done|].
  apply Forall_forall. intros y Hy. apply list_elem_of_filter in Hy as [_ Hy].
  rewrite Forall_forall in Hx. by apply Hx.
Qed.

Lemma export_facts (filtered_items : list AnalysisRow) :
  let export :=
    filter (λ kv : string * Z, 0 < kv.2) (quantity_by_SKU filtered_items) in
  Sorted String.le export.*1 ∧ NoDup export.*1
  ∧ ∀ sku q, (sku, q) ∈ export
             ↔ (∃ r, r ∈ filtered_items ∧ SKU r = sku)
               ∧ q = sum (Quantity <$> filter (λ r, SKU r = sku) filtered_items)
               ∧ 0 < q.
Proof.
  intros export.
  assert (export.*1 = filter (λ k, 0 < sum (Quantity <$>
                                              filter (λ r, SKU r = k) filtered_items))
                             (group_keys (SKU <$> filtered_items))) as Hkeys.
  { unfold export, quantity_by_SKU.
    induction (group_keys (SKU <$> filtered_items)) as [|k ks IH]; [done|].
    rewrite fmap_cons, !filter_cons. simpl.
    case_decide; rewrite ?fmap_cons, IH; done. }
  split; [|split].
  - rewrite Hkeys. apply Sorted_filter; [apply _|].
    apply (Sorted_merge_sort String.le).
  - rewrite Hkeys. apply NoDup_filter, NoDup_group_keys.
  - intros sku q. unfold export.
    rewrite list_elem_of_filter, elem_of_quantity_by_SKU. simpl. tauto.
Qed.

Lemma fulfilled_quantity_nonneg (df : list AnalysisRow) sku :
  Forall (λ r, 0 ≤ Quantity r) df → 0 ≤ fulfilled_quantity df sku.
Proof.
  unfold fulfilled_quantity. induction df as [|r l IH]; intros Hall; [done|].
  inversion_clear Hall as [|?? Hr Hl]. specialize (IH Hl).
  rewrite filter_cons. case_decide; [|done].
  rewrite fmap_cons. unfold sum in *. simpl. lia.
Qed.

End stock_export_facts.


(** The stock export of a run is what the run wrote off, for a batch
    whose numbers the code holds exactly (stocks between 0 and 2^53,
    quantities that are not negative and add up to 2^53 at most).  With no
    filter and a query that selects the Fulfillable rows, the export lists
    for each SKU the quantity of its Fulfillable rows, when that is not 0;
    and taking the exported quantity from the stock of a SKU of the stock
    table gives the [Final_Stock] that the rows of the SKU show. *)
Theorem stock_export_of_a_run_is_its_write_off
        (repr : string → string)
        (query : string → list Analysis.AnalysisRow →
                 Py.result (list Analysis.AnalysisRow))
        (stock_df : list Analysis.StockLine)
        (orders_df : list Analysis.OrderLine) (history_df : list string)
        (final_df : list Analysis.AnalysisRow) (stats : Analysis.Stats)
        (export : list (string * Z)) :
  exact_numbers stock_df orders_df →
  Analysis.run_analysis stock_df orders_df history_df = Py.Ok (final_df, stats) →
  query "Order_Fulfillment_Status == 'Fulfillable'" final_df
  = Py.Ok (filter (Analysis.has_status Analysis.Fulfillable) final_df) →
  StockExport.create_stock_export repr query final_df None = Some export →
  (∀ sku q, (sku, q) ∈ export
            ↔ q = fulfilled_quantity final_df sku ∧ 0 < q)
  ∧ ∀ r v, r ∈ final_df →
           Analysis.initial_live_stock (Analysis.stock_clean stock_df)
             !! Analysis.SKU r = Some v →
           Analysis.Final_Stock r
           = Some (v - exported export (Analysis.SKU r)).
Proof.
  intros Hexact Hrun Hquery Hexport.
  destruct (run_quantities _ _ _ _ _ Hexact Hrun) as [Hnonneg _].
  unfold StockExport.create_stock_export in Hexport.
  change (ReportQuery.full_query repr None)
    with "Order_Fulfillment_Status == 'Fulfillable'" in Hexport.
  rewrite Hquery, stock_export_lines in Hexport. injection Hexport as <-.
  set (completed := filter (Analysis.has_status Analysis.Fulfillable) final_df).
  destruct (export_facts completed) as (_ & Hnd & Helem).
  set (export := filter _ (Analysis.quantity_by_SKU completed)) in *.
  assert (∀ sku, Pd.sum (Analysis.Quantity
                           <$> filter (λ r, Analysis.SKU r = sku) completed)
                 = fulfilled_quantity final_df sku) as Hfq.
  { intros sku. unfold fulfilled_quantity, completed.
    by rewrite list_filter_filter. }
  assert (∀ sku, 0 ≤ fulfilled_quantity final_df sku) as Hfq0.
  { intros sku. by apply fulfilled_quantity_nonneg. }
  assert (∀ sku q, (sku, q) ∈ export
                   ↔ q = fulfilled_quantity final_df sku ∧ 0 < q) as Hlines.
  { intros sku q. rewrite Helem, Hfq. split; [tauto|].
    intros [-> Hpos]. split; [|done].
    rewrite <- Hfq in Hpos.
    destruct (filter (λ r, Analysis.SKU r = sku) completed) as [|r l] eqn:Hf;
      [simpl in Hpos; lia|].
    assert (r ∈ filter (λ r, Analysis.SKU r = sku) completed) as Hr
      by (rewrite Hf; left).
    apply list_elem_of_filter in Hr as [? ?]. by exists r. }
  split; [exact Hlines|].
  intros r v Hr Hv.
  pose proof (final_stock_of_rows _ _ _ _ _ r Hrun Hr) as Hstock.
  rewrite Hv in Hstock. destruct Hstock as [_ ->]. do 2 f_equal.
  unfold exported.
  destruct ((list_to_map export : gmap string Z) !! Analysis.SKU r) as [q|]
    eqn:Hq; simpl.
  - apply elem_of_list_to_map in Hq; [|done]. by apply Hlines in Hq as [-> _].
  - apply not_elem_of_list_to_map in Hq.
    destruct (decide (0 < fulfilled_quantity final_df (Analysis.SKU r)))
      as [Hpos|Hle]; [|specialize (Hfq0 (Analysis.SKU r)); lia].
    destruct Hq. apply list_elem_of_fmap.
    exists (Analysis.SKU r, fulfilled_quantity final_df (Analysis.SKU r)).
    split; [done|]. by apply Hlines.
Qed.

Lemma stock_export_of_a_run_witness :
  ∃ final_df stats export,
    Analysis.run_analysis example_stock example_orders []
    = Py.Ok (final_df, stats)
    ∧ StockExport.create_stock_export quoted fulfillable_query final_df None
      = Some export
    ∧ export = [("A", 2); ("B", 1)]
    ∧ ∀ sku q, (sku, q) ∈ export
               ↔ q = fulfilled_quantity final_df sku ∧ 0 < q.
Proof.
  eexists _, _, _. split; [reflexivity|]. split; [reflexivity|].
  split; [reflexivity|].
  refine (proj1 (stock_export_of_a_run_is_its_write_off
                   quoted fulfillable_query example_stock example_orders []
                   _ _ _ _ eq_refl eq_refl eq_refl)).
  repeat split; repeat constructor; vm_compute; discriminate.
Defined.

(** ** packing_lists.py *)

Section packing_list_facts.
Import Py Pd Analysis ReportQuery PackingLists.

Lemma order_number_le_total (a b : option string) :
  order_number_le a b ∨ order_number_le b a.
Proof.
  destruct a as [x|], b as [y|]; simpl; try tauto.
  apply (total String.le).
Qed.

Lemma packing_le_total (a b : AnalysisRow) : packing_le a b ∨ packing_le b a.
Proof.
  unfold packing_le.
  destruct (Z.lt_trichotomy (sort_priority a) (sort_priority b))
    as [Hlt|[Heq|Hgt]]; [by left; left| |by right; left].
  destruct (decide (Order_Number a = Order_Number b)) as [Ho|Ho].
  - destruct (total String.le (SKU a) (SKU b)); [left|right]; right;
      (split; [done|]); right; by split.
  - destruct (order_number_le_total (Order_Number a) (Order_Number b));
      [left|right]; right; (split; [done|]); left; by split.
Qed.

Lemma insert_row_Permutation r l : insert_row r l ≡ₚ r :: l.
Proof.
  induction l as [|r' l IH]; simpl; [done|].
  case_decide; [done|]. rewrite IH. apply Permutation_swap.
Qed.

Lemma sort_values_Permutation l : sort_values l ≡ₚ l.
Proof.
  induction l as [|r l IH]; simpl; [done|].
  by rewrite insert_row_Permutation, IH.
Qed.

Lemma insert_row_Sorted r l :
  Sorted packing_le l → Sorted packing_le (insert_row r l).
Proof.
  induction l as [|r' l IH]; intros Hs; simpl.
  - by repeat constructor.
  - case_decide as Hle.
    + constructor; [done|]. by constructor.
    + inversion_clear Hs as [|?? Hl Hhd]. constructor; [by apply IH|].
      destruct (packing_le_total r r') as [?|Hge]; [done|].
      destruct l as [|r'' l]; simpl.
      * by constructor.
      * case_decide; constructor; [done|]. by inversion_clear Hhd.
Qed.

Lemma sort_values_Sorted l : Sorted packing_le (sort_values l).
Proof.
  induction l as [|r l IH]; simpl; [constructor|]. by apply insert_row_Sorted.
Qed.

(** What [blank_repeated_country] does to the row at one index. *)
Lemma blank_repeated_country_lookup seen l i r' :
  blank_repeated_country seen l !! i = Some r' →
  ∃ r, l !! i = Some r
       ∧ r' = if decide (Order_Number r ∈ seen
                         ∨ Order_Number r ∈ Order_Number <$> take i l)
              then set_Destination_Country (Some "") r else r.
Proof.
  revert seen i. induction l as [|r0 l IH]; intros seen i; [done|].
  destruct i as [|i]; simpl.
  - intros [= <-]. exists r0. split; [done|].
    destruct (decide (Order_Number r0 ∈ seen)) as [Hin|Hnin].
    + by rewrite decide_True by (by left).
    + rewrite decide_False; [done|]. intros [?|Hnil]; [done|].
      by apply elem_of_nil in Hnil.
  - intros Hr'. apply IH in Hr' as (r & Hr & ->). exists r. split; [done|].
    rewrite ?fmap_cons.
    destruct (decide (Order_Number r ∈ Order_Number r0 :: seen
                      ∨ Order_Number r ∈ Order_Number <$> take i l))
      as [Hin|Hnin].
    + rewrite decide_True; [done|]. rewrite !elem_of_cons in *. tauto.
    + rewrite decide_False; [done|]. rewrite !elem_of_cons in *. tauto.
Qed.

Lemma blank_repeated_country_length seen l :
  length (blank_repeated_country seen l) = length l.
Proof. revert seen. induction l as [|r l IH]; intros seen; simpl; auto. Qed.

(** Blanking the country changes no other column. *)
Lemma blank_repeated_country_body seen l :
  (λ r, (Order_Number r, SKU r, Product_Name r, Quantity r, Shipping_Provider r))
    <$> blank_repeated_country seen l
  = (λ r, (Order_Number r, SKU r, Product_Name r, Quantity r, Shipping_Provider r))
      <$> l.
Proof.
  revert seen. induction l as [|r l IH]; intros seen; [done|].
  simpl. rewrite IH. f_equal. by case_decide.
Qed.

Lemma create_packing_list_Some repr query analysis_df filters exclude_skus
      print_list :
  create_packing_list repr query analysis_df filters exclude_skus
  = Some print_list →
  ∃ kept,
    filtered_orders repr query analysis_df filters exclude_skus = Ok kept
    ∧ kept ≠ []
    ∧ print_list
      = columns_for_print
          <$> blank_repeated_country [] (sort_values (fill_blanks <$> kept)).
Proof.
  unfold create_packing_list.
  destruct (filtered_orders _ _ _ _ _) as [[|r kept]|]; [done| |done].
  intros [= <-]. by exists (r :: kept).
Qed.

Lemma filtered_orders_excluded repr query analysis_df filters skus kept :
  filtered_orders repr query analysis_df filters (Some skus) = Ok kept →
  ∀ r, r ∈ kept → SKU r ∉ skus.
Proof.
  unfold filtered_orders.
  destruct (query _ analysis_df) as [filtered|]; [|done]. simpl.
  destruct skus as [|sku skus].
  { intros _ r _. apply not_elem_of_nil. }
  destruct filtered as [|r0 filtered]; intros [= <-] r Hr.
  - by apply elem_of_nil in Hr.
  - by apply list_elem_of_filter in Hr as [? _].
Qed.

Lemma order_number_le_trans (a b c : option string) :
  order_number_le a b → order_number_le b c → order_number_le a c.
Proof.
  destruct a as [x|], b as [y|], c as [z|]; simpl; try done.
  apply (transitivity (R := String.le)).
Qed.

Lemma order_number_le_antisym (a b : option string) :
  order_number_le a b → order_number_le b a → a = b.
Proof.
  destruct a as [x|], b as [y|]; simpl; try done.
  intros H1 H2. f_equal. by apply (anti_symm String.le).
Qed.

#[global] Instance packing_le_trans : Transitive packing_le.
Proof.
  intros a b c. unfold packing_le.
  intros [Hab|[Eab Hab]] [Hbc|[Ebc Hbc]]; [left; lia..|].
  right. split; [lia|].
  destruct Hab as [[Nab Lab]|[Eo1 Sab]], Hbc as [[Nbc Lbc]|[Eo2 Sbc]].
  - left. split; [|by eapply order_number_le_trans].
    intros Heq. rewrite Heq in Lab.
    by apply Nbc, order_number_le_antisym.
  - left. rewrite <- Eo2. by split.
  - left. rewrite Eo1. by split.
  - right. split; [congruence|]. by etrans.
Qed.

Lemma sort_values_lookup_lt l i j r1 r2 :
  (i < j)%nat → sort_values l !! i = Some r1 → sort_values l !! j = Some r2 →
  packing_le r1 r2.
Proof.
  intros Hij H1 H2.
  pose proof (sort_values_Sorted l) as Hs.
  apply Sorted_StronglySorted in Hs; [|apply _].
  by apply (StronglySorted_lookup_lt packing_le _ i j r1 r2 Hs).
Qed.

(** The order of the rows, read on what the list prints. *)
Lemma packing_le_picked_before r1 r2 c1 c2 :
  packing_le r1 r2 →
  picked_before (columns_for_print (set_Destination_Country c1 r1))
                (columns_for_print (set_Destination_Country c2 r2)).
Proof.
  unfold packing_le, picked_before, sort_priority, courier_rank. simpl.
  intros [Hlt|[Heq Hord]]; [by left|right]. split; [done|].
  destruct (Order_Number r1) as [x|], (Order_Number r2) as [y|]; simpl in *.
  - destruct Hord as [[Hne Hle]|[Heo Hle]]; [left|right].
    + split; [congruence|done].
    + split; [congruence|done].
  - done.
  - by destruct Hord as [[_ ?]|[? _]].
  - by destruct Hord as [[? _]|[_ ?]].
Qed.

End packing_list_facts.

(** The packing list is the selection in picking order.  When a list is
    written, its rows are the rows left after the query and the exclusion
    of SKUs, none of them lost or repeated, with a missing product name
    printed as the empty string; they are sorted by courier (DHL, PostOne,
    DPD, then the others), then by order number, then by SKU; and no row
    has an excluded SKU. *)
Theorem packing_list_is_the_selection_in_picking_order
        (repr : string → string)
        (query : string → list Analysis.AnalysisRow →
                 Py.result (list Analysis.AnalysisRow))
        (analysis_df : list Analysis.AnalysisRow)
        (filters : option (list ReportQuery.Filter))
        (exclude_skus : option (list string))
        (print_list : list PackingLists.PrintRow) :
  PackingLists.create_packing_list repr query analysis_df filters exclude_skus
  = Some print_list →
  ∃ kept,
    PackingLists.filtered_orders repr query analysis_df filters exclude_skus
    = Py.Ok kept
    ∧ kept ≠ []
    ∧ (λ p, (PackingLists.print_Order_Number p, PackingLists.print_SKU p,
             default "" (PackingLists.print_Product_Name p),
             PackingLists.print_Quantity p,
             PackingLists.print_Shipping_Provider p)) <$> print_list
      ≡ₚ printed_columns <$> kept
    ∧ (∀ i j p q, (i < j)%nat →
                  print_list !! i = Some p → print_list !! j = Some q →
                  picked_before p q)
    ∧ ∀ skus p, exclude_skus = Some skus → p ∈ print_list →
                PackingLists.print_SKU p ∉ skus.
Proof.
  intros Hlist.
  apply create_packing_list_Some in Hlist as (kept & Hkept & Hne & ->).
  exists kept. split; [done|]. split; [done|].
  set (sorted_list :=
         PackingLists.sort_values (PackingLists.fill_blanks <$> kept)).
  split; [|split].
  - rewrite <- list_fmap_compose.
    assert (∀ seen l,
              (λ p, (PackingLists.print_Order_Number p,
                     PackingLists.print_SKU p,
                     default "" (PackingLists.print_Product_Name p),
                     PackingLists.print_Quantity p,
                     PackingLists.print_Shipping_Provider p))
                ∘ PackingLists.columns_for_print
                <$> PackingLists.blank_repeated_country seen l
              = printed_columns <$> l) as Hprinted.
    { intros seen l. revert seen.
      induction l as [|r l IH]; intros seen; [done|].
      simpl. rewrite IH. f_equal. by case_decide. }
    rewrite Hprinted. unfold sorted_list. rewrite sort_values_Permutation.
    rewrite <- list_fmap_compose.
    assert (printed_columns ∘ PackingLists.fill_blanks <$> kept
            = printed_columns <$> kept) as ->; [|done].
    apply list_fmap_ext. intros _ r _. unfold printed_columns. simpl.
    by destruct (Analysis.Product_Name r).
  - intros i j p q Hij Hp Hq. rewrite list_lookup_fmap in Hp, Hq.
    destruct (PackingLists.blank_repeated_country [] sorted_list !! i)
      as [r1'|] eqn:H1; [|done].
    destruct (PackingLists.blank_repeated_country [] sorted_list !! j)
      as [r2'|] eqn:H2; [|done].
    injection Hp as <-. injection Hq as <-.
    apply blank_repeated_country_lookup in H1 as (r1 & Hr1 & ->).
    apply blank_repeated_country_lookup in H2 as (r2 & Hr2 & ->).
    pose proof (sort_values_lookup_lt _ i j r1 r2 Hij Hr1 Hr2) as Hle.
    assert (∀ r, r ∈ sorted_list →
                 PackingLists.set_Destination_Country
                   (Analysis.Destination_Country r) r = r) as Hid
      by (by intros []).
    repeat case_decide.
    + by apply packing_le_picked_before.
    + rewrite <- (Hid r2) by (by eapply list_elem_of_lookup_2).
      by apply packing_le_picked_before.
    + rewrite <- (Hid r1) by (by eapply list_elem_of_lookup_2).
      by apply packing_le_picked_before.
    + rewrite <- (Hid r1), <- (Hid r2) by (by eapply list_elem_of_lookup_2).
      by apply packing_le_picked_before.
  - intros skus p -> Hp.
    apply list_elem_of_fmap in Hp as (r' & -> & Hr').
    apply list_elem_of_lookup_1 in Hr' as [i Hi].
    apply blank_repeated_country_lookup in Hi as (r1 & Hr1 & ->).
    apply list_elem_of_lookup_2 in Hr1.
    unfold sorted_list in Hr1. rewrite sort_values_Permutation in Hr1.
    apply list_elem_of_fmap in Hr1 as (r & -> & Hr).
    assert (∀ r0 : Analysis.AnalysisRow,
              PackingLists.print_SKU
                (PackingLists.columns_for_print
                   (PackingLists.set_Destination_Country (Some "") r0))
              = Analysis.SKU r0) as Hsku by done.
    case_decide; [rewrite Hsku|]; simpl; by eapply filtered_orders_excluded.
Qed.

Lemma packing_list_witness :
  ∃ print_list,
    PackingLists.create_packing_list quoted fulfillable_query
      [provider_row "1002" "DPD"; provider_row "1003" "DHL";
       provider_row "1001" "DHL"] None None = Some print_list
    ∧ (λ p, (PackingLists.print_Order_Number p,
             PackingLists.print_Shipping_Provider p)) <$> print_list
      = [(Some "1001", Some "DHL"); (Some "1003", Some "DHL");
         (Some "1002", Some "DPD")]
    ∧ ∀ p q, print_list !! 1%nat = Some p → print_list !! 2%nat = Some q →
             picked_before p q.
Proof.
  eexists.
  destruct (packing_list_is_the_selection_in_picking_order
              quoted fulfillable_query
              [provider_row "1002" "DPD"; provider_row "1003" "DHL";
               provider_row "1001" "DHL"] None None _ eq_refl)
    as (kept & _ & _ & _ & Horder & _).
  split; [reflexivity|]. split; [reflexivity|].
  intros p q Hp Hq. apply (Horder 1%nat 2%nat p q); [lia|exact Hp|exact Hq].
Defined.

Section packing_country.
Import Py Pd Analysis ReportQuery PackingLists.

Lemma blank_repeated_country_Order_Number seen l :
  Order_Number <$> blank_repeated_country seen l = Order_Number <$> l.
Proof.
  revert seen. induction l as [|r l IH]; intros seen; [done|].
  simpl. rewrite IH. f_equal. by case_decide.
Qed.

(** An order number is on a row above row [i]. *)
Lemma elem_of_take_lookup {A} (l : list A) (i : nat) (x : A) :
  x ∈ take i l ↔ ∃ j, (j < i)%nat ∧ l !! j = Some x.
Proof.
  rewrite list_elem_of_lookup. split.
  - intros (j & Hj). pose proof (lookup_lt_Some _ _ _ Hj) as Hlt.
    rewrite length_take in Hlt. exists j. split; [lia|].
    by rewrite lookup_take_lt in Hj by lia.
  - intros (j & Hlt & Hj). exists j. by rewrite lookup_take_lt by lia.
Qed.

End packing_country.

(** The destination country is shown once per order.  In a packing list
    every row has a country cell, empty or not.  A row that has a row of
    the same order number above it, anywhere in the list, shows the empty
    string.  A row that has none is a selected row as it was, with its
    country, or the empty string if that was missing. *)
Theorem destination_country_is_shown_once_per_order
        (repr : string → string)
        (query : string → list Analysis.AnalysisRow →
                 Py.result (list Analysis.AnalysisRow))
        (analysis_df : list Analysis.AnalysisRow)
        (filters : option (list ReportQuery.Filter))
        (exclude_skus : option (list string))
        (print_list : list PackingLists.PrintRow) :
  PackingLists.create_packing_list repr query analysis_df filters exclude_skus
  = Some print_list →
  ∃ kept,
    PackingLists.filtered_orders repr query analysis_df filters exclude_skus
    = Py.Ok kept
    ∧ length print_list = length kept
    ∧ ∀ i p, print_list !! i = Some p →
        is_Some (PackingLists.print_Destination_Country p)
        ∧ ((∃ j q, (j < i)%nat ∧ print_list !! j = Some q
                   ∧ PackingLists.print_Order_Number q
                     = PackingLists.print_Order_Number p) →
           PackingLists.print_Destination_Country p = Some "")
        ∧ ((∀ j q, (j < i)%nat → print_list !! j = Some q →
                   PackingLists.print_Order_Number q
                   ≠ PackingLists.print_Order_Number p) →
           ∃ r, r ∈ kept
                ∧ p = PackingLists.columns_for_print (PackingLists.fill_blanks r)
                ∧ PackingLists.print_Destination_Country p
                  = Some (default "" (Analysis.Destination_Country r))).
Proof.
  intros Hlist.
  apply create_packing_list_Some in Hlist as (kept & Hkept & Hne & ->).
  exists kept. split; [exact Hkept|].
  set (sorted_list :=
         PackingLists.sort_values (PackingLists.fill_blanks <$> kept)).
  split.
  { rewrite length_fmap, blank_repeated_country_length.
    unfold sorted_list. by rewrite sort_values_Permutation, length_fmap. }
  assert (PackingLists.print_Order_Number
            <$> (PackingLists.columns_for_print
                   <$> PackingLists.blank_repeated_country [] sorted_list)
          = Analysis.Order_Number <$> sorted_list) as Hnumbers.
  { rewrite <- list_fmap_compose.
    by rewrite <- (blank_repeated_country_Order_Number [] sorted_list). }
  intros i p Hp. rewrite list_lookup_fmap in Hp.
  destruct (PackingLists.blank_repeated_country [] sorted_list !! i)
    as [r'|] eqn:Hr'; [|done].
  injection Hp as <-.
  apply blank_repeated_country_lookup in Hr' as (r1 & Hr1 & ->).
  assert (r1 ∈ sorted_list) as Hin by (by eapply list_elem_of_lookup_2).
  unfold sorted_list in Hin. rewrite sort_values_Permutation in Hin.
  apply list_elem_of_fmap in Hin as (r & -> & Hr).
  set (o := Analysis.Order_Number (PackingLists.fill_blanks r)).
  assert ((∃ j q, (j < i)%nat
                  ∧ (PackingLists.columns_for_print
                       <$> PackingLists.blank_repeated_country [] sorted_list)
                    !! j = Some q
                  ∧ PackingLists.print_Order_Number q = o)
          ↔ o ∈ Analysis.Order_Number <$> take i sorted_list) as Habove.
  { rewrite fmap_take, elem_of_take_lookup, <- Hnumbers. split.
    - intros (j & q & Hlt & Hq & Ho). exists j. split; [done|].
      by rewrite list_lookup_fmap, Hq, <- Ho.
    - intros (j & Hlt & Hj). rewrite list_lookup_fmap in Hj.
      destruct (_ !! j) as [q|] eqn:Hq; [|done]. injection Hj as Ho.
      by exists j, q. }
  destruct (decide (o ∈ [] ∨ o ∈ Analysis.Order_Number <$> take i sorted_list))
    as [Hseen|Hnew].
  - split; [by eexists|]. split; [done|]. intros Hnone. exfalso.
    destruct Hseen as [Hnil|Hseen]; [by apply elem_of_nil in Hnil|].
    apply Habove in Hseen as (j & q & Hlt & Hq & Ho).
    by apply (Hnone j q Hlt Hq).
  - split; [by eexists|]. split.
    + intros Hex. destruct Hnew. right. by apply Habove.
    + intros _. exists r. done.
Qed.

Lemma destination_country_witness :
  ∃ print_list,
    PackingLists.create_packing_list quoted fulfillable_query country_rows
      None None = Some print_list
    ∧ (λ p, (PackingLists.print_Order_Number p,
             PackingLists.print_Destination_Country p)) <$> print_list
      = [(Some "1001", Some "DE"); (Some "1001", Some "");
         (Some "1002", Some "FR")]
    ∧ ∀ p, print_list !! 1%nat = Some p →
           PackingLists.print_Destination_Country p = Some "".
Proof.
  eexists. split; [reflexivity|]. split; [reflexivity|].
  intros p Hp.
  destruct (destination_country_is_shown_once_per_order
              quoted fulfillable_query country_rows None None _ eq_refl)
    as (kept & _ & _ & Hrows).
  apply (proj1 (proj2 (Hrows 1%nat p Hp))).
  eexists 0%nat, _. split; [lia|]. split; [reflexivity|].
  vm_compute in Hp. by injection Hp as <-.
Defined.

Section packing_borders.
Import Py Pd Analysis ReportQuery PackingLists.

Lemma differs_Some above o :
  differs (Some above) o = true ↔ above = None ∨ o = None ∨ above ≠ o.
Proof.
  destruct above as [a|], o as [b|]; simpl;
    rewrite ?bool_decide_eq_true; split; try tauto; try congruence.
  - intros Hne. right. right. congruence.
  - intros [?|[?|Hne]]; try done. congruence.
Qed.

(** The running count rises by one between two rows that differ and
    stays as it is between two rows that do not. *)
Lemma order_boundaries_go_step above count l i x y :
  l !! i = Some x → l !! S i = Some y →
  ∃ b, order_boundaries_go above count l !! i = Some b
       ∧ order_boundaries_go above count l !! S i
         = Some (b + if differs (Some x) y then 1 else 0).
Proof.
  revert above count i. induction l as [|o l IH]; intros above count i Hx Hy;
    [done|].
  destruct i as [|i].
  - injection Hx as ->. destruct l as [|o' l]; [done|].
    injection Hy as ->. simpl. eexists. split; reflexivity.
  - simpl in Hx, Hy. simpl. by apply IH.
Qed.

Lemma order_boundaries_length l : length (order_boundaries l) = length l.
Proof.
  unfold order_boundaries. generalize (@None (option string)) 0.
  induction l as [|o l IH]; intros above count; simpl; [done|].
  by rewrite IH.
Qed.

Lemma boundary_changes l i x y :
  l !! i = Some x → l !! S i = Some y →
  default 0 (order_boundaries l !! S i) ≠ default 0 (order_boundaries l !! i)
  ↔ differs (Some x) y = true.
Proof.
  intros Hx Hy. unfold order_boundaries.
  destruct (order_boundaries_go_step None 0 l i x y Hx Hy) as (b & -> & ->).
  set (d := differs (Some x) y). simpl. destruct d.
  - split; [done|]. intros _. lia.
  - split; [|done]. intros Hne. exfalso. lia.
Qed.

Lemma starts_group_S l i x y :
  l !! i = Some x → l !! S i = Some y →
  starts_group l (S i) ↔ differs (Some x) y = true.
Proof.
  intros Hx Hy. rewrite differs_Some. unfold starts_group.
  replace (S i - 1)%nat with i by lia. split.
  - intros [?|(above & o & Ha & Ho & Hd)]; [done|].
    rewrite Hx in Ha. rewrite Hy in Ho. by simplify_eq.
  - intros Hd. right. by exists x, y.
Qed.

Lemma is_top_starts_group l i :
  (i < length l)%nat →
  bool_decide (i = 0%nat)
  || bool_decide (default 0 (order_boundaries l !! i)
                  ≠ default 0 (order_boundaries l !! (i - 1)%nat)) = true
  ↔ starts_group l i.
Proof.
  intros Hlt. destruct i as [|i].
  { split; [by left|done]. }
  simpl. replace (i - 0)%nat with i by lia.
  destruct (lookup_lt_is_Some_2 l i) as [x Hx]; [lia|].
  destruct (lookup_lt_is_Some_2 l (S i)) as [y Hy]; [lia|].
  rewrite bool_decide_eq_true, (boundary_changes l i x y Hx Hy).
  symmetry. by apply starts_group_S.
Qed.

Lemma is_bottom_ends_group l i :
  (i < length l)%nat →
  bool_decide (i = (length l - 1)%nat)
  || bool_decide (default 0 (order_boundaries l !! i)
                  ≠ default 0 (order_boundaries l !! (i + 1)%nat)) = true
  ↔ ends_group l i.
Proof.
  intros Hlt. unfold ends_group.
  destruct (decide (i = (length l - 1)%nat)) as [Hlast|Hnot].
  { rewrite (bool_decide_eq_true_2 _ Hlast). simpl. split; [by left|done]. }
  rewrite (bool_decide_eq_false_2 _ Hnot). simpl.
  replace (i + 1)%nat with (S i) by lia.
  destruct (lookup_lt_is_Some_2 l i) as [x Hx]; [lia|].
  destruct (lookup_lt_is_Some_2 l (S i)) as [y Hy]; [lia|].
  rewrite bool_decide_eq_true.
  rewrite (starts_group_S l i x y Hx Hy).
  rewrite <- (boundary_changes l i x y Hx Hy). split.
  - intros Hne. right. intros Heq. by apply Hne.
  - intros [?|Hne]; [done|]. intros Heq. by apply Hne.
Qed.

Lemma row_type_cases (is_top is_bottom : bool) (S E : Prop) :
  (is_top = true ↔ S) → (is_bottom = true ↔ E) →
  let row_type :=
    if is_top && is_bottom then "full"
    else if is_top then "top"
    else if is_bottom then "bottom"
    else "middle" in
  (row_type = "full" ↔ S ∧ E) ∧ (row_type = "top" ↔ S ∧ ¬ E)
  ∧ (row_type = "bottom" ↔ ¬ S ∧ E) ∧ (row_type = "middle" ↔ ¬ S ∧ ¬ E).
Proof.
  intros HS HE.
  assert (false ≠ true) as Hft by discriminate.
  destruct is_top, is_bottom; simpl;
    (split; [|split; [|split]]); (split; [intros Heq|intros [H1 H2]]);
    try discriminate Heq; try reflexivity; try tauto.
Qed.

End packing_borders.

(** The borders that group the rows of an order.  A row of the packing
    list is formatted as "full" when it starts and ends a group, as "top"
    when it only starts one, as "bottom" when it only ends one and as
    "middle" otherwise; it starts a group when it is the first row or its
    order number is not that of the row above, and ends one when it is the
    last row or the row below starts a group. *)
Theorem borders_mark_the_first_and_last_row_of_an_order
        (order_numbers : list (option string)) (row_num : nat) :
  (row_num < length order_numbers)%nat →
  (PackingLists.row_type order_numbers row_num = "full"
   ↔ starts_group order_numbers row_num ∧ ends_group order_numbers row_num)
  ∧ (PackingLists.row_type order_numbers row_num = "top"
     ↔ starts_group order_numbers row_num
       ∧ ¬ ends_group order_numbers row_num)
  ∧ (PackingLists.row_type order_numbers row_num = "bottom"
     ↔ ¬ starts_group order_numbers row_num
       ∧ ends_group order_numbers row_num)
  ∧ (PackingLists.row_type order_numbers row_num = "middle"
     ↔ ¬ starts_group order_numbers row_num
       ∧ ¬ ends_group order_numbers row_num).
Proof.
  intros Hlt.
  apply row_type_cases.
  - by apply is_top_starts_group.
  - by apply is_bottom_ends_group.
Qed.

Lemma borders_witness :
  PackingLists.row_type [Some "1001"; Some "1001"; Some "1002"] 0 = "top"
  ∧ PackingLists.row_type [Some "1001"; Some "1001"; Some "1002"] 1 = "bottom"
  ∧ PackingLists.row_type [Some "1001"; Some "1001"; Some "1002"] 2 = "full"
  ∧ ends_group [Some "1001"; Some "1001"; Some "1002"] 1.
Proof.
  split; [reflexivity|]. split; [reflexivity|]. split; [reflexivity|].
  refine (proj2 (proj1 (proj1 (proj2 (proj2
            (borders_mark_the_first_and_last_row_of_an_order
               [Some "1001"; Some "1001"; Some "1002"] 1 _)))) eq_refl)).
  simpl. lia.
Defined.
